(** * Regional extraction of gridded climate data and its verification

    A shallow embedding of the extraction scripts
    ([src/extractors/netcdf_to_csv.py], [netcdf_to_csv.py]) and of the
    verification scripts ([src/verifiers/netcdf_verifier.py],
    [netcdf_verifier.py]).

    Conventions of the model.
    - A float is modelled by the rational it denotes ([Q]); NaN, the
      infinities, the negative zero and masked cells have no counterpart, and
      arithmetic on cells is exact.
    - The time axis of a dataset is held already decoded ([num2date] belongs
      to the netCDF library); a decoded date is a record of calendar fields
      ordered lexicographically.
    - A CSV file is held as the table that pandas reads from it: the text of
      the file is not modelled, and a cell of the [Date] column is the text
      ['%Y-%m-%d'] of a date, which
      [pd.to_datetime(...).dt.strftime('%Y-%m-%d')] gives back as it is.
    - A Python exception is a value of [exn]; a function that can raise
      returns a [result]. *)

From Stdlib Require Import List Bool Arith ZArith QArith Qabs Lia.
From Stdlib Require Import String Ascii DecimalString.
Import ListNotations.

Local Open Scope Q_scope.

(** ** Exceptions and results *)

Inductive coordinate_type := Latitude | Longitude.

(** A decoded date: [secs] is the time of day in seconds. *)
Record datetime := mk_datetime { year : Z; month : Z; day : Z; secs : Z }.

Inductive exn :=
| ValueError_out_of_bounds (axis : coordinate_type) (coordinate : Q)
    (* f"{coordinate_type} value {coordinate} out of bounds." *)
| ValueError_starting_date (d : datetime)
    (* f"Starting date {starting_date} out of dataset bounds." *)
| ValueError_ending_date (d : datetime)
    (* f"Ending date {ending_date} out of dataset bounds." *)
| ValueError_no_data
    (* "No data to save. ..." *)
| ValueError_numpy
    (* raised inside numpy, pandas or netCDF4: a reduction of an empty
       array, a reshape of an empty array, shapes that do not fit, more
       indices than a variable has dimensions *)
| StopIteration
| IndexError
| KeyError
| UnboundLocalError
| FileNotFoundError.

Inductive result (A : Type) :=
| Ok (a : A)
| Raise (e : exn).
Arguments Ok {A} a.
Arguments Raise {A} e.

Definition bind {A B} (r : result A) (k : A -> result B) : result B :=
  match r with
  | Ok a => k a
  | Raise e => Raise e
  end.

Notation "x <- c ;; k" := (bind c (fun x => k))
  (at level 61, c at next level, right associativity).
Notation "' pat <- c ;; k" := (bind c (fun x => match x with pat => k end))
  (at level 61, pat pattern, c at next level, right associativity).

(** ** Comparisons and reductions on floats *)

Definition Qltb (x y : Q) : bool := negb (Qle_bool y x).

(** [coords.min()] and [coords.max()] of a non-empty array [c :: cs]. *)
Definition amin (c : Q) (cs : list Q) : Q :=
  fold_left (fun m x => if Qltb x m then x else m) cs c.

Definition amax (c : Q) (cs : list Q) : Q :=
  fold_left (fun m x => if Qltb m x then x else m) cs c.

(** [np.argmin]: a forward scan that replaces the running minimum only by a
    strictly smaller value, so the first occurrence of the minimum wins. *)
Fixpoint argmin_from (best_i : nat) (best : Q) (i : nat) (l : list Q) : nat :=
  match l with
  | [] => best_i
  | x :: r =>
      if Qltb x best then argmin_from i x (S i) r
      else argmin_from best_i best (S i) r
  end.

Definition argmin (l : list Q) : result nat :=
  match l with
  | [] => Raise ValueError_numpy
  | x :: r => Ok (argmin_from 0%nat x 1%nat r)
  end.

(** ** The grid *)

(** The three-dimensional variable, indexed [time, latitude, longitude]. *)
Definition array3 := list (list (list Q)).

Record Grid := mk_Grid {
  latitude : list Q;
  longitude : list Q;
  time : list datetime;
  (* the variables other than the three axes, in the order of the file;
     none of them bears the name of an axis *)
  data_variables : list (string * array3)
}.

Definition axis_values (g : Grid) (t : coordinate_type) : list Q :=
  match t with
  | Latitude => latitude g
  | Longitude => longitude g
  end.

(** ** [find_index] (the same in the four scripts) *)

Definition find_index (dataset : Grid) (coordinate : Q)
    (coordinate_type : coordinate_type) : result nat :=
  let coords := axis_values dataset coordinate_type in
  match coords with
  | [] => Raise ValueError_numpy
  | c :: cs =>
      if Qltb coordinate (amin c cs) || Qltb (amax c cs) coordinate
      then Raise (ValueError_out_of_bounds coordinate_type coordinate)
      else argmin (map (fun x => Qabs (x - coordinate)) coords)
  end.

(** A Python slice [slice(start, stop)] with both ends given and
    non-negative. *)
Definition slice := (nat * nat)%type.

Definition apply_slice {A} (s : slice) (l : list A) : list A :=
  firstn (snd s - fst s) (skipn (fst s) l).

(** ** [get_lat_lon_indices] (the same in the four scripts) *)

Record Region := mk_Region { nw_lat : Q; nw_lon : Q; se_lat : Q; se_lon : Q }.

Definition get_lat_lon_indices (dataset : Grid) (r : Region)
    : result (slice * slice) :=
  nw_lat_idx <- find_index dataset (nw_lat r) Latitude ;;
  nw_lon_idx <- find_index dataset (nw_lon r) Longitude ;;
  se_lat_idx <- find_index dataset (se_lat r) Latitude ;;
  se_lon_idx <- find_index dataset (se_lon r) Longitude ;;
  let lat_range := (Nat.min nw_lat_idx se_lat_idx,
                    Nat.max nw_lat_idx se_lat_idx + 1)%nat in
  let lon_range := (Nat.min nw_lon_idx se_lon_idx,
                    Nat.max nw_lon_idx se_lon_idx + 1)%nat in
  Ok (lat_range, lon_range).

(** The region with its two corners exchanged. *)
Definition swap_corners (r : Region) : Region :=
  mk_Region (se_lat r) (se_lon r) (nw_lat r) (nw_lon r).

(** ** Dates *)

Definition datetime_compare (a b : datetime) : comparison :=
  match Z.compare (year a) (year b) with
  | Eq =>
      match Z.compare (month a) (month b) with
      | Eq =>
          match Z.compare (day a) (day b) with
          | Eq => Z.compare (secs a) (secs b)
          | c => c
          end
      | c => c
      end
  | c => c
  end.

Definition dt_lt (a b : datetime) : bool :=
  match datetime_compare a b with Lt => true | _ => false end.
Definition dt_gt (a b : datetime) : bool :=
  match datetime_compare a b with Gt => true | _ => false end.
Definition dt_ge (a b : datetime) : bool :=
  match datetime_compare a b with Lt => false | _ => true end.
Definition dt_le (a b : datetime) : bool :=
  match datetime_compare a b with Gt => false | _ => true end.

(** A date argument of the scripts, the text [YYYY-MM-DD] already split in
    its three numbers; [datetime.strptime(s, '%Y-%m-%d')] is midnight of
    that day. *)
Record iso_date := mk_iso_date { iso_year : Z; iso_month : Z; iso_day : Z }.

Definition strptime (d : iso_date) : datetime :=
  mk_datetime (iso_year d) (iso_month d) (iso_day d) 0.

Definition digits (n : Z) : string :=
  NilEmpty.string_of_uint (N.to_uint (Z.to_N n)).

Definition zero_pad (width : nat) (s : string) : string :=
  (concat "" (repeat "0" (width - String.length s)) ++ s)%string.

(** [date.strftime('%Y-%m-%d')], for years from 0 on. *)
Definition strftime (d : datetime) : string :=
  (zero_pad 4 (digits (year d)) ++ "-" ++ zero_pad 2 (digits (month d))
     ++ "-" ++ zero_pad 2 (digits (day d)))%string.

(** [next(i for i, x in enumerate(l) if p x)], counting from [i]. *)
Fixpoint first_index {A} (p : A -> bool) (i : nat) (l : list A) : result nat :=
  match l with
  | [] => Raise StopIteration
  | x :: r => if p x then Ok i else first_index p (S i) r
  end.

(** [l[0]] and [l[-1]]. *)
Definition item_first {A} (l : list A) : result A :=
  match l with
  | [] => Raise IndexError
  | x :: _ => Ok x
  end.

Definition item_last {A} (l : list A) : result A :=
  match l with
  | [] => Raise IndexError
  | x :: r => Ok (last r x)
  end.

(** The block [if starting_date is not None: ...] of [process_data] and of
    [verify_data], over the decoded time axis [dates]. *)
Definition start_block (dates : list datetime) (starting_date : option iso_date)
    : result (option nat) :=
  match starting_date with
  | None => Ok None
  | Some sd =>
      let start_date := strptime sd in
      d0 <- item_first dates ;;
      dn <- item_last dates ;;
      if dt_lt start_date d0 || dt_gt start_date dn
      then Raise (ValueError_starting_date start_date)
      else
        i <- first_index (fun date => dt_ge date start_date) 0 dates ;;
        Ok (Some i)
  end.

(** The block [if ending_date is not None: ...]. *)
Definition end_block (dates : list datetime) (ending_date : option iso_date)
    : result (option nat) :=
  match ending_date with
  | None => Ok None
  | Some ed =>
      let end_date := strptime ed in
      d0 <- item_first dates ;;
      dn <- item_last dates ;;
      if dt_lt end_date d0 || dt_gt end_date dn
      then Raise (ValueError_ending_date end_date)
      else
        i <- first_index (fun date => dt_gt date end_date) 0 dates ;;
        Ok (Some i)
  end.

(** The time window [start_idx:end_idx], [start_idx:] or [:] chosen by the
    three-way test of [extract_data], [extract_date] and [load_netcdf_data]:
    an end index without a start index selects the whole axis. *)
Definition time_window {A} (start_idx end_idx : option nat) (l : list A)
    : list A :=
  match start_idx, end_idx with
  | Some s, Some e => apply_slice (s, e) l
  | Some s, None => skipn s l
  | None, _ => l
  end.

(** ** Formatting a float with [:.1f] *)

(** The nearest integer to a non-negative rational, ties to even. *)
Definition round_half_even (q : Q) : Z :=
  let n := Qnum q in
  let d := Z.pos (Qden q) in
  let fl := (n / d)%Z in
  match (2 * (n mod d) ?= d)%Z with
  | Lt => fl
  | Gt => (fl + 1)%Z
  | Eq => if Z.even fl then fl else (fl + 1)%Z
  end.

Definition format_1f (x : Q) : string :=
  let tenths := round_half_even (Qabs x * 10) in
  ((if Qltb x 0 then "-" else "") ++ digits (tenths / 10) ++ "."
     ++ digits (tenths mod 10))%string.

(** ** The output of the scripts *)

Inductive line :=
| Print_cwd
| Print_first_date (subset : bool) (d : datetime)
| Print_last_date (subset : bool) (d : datetime)
| Print_shape (rows cols : nat)
| Print_number_of_headers (n : nat)
| Print_saved (path : string)
| Print_skipping (path : string)
| Print_verifying (csv_path netcdf_path : string)
| Print_date_mismatch (csv_date netcdf_date : string)
| Print_data_mismatch_found
| Print_mismatch_at (idx : nat * nat) (csv_value netcdf_value : Q)
| Print_verification_successful.

(** A CSV artifact as a table: the header row, then one row per date. The
    [Date] column is the first one and holds text, the others hold numbers;
    the text of the file and pandas' writer and reader are not modelled. *)
Record csv_table := mk_csv_table {
  csv_header : list string;
  csv_rows : list (string * list Q)
}.

(** The files and the terminal. [dir_listing] is what [os.listdir] returns
    for the dataset directory; a name in it that is not in [datasets] is a
    file that cannot be opened (removed meanwhile, a dangling link). *)
Record world := mk_world {
  dir_listing : list string;
  datasets : list (string * Grid);
  csv_files : list (string * csv_table);
  stdout : list line
}.

Definition M (A : Type) : Type := world -> result A * world.

Definition ret {A} (a : A) : M A := fun w => (Ok a, w).

Definition raise {A} (e : exn) : M A := fun w => (Raise e, w).

Definition lift {A} (r : result A) : M A := fun w => (r, w).

Definition bindM {A B} (c : M A) (k : A -> M B) : M B :=
  fun w =>
    match c w with
    | (Ok a, w') => k a w'
    | (Raise e, w') => (Raise e, w')
    end.

Notation "x <~ c ;; k" := (bindM c (fun x => k))
  (at level 61, c at next level, right associativity).
Notation "' pat <~ c ;; k" := (bindM c (fun x => match x with pat => k end))
  (at level 61, pat pattern, c at next level, right associativity).

(** The world after some more lines were printed. *)
Definition add_lines (w : world) (ls : list line) : world :=
  mk_world (dir_listing w) (datasets w) (csv_files w) (stdout w ++ ls).

Definition print (l : line) : M unit :=
  fun w => (Ok tt, add_lines w [l]).

(** A [for] loop whose body can raise. *)
Fixpoint for_each {A} (body : A -> M unit) (l : list A) : M unit :=
  match l with
  | [] => ret tt
  | x :: r => _ <~ body x ;; for_each body r
  end.

Fixpoint assoc {A} (k : string) (l : list (string * A)) : option A :=
  match l with
  | [] => None
  | (k', v) :: r => if String.eqb k k' then Some v else assoc k r
  end.

(** [Dataset(filepath, 'r')]. *)
Definition open_dataset (filepath : string) : M Grid :=
  fun w =>
    match assoc filepath (datasets w) with
    | Some g => (Ok g, w)
    | None => (Raise FileNotFoundError, w)
    end.

(** [df.to_csv(path, index=False)]: the file is created or replaced. *)
Definition to_csv (path : string) (t : csv_table) : M unit :=
  fun w => (Ok tt, mk_world (dir_listing w) (datasets w)
                            ((path, t) :: csv_files w) (stdout w)).

(** [pd.read_csv(filepath)]. *)
Definition read_csv (filepath : string) : M csv_table :=
  fun w =>
    match assoc filepath (csv_files w) with
    | Some t => (Ok t, w)
    | None => (Raise FileNotFoundError, w)
    end.

(** ** Paths and file names *)

Definition endswith (s suffix : string) : bool :=
  let n := String.length s in
  let m := String.length suffix in
  (m <=? n)%nat && String.eqb (substring (n - m) m s) suffix.

(** [os.path.join(dir, name)] of [posixpath]: a [name] that starts with the
    separator replaces [dir]; an empty [dir], or one that ends with the
    separator, takes no further separator. A call with more than two
    arguments joins them from left to right. *)
Definition path_join (dir name : string) : string :=
  if prefix "/" name then name
  else if String.eqb dir EmptyString || endswith dir "/"
  then (dir ++ name)%string
  else (dir ++ "/" ++ name)%string.

(** [s.split(sep)] for a separator of one character. *)
Fixpoint str_split (sep : ascii) (s : string) : list string :=
  match s with
  | EmptyString => [EmptyString]
  | String c r =>
      if Ascii.eqb c sep then EmptyString :: str_split sep r
      else match str_split sep r with
           | [] => [String c EmptyString]
           | h :: t => String c h :: t
           end
  end.

(** [s.replace(old, '')] for a non-empty [old]: every occurrence found from
    left to right is dropped; [skip] counts the characters of an occurrence
    still to drop. *)
Fixpoint remove_from (old : string) (skip : nat) (s : string) : string :=
  match s with
  | EmptyString => EmptyString
  | String c r =>
      match skip with
      | S k => remove_from old k r
      | O =>
          if prefix old s then remove_from old (String.length old - 1) r
          else String c (remove_from old 0 r)
      end
  end.

Definition remove_all (old s : string) : string := remove_from old 0 s.

(** [filename.split('_')[0]] and
    [filename.split('_')[-1].replace('.nc', '')]. *)
Definition variable_of_filename (filename : string) : string :=
  hd EmptyString (str_split "_" filename).

Definition version_of_filename (filename : string) : string :=
  remove_all ".nc" (last (str_split "_" filename) EmptyString).

Definition csv_name (variable_name city version : string) : string :=
  (variable_name ++ "_" ++ city ++ "_" ++ version ++ ".csv")%string.

(** ** The extractor of [src/extractors/netcdf_to_csv.py] *)

Definition generate_headers (lat_range lon_range : slice) (dataset : Grid)
    : list string :=
  let latitudes := apply_slice lat_range (latitude dataset) in
  let longitudes := apply_slice lon_range (longitude dataset) in
  "Date"%string ::
    flat_map (fun lat =>
                map (fun lon => (format_1f lat ++ ", " ++ format_1f lon)%string)
                    longitudes)
             latitudes.

(** The object built by [RegionalDataExtractor.__init__]; [variable_name] is
    [None] when [detect_variable] falls off the end of its loop. *)
Record RegionalDataExtractor := mk_RegionalDataExtractor {
  dataset : Grid;
  variable_name : option string;
  output_filename : string;
  region : Region
}.

Definition detect_variable (g : Grid) : option string :=
  match data_variables g with
  | [] => None
  | (name, _) :: _ => Some name
  end.

(** The names under which [dataset.variables] holds the three axes. *)
Definition axis_names : list string :=
  ["longitude"; "latitude"; "time"]%string.

Definition is_axis_name (name : string) : bool :=
  existsb (String.eqb name) axis_names.

(** [dataset.variables[name]], where the three indices
    [[window, lat_range, lon_range]] follow. [dataset.variables] holds the
    data variables and the three axes: the name of an axis is found, and the
    three indices are then refused for a variable of one dimension; any other
    name that is not the one of a data variable is a [KeyError]. *)
Definition variable (g : Grid) (name : option string) : result array3 :=
  match name with
  | None => Raise KeyError
  | Some n =>
      match assoc n (data_variables g) with
      | Some v => Ok v
      | None => if is_axis_name n then Raise ValueError_numpy
                else Raise KeyError
      end
  end.

(** The constructor: it opens the dataset again and detects the variable
    (the creation of the output directory is not modelled). *)
Definition new_RegionalDataExtractor (filepath : string) (r : Region)
    (output_directory output_name : string) : M RegionalDataExtractor :=
  g <~ open_dataset filepath ;;
  ret (mk_RegionalDataExtractor g (detect_variable g)
         (path_join output_directory output_name) r).

(** [var[window, lat_range, lon_range]]. *)
Definition subarray (lat_range lon_range : slice) (planes : array3) : array3 :=
  map (fun plane => map (apply_slice lon_range) (apply_slice lat_range plane))
      planes.

(** [data.reshape(data.shape[0], -1)]: numpy cannot infer the second
    dimension of an array without rows. *)
Definition reshape_rows (data : array3) : result (list (list Q)) :=
  match data with
  | [] => Raise ValueError_numpy
  | _ => Ok (map (@List.concat Q) data)
  end.

Definition extract_data (self : RegionalDataExtractor)
    (lat_range lon_range : slice) (start_idx end_idx : option nat)
    : result (list (list Q)) :=
  var <- variable (dataset self) (variable_name self) ;;
  reshape_rows (subarray lat_range lon_range (time_window start_idx end_idx var)).

Definition extract_date (self : RegionalDataExtractor)
    (start_idx end_idx : option nat) : list string :=
  map strftime (time_window start_idx end_idx (time (dataset self))).

Definition print_time_info (self : RegionalDataExtractor)
    (start_idx end_idx : option nat) : M unit :=
  let dates := time (dataset self) in
  match start_idx with
  | Some _ =>
      let dates_subset := time_window start_idx end_idx dates in
      d0 <~ lift (item_first dates_subset) ;;
      _ <~ print (Print_first_date true d0) ;;
      dn <~ lift (item_last dates_subset) ;;
      print (Print_last_date true dn)
  | None =>
      d0 <~ lift (item_first dates) ;;
      _ <~ print (Print_first_date false d0) ;;
      dn <~ lift (item_last dates) ;;
      print (Print_last_date false dn)
  end.

(** The shape of a two-dimensional array with at least one row. *)
Definition ncols (data : list (list Q)) : nat :=
  match data with
  | [] => 0
  | row :: _ => List.length row
  end.

Definition size (data : list (list Q)) : nat :=
  (List.length data * ncols data)%nat.

(** [save_to_csv(data, dates, headers)]: [pd.DataFrame(data, columns=...)]
    refuses a number of labels other than the number of columns, and
    [df.insert(0, 'Date', dates)] a number of dates other than the number of
    rows. *)
Definition save_to_csv (self : RegionalDataExtractor) (data : list (list Q))
    (dates : list string) (headers : list string) : M unit :=
  _ <~ print (Print_shape (List.length data) (ncols data)) ;;
  _ <~ print (Print_number_of_headers (List.length headers)) ;;
  if (size data =? 0)%nat then raise ValueError_no_data
  else if negb (List.length (tl headers) =? ncols data)%nat
  then raise ValueError_numpy
  else if negb (List.length dates =? List.length data)%nat
  then raise ValueError_numpy
  else
    _ <~ to_csv (output_filename self)
           (mk_csv_table ("Date"%string :: tl headers) (combine dates data)) ;;
    print (Print_saved (output_filename self)).

Definition process_data (self : RegionalDataExtractor)
    (starting_date ending_date : option iso_date) : M unit :=
  let dates := time (dataset self) in
  start_idx <~ lift (start_block dates starting_date) ;;
  end_idx <~ lift (end_block dates ending_date) ;;
  _ <~ print_time_info self start_idx end_idx ;;
  ' (lat_range, lon_range) <~
     lift (get_lat_lon_indices (dataset self) (region self)) ;;
  data <~ lift (extract_data self lat_range lon_range start_idx end_idx) ;;
  let dates := extract_date self start_idx end_idx in
  let headers := generate_headers lat_range lon_range (dataset self) in
  save_to_csv self data dates headers.

Record NetCDFProcessor := mk_NetCDFProcessor {
  netcdf_dir : string;
  coords : list (string * Region);
  (* config['csv_dir'] *)
  config_csv_dir : string
}.

Definition process_file (self : NetCDFProcessor) (filename : string)
    (starting_date ending_date : option iso_date) : M unit :=
  let filepath := path_join (netcdf_dir self) filename in
  fun w =>
    match open_dataset filepath w with
    | (Raise FileNotFoundError, w') => print (Print_skipping filepath) w'
    | (Raise e, w') => (Raise e, w')
    | (Ok _, w') =>
        let variable_name := variable_of_filename filename in
        let version := version_of_filename filename in
        let output_subdir :=
          path_join (path_join (path_join ".." "..") (config_csv_dir self))
                    variable_name in
        for_each
          (fun '(city, r) =>
             let output_filename := csv_name variable_name city version in
             city_extractor <~
               new_RegionalDataExtractor filepath r output_subdir
                 output_filename ;;
             process_data city_extractor starting_date ending_date)
          (coords self) w'
    end.

Definition process_all (self : NetCDFProcessor)
    (starting_date ending_date : option iso_date) : M unit :=
  _ <~ print Print_cwd ;;
  fun w =>
    let netcdf_files := filter (fun f => endswith f ".nc") (dir_listing w) in
    for_each (fun filename => process_file self filename starting_date ending_date)
             netcdf_files w.

(** ** The verifier of [src/verifiers/netcdf_verifier.py] *)

Record NetCDFVerifier := mk_NetCDFVerifier {
  v_netcdf_dir : string;
  v_csv_dir : string;
  city_coords : list (string * Region);
  v_starting_date : option iso_date;
  v_ending_date : option iso_date
}.

(** [load_csv_data]: the [Date] column, and the other columns as a matrix.
    The cells of the [Date] column are held as the text [strftime] writes,
    ['%Y-%m-%d']: on such cells [pd.to_datetime(...).dt.strftime('%Y-%m-%d')]
    gives back the text it is given, and the step is not modelled further. *)
Definition load_csv_data (filepath : string)
    : M (list string * list (list Q)) :=
  df <~ read_csv filepath ;;
  if negb (String.eqb (hd EmptyString (csv_header df)) "Date")
  then raise KeyError
  else ret (map fst (csv_rows df), map snd (csv_rows df)).

Definition load_netcdf_data (filepath : string) (variable_name : string)
    (lat_range lon_range : slice) (start_idx end_idx : option nat)
    : M (list string * list (list Q)) :=
  dataset <~ open_dataset filepath ;;
  let dates := time_window start_idx end_idx (time dataset) in
  var <~ lift (variable dataset (Some variable_name)) ;;
  let data := subarray lat_range lon_range (time_window start_idx end_idx var) in
  let dates := map strftime dates in
  data <~ lift (reshape_rows data) ;;
  ret (dates, data).

(** The tolerances of [np.allclose(a, b, atol=1e-6)] and
    [np.isclose(a, b, atol=1e-6)]: [rtol] keeps its default [1e-05]. Both
    constants are taken at their decimal value. *)
Definition atol : Q := 1 # 1000000.
Definition rtol : Q := 1 # 100000.

(** numpy's test on two finite numbers:
    [absolute(a - b) <= atol + rtol * absolute(b)]. *)
Definition isclose (a b : Q) : bool :=
  Qle_bool (Qabs (a - b)) (atol + rtol * Qabs b).

(** Broadcasting of one dimension. *)
Definition broadcast_dim (a b : nat) : result nat :=
  if (a =? b)%nat then Ok a
  else if (a =? 1)%nat then Ok b
  else if (b =? 1)%nat then Ok a
  else Raise ValueError_numpy.

(** The cell [(i, j)] of [m] seen through broadcasting: a dimension of
    length one is read at index 0. *)
Definition broadcast_cell (m : list (list Q)) (i j : nat) : Q :=
  let i' := if (List.length m =? 1)%nat then 0%nat else i in
  let j' := if (ncols m =? 1)%nat then 0%nat else j in
  nth j' (nth i' m []) 0.

(** [np.isclose] on two matrices, as a matrix of booleans. A matrix without
    rows has no columns here (numpy keeps the column count of an empty
    array). *)
Definition isclose_matrix (a b : list (list Q)) : result (list (list bool)) :=
  r <- broadcast_dim (List.length a) (List.length b) ;;
  c <- broadcast_dim (ncols a) (ncols b) ;;
  Ok (map (fun i =>
             map (fun j => isclose (broadcast_cell a i j) (broadcast_cell b i j))
                 (seq 0 c))
          (seq 0 r)).

Definition all_true (mask : list (list bool)) : bool :=
  forallb (forallb (fun x => x)) mask.

(** The index pairs that [np.where(~mask)] gives once zipped: the positions
    of the [false] cells, row by row. *)
Definition where_false (mask : list (list bool)) : list (nat * nat) :=
  flat_map (fun ir : nat * list bool =>
              flat_map (fun jx : nat * bool =>
                          if snd jx then [] else [(fst ir, fst jx)])
                       (combine (seq 0 (List.length (snd ir))) (snd ir)))
           (combine (seq 0 (List.length mask)) mask).

(** [m[idx]] for a pair of indices. *)
Definition item2 (m : list (list Q)) (idx : nat * nat) : result Q :=
  match nth_error m (fst idx) with
  | None => Raise IndexError
  | Some row =>
      match nth_error row (snd idx) with
      | None => Raise IndexError
      | Some x => Ok x
      end
  end.

(** The end of [verify_data], from the comment [# Check if dates match] on:
    the comparison of what was loaded from the CSV file with what was loaded
    from the dataset. [np.allclose] and the later [np.isclose] compute the
    same matrix of booleans, [mask]. *)
Definition compare_loaded (csv_dates : list string) (csv_data : list (list Q))
    (netcdf_dates : list string) (netcdf_data : list (list Q)) : M bool :=
  if list_eq_dec string_dec csv_dates netcdf_dates
  then
    mask <~ lift (isclose_matrix csv_data netcdf_data) ;;
    if negb (all_true mask)
    then
      _ <~ print Print_data_mismatch_found ;;
      _ <~ for_each
             (fun idx =>
                a <~ lift (item2 csv_data idx) ;;
                b <~ lift (item2 netcdf_data idx) ;;
                print (Print_mismatch_at idx a b))
             (where_false mask) ;;
      ret false
    else
      _ <~ print Print_verification_successful ;;
      ret true
  else
    c0 <~ lift (item_first csv_dates) ;;
    n0 <~ lift (item_first netcdf_dates) ;;
    _ <~ print (Print_date_mismatch c0 n0) ;;
    ret false.

(** In [verify_data] the time axis is decoded inside the block of the
    starting date, so the block of the ending date finds [dates] unbound
    when there is no starting date. *)
Definition verifier_end_block (dates : list datetime)
    (starting_date ending_date : option iso_date) : result (option nat) :=
  match ending_date, starting_date with
  | None, _ => Ok None
  | Some _, None => Raise UnboundLocalError
  | Some _, Some _ => end_block dates ending_date
  end.

Definition verify_data (self : NetCDFVerifier)
    (netcdf_filepath csv_filepath : string) (r : Region)
    (variable_name : string) : M bool :=
  dataset <~ open_dataset netcdf_filepath ;;
  ' (lat_range, lon_range) <~ lift (get_lat_lon_indices dataset r) ;;
  let dates := time dataset in
  start_idx <~ lift (start_block dates (v_starting_date self)) ;;
  end_idx <~ lift (verifier_end_block dates (v_starting_date self)
                     (v_ending_date self)) ;;
  ' (csv_dates, csv_data) <~ load_csv_data csv_filepath ;;
  ' (netcdf_dates, netcdf_data) <~
     load_netcdf_data netcdf_filepath variable_name lat_range lon_range
       start_idx end_idx ;;
  compare_loaded csv_dates csv_data netcdf_dates netcdf_data.

Definition process_and_verify_files (self : NetCDFVerifier) : M unit :=
  fun w =>
    let netcdf_files := filter (fun f => endswith f ".nc") (dir_listing w) in
    for_each
      (fun filename =>
         let variable_name := variable_of_filename filename in
         let version := version_of_filename filename in
         for_each
           (fun '(city, r) =>
              let netcdf_filepath := path_join (v_netcdf_dir self) filename in
              let csv_filepath :=
                path_join (path_join (v_csv_dir self) variable_name)
                          (csv_name variable_name city version) in
              _ <~ print (Print_verifying csv_filepath netcdf_filepath) ;;
              _ <~ verify_data self netcdf_filepath csv_filepath r
                     variable_name ;;
              ret tt)
           (city_coords self))
      netcdf_files w.

(** Extraction of one region followed by its verification, on the same
    dataset file, region and date range; the verifier is given the variable
    name [name]. *)
Definition extract_then_verify (filepath : string) (r : Region)
    (output_directory output_name : string)
    (starting_date ending_date : option iso_date) (name : string) : M bool :=
  extractor <~ new_RegionalDataExtractor filepath r output_directory
                 output_name ;;
  _ <~ process_data extractor starting_date ending_date ;;
  verify_data (mk_NetCDFVerifier EmptyString EmptyString [] starting_date
                 ending_date)
    filepath (output_filename extractor) r name.

(** ** The older scripts [netcdf_to_csv.py] and [netcdf_verifier.py]

    They know a starting date only, and their CSV files carry no coordinate
    headers. [find_index], [get_lat_lon_indices], the block of the starting
    date, [load_csv_data] and the comparison are the ones above. *)
Module Legacy.

Definition extract_data (self : RegionalDataExtractor)
    (lat_range lon_range : slice) (start_idx : option nat)
    : result (list (list Q)) :=
  var <- variable (dataset self) (variable_name self) ;;
  reshape_rows (subarray lat_range lon_range (time_window start_idx None var)).

Definition extract_date (self : RegionalDataExtractor)
    (start_idx : option nat) : list string :=
  map strftime (time_window start_idx None (time (dataset self))).

Definition print_time_info (self : RegionalDataExtractor)
    (start_idx : option nat) : M unit :=
  let dates := time (dataset self) in
  match start_idx with
  | Some s =>
      let dates_subset := skipn s dates in
      d0 <~ lift (item_first dates_subset) ;;
      _ <~ print (Print_first_date true d0) ;;
      dn <~ lift (item_last dates_subset) ;;
      print (Print_last_date true dn)
  | None =>
      d0 <~ lift (item_first dates) ;;
      _ <~ print (Print_first_date false d0) ;;
      dn <~ lift (item_last dates) ;;
      print (Print_last_date false dn)
  end.

(** [pd.DataFrame(data)] labels the columns [0 .. n-1]. *)
Definition save_to_csv (self : RegionalDataExtractor) (data : list (list Q))
    (dates : list string) : M unit :=
  if (size data =? 0)%nat then raise ValueError_no_data
  else if negb (List.length dates =? List.length data)%nat
  then raise ValueError_numpy
  else
    let labels := map (fun k => digits (Z.of_nat k)) (seq 0 (ncols data)) in
    _ <~ to_csv (output_filename self)
           (mk_csv_table ("Date"%string :: labels) (combine dates data)) ;;
    print (Print_saved (output_filename self)).

Definition process_data (self : RegionalDataExtractor)
    (starting_date : option iso_date) : M unit :=
  start_idx <~ lift (start_block (time (dataset self)) starting_date) ;;
  _ <~ print_time_info self start_idx ;;
  ' (lat_range, lon_range) <~
     lift (get_lat_lon_indices (dataset self) (region self)) ;;
  data <~ lift (extract_data self lat_range lon_range start_idx) ;;
  let dates := extract_date self start_idx in
  save_to_csv self data dates.

Record NetCDFProcessor := mk_NetCDFProcessor {
  netcdf_dir : string;
  coords : list (string * Region)
}.

Definition process_file (self : NetCDFProcessor) (filename : string)
    (starting_date : option iso_date) : M unit :=
  let filepath := path_join (netcdf_dir self) filename in
  fun w =>
    match open_dataset filepath w with
    | (Raise FileNotFoundError, w') => print (Print_skipping filepath) w'
    | (Raise e, w') => (Raise e, w')
    | (Ok _, w') =>
        let variable_name := variable_of_filename filename in
        let version := version_of_filename filename in
        let output_subdir := path_join "CSVClimateData" variable_name in
        for_each
          (fun '(city, r) =>
             let output_filename := csv_name variable_name city version in
             city_extractor <~
               new_RegionalDataExtractor filepath r output_subdir
                 output_filename ;;
             process_data city_extractor starting_date)
          (coords self) w'
    end.

Definition process_all (self : NetCDFProcessor)
    (starting_date : option iso_date) : M unit :=
  fun w =>
    let netcdf_files := filter (fun f => endswith f ".nc") (dir_listing w) in
    for_each (fun filename => process_file self filename starting_date)
             netcdf_files w.

Definition load_netcdf_data (filepath : string) (variable_name : string)
    (lat_range lon_range : slice) (start_idx : option nat)
    : M (list string * list (list Q)) :=
  dataset <~ open_dataset filepath ;;
  let dates := time_window start_idx None (time dataset) in
  var <~ lift (variable dataset (Some variable_name)) ;;
  let data := subarray lat_range lon_range (time_window start_idx None var) in
  let dates := map strftime dates in
  data <~ lift (reshape_rows data) ;;
  ret (dates, data).

Definition verify_data (starting_date : option iso_date)
    (netcdf_filepath csv_filepath : string) (r : Region)
    (variable_name : string) : M bool :=
  dataset <~ open_dataset netcdf_filepath ;;
  ' (lat_range, lon_range) <~ lift (get_lat_lon_indices dataset r) ;;
  start_idx <~ lift (start_block (time dataset) starting_date) ;;
  ' (csv_dates, csv_data) <~ load_csv_data csv_filepath ;;
  ' (netcdf_dates, netcdf_data) <~
     load_netcdf_data netcdf_filepath variable_name lat_range lon_range
       start_idx ;;
  compare_loaded csv_dates csv_data netcdf_dates netcdf_data.

End Legacy.

(** ** A small dataset for the examples

    Latitudes descend as in the E-OBS files; three days, one variable. *)
Definition jan (d : Z) : datetime := mk_datetime 2013 1 d 0.

Definition example_plane (t : Z) : list (list Q) :=
  map (fun i => map (fun j => inject_Z (100 * t + 10 * i + j) / 4)
                    [0; 1; 2]%Z)
      [0; 1; 2]%Z.

Definition example_grid : Grid :=
  mk_Grid [52; 103 # 2; 51] [-1; -1 # 2; 0] [jan 1; jan 2; jan 3]
          [("tg"%string, map example_plane [1; 2; 3]%Z)].

Definition example_region : Region := mk_Region 52 (-1) 51 0.

Definition example_filename : string := "tg_ens_mean_v29.0e.nc".

Definition example_world : world :=
  mk_world [example_filename]
           [(path_join "netcdf4data" example_filename, example_grid)] [] [].

(** ** Predicates of the statements *)

(** [t] lies in the closed interval [[min(A), max(A)]] of a non-empty
    array. *)
Definition in_bounds (A : list Q) (t : Q) : Prop :=
  (exists a, In a A /\ a <= t) /\ (exists b, In b A /\ t <= b).

(** [t] lies outside of it. *)
Definition out_of_bounds (A : list Q) (t : Q) : Prop :=
  (forall a, In a A -> t < a) \/ (forall a, In a A -> a < t).

Definition region_in_bounds (g : Grid) (r : Region) : Prop :=
  in_bounds (latitude g) (nw_lat r) /\ in_bounds (longitude g) (nw_lon r)
  /\ in_bounds (latitude g) (se_lat r) /\ in_bounds (longitude g) (se_lon r).

(** The absolute difference that [find_index] minimises. *)
Definition distance (A : list Q) (t : Q) (j : nat) : Q :=
  Qabs (nth j A 0 - t).

(** The lexicographic order that [datetime_compare] decides. *)
Definition earlier (a b : datetime) : Prop :=
  (year a < year b
   \/ (year a = year b
       /\ (month a < month b
           \/ (month a = month b
               /\ (day a < day b
                   \/ (day a = day b /\ secs a < secs b))))))%Z.

(** A time axis that never steps back. *)
Fixpoint monotonic (dates : list datetime) : bool :=
  match dates with
  | [] => true
  | x :: r =>
      match r with
      | [] => true
      | y :: _ => dt_le x y && monotonic r
      end
  end.

(** The run of [process_data] on a dataset held in memory, as
    [RegionalDataExtractor(...).process_data(...)] does once the file is
    open. *)
Definition extract (g : Grid) (r : Region) (out : string)
    (starting_date ending_date : option iso_date) : M unit :=
  process_data (mk_RegionalDataExtractor g (detect_variable g) out r)
               starting_date ending_date.

(** The cell [(i, j)] of a matrix. *)
Definition cell (m : list (list Q)) (idx : nat * nat) : Q :=
  nth (snd idx) (nth (fst idx) m []) 0.

(** A matrix of [r] rows and [c] columns. *)
Definition has_shape (m : list (list Q)) (r c : nat) : Prop :=
  List.length m = r /\ Forall (fun row => List.length row = c) m.

(** The positions of a matrix of [r] rows and [c] columns, row by row. *)
Definition all_positions (r c : nat) : list (nat * nat) :=
  flat_map (fun i => map (pair i) (seq 0 c)) (seq 0 r).

(** The test numpy applies to a pair of cells. *)
Definition within_tolerance (a b : Q) : Prop :=
  Qabs (a - b) <= (1 # 1000000) + (1 # 100000) * Qabs b.

(** The lines printed for the cells of [csv_data] that are not close to
    those of [netcdf_data]. *)
Definition mismatch_lines (csv_data netcdf_data : list (list Q)) (r c : nat)
    : list line :=
  map (fun idx => Print_mismatch_at idx (cell csv_data idx)
                                    (cell netcdf_data idx))
      (filter (fun idx => negb (isclose (cell csv_data idx)
                                        (cell netcdf_data idx)))
              (all_positions r c)).

(** The claim that a date mismatch is reported with the first pair of dates
    that differ. *)
Definition reports_first_divergent_pair (csv_dates netcdf_dates : list string)
    (printed : list line) : Prop :=
  exists k a b,
    nth_error csv_dates k = Some a /\ nth_error netcdf_dates k = Some b
    /\ a <> b /\ firstn k csv_dates = firstn k netcdf_dates
    /\ printed = [Print_date_mismatch a b].

(** A list with its element of index [n] replaced (a list too short is left
    as it is), and a matrix with one cell replaced: the alteration of a copy
    of an artifact. *)
Fixpoint update {A} (n : nat) (x : A) (l : list A) : list A :=
  match l, n with
  | [], _ => []
  | _ :: r, O => x :: r
  | y :: r, S k => y :: update k x r
  end.

Definition set_cell (m : list (list Q)) (idx : nat * nat) (v : Q)
    : list (list Q) :=
  update (fst idx) (update (snd idx) v (nth (fst idx) m [])) m.

(** ** A batch for the examples *)

(** A region whose north-west latitude lies north of the example grid. *)
Definition far_region : Region := mk_Region 60 (-1) 51 0.

Definition second_filename : string := "rr_ens_mean_v29.0e.nc".

Definition missing_filename : string := "qq_ens_mean_v29.0e.nc".

(** Two datasets that open, and a third name that is listed and cannot be
    opened. *)
Definition batch_world : world :=
  mk_world [missing_filename; example_filename; second_filename]
           [(path_join "netcdf4data" example_filename, example_grid);
            (path_join "netcdf4data" second_filename, example_grid)] [] [].

(** ** Well-formed datasets *)

(** A variable of the dataset is a dense array over the three axes. *)
Definition shaped (g : Grid) (var : array3) : Prop :=
  List.length var = List.length (time g)
  /\ Forall (fun plane => has_shape plane (List.length (latitude g))
                                    (List.length (longitude g))) var.

Definition well_formed (g : Grid) : Prop :=
  Forall (fun nv => shaped g (snd nv)) (data_variables g).

(** The index of the first time step of a window. *)
Definition window_start (start_idx : option nat) : nat :=
  match start_idx with
  | Some s => s
  | None => 0
  end.

(** [var[t, i, j]]. *)
Definition cell3 (var : array3) (t i j : nat) : Q :=
  nth j (nth i (nth t var []) []) 0.

(** The table that [process_data] writes for the window
    [(start_idx, end_idx, lat_range, lon_range)] and the extracted [data]. *)
Definition extraction_table (g : Grid) (lat_range lon_range : slice)
    (start_idx end_idx : option nat) (data : list (list Q)) : csv_table :=
  mk_csv_table
    ("Date"%string :: tl (generate_headers lat_range lon_range g))
    (combine (map strftime (time_window start_idx end_idx (time g))) data).

(** The world after a file was written and some lines were printed. *)
Definition saved_world (w : world) (path : string) (t : csv_table)
    (ls : list line) : world :=
  mk_world (dir_listing w) (datasets w) ((path, t) :: csv_files w)
           (stdout w ++ ls).

(** The lines that a successful [process_data] prints. *)
Definition extraction_lines (subset : bool) (first_date last_date : datetime)
    (data : list (list Q)) (headers : list string) (path : string)
    : list line :=
  [Print_first_date subset first_date; Print_last_date subset last_date;
   Print_shape (List.length data) (ncols data);
   Print_number_of_headers (List.length headers); Print_saved path].

Definition is_some {A} (o : option A) : bool :=
  match o with
  | Some _ => true
  | None => false
  end.

(** The date ranges for which extraction followed by verification is shown
    to pass: no date; a starting date within the bounds of the time axis;
    or, on a monotonic time axis, a starting and an ending date within the
    bounds, the ending date strictly before the last decoded date, with at
    least one time step between the two dates. *)
Definition supported_date_range (dates : list datetime)
    (starting_date ending_date : option iso_date) : Prop :=
  match starting_date, ending_date with
  | None, None => dates <> []
  | Some sd, None =>
      exists d0 dn,
        item_first dates = Ok d0 /\ item_last dates = Ok dn
        /\ dt_le d0 (strptime sd) = true /\ dt_le (strptime sd) dn = true
  | Some sd, Some ed =>
      monotonic dates = true
      /\ exists d0 dn,
           item_first dates = Ok d0 /\ item_last dates = Ok dn
           /\ dt_le d0 (strptime sd) = true /\ dt_le (strptime sd) dn = true
           /\ dt_le d0 (strptime ed) = true /\ dt_lt (strptime ed) dn = true
           /\ exists d, In d dates /\ dt_le (strptime sd) d = true
                        /\ dt_le d (strptime ed) = true
  | None, Some _ => False
  end.

(** A dataset with gaps in its time axis (one time step every four days). *)
Definition sparse_grid : Grid :=
  mk_Grid [52; 103 # 2; 51] [-1; -1 # 2; 0] [jan 1; jan 5; jan 9]
          [("tg"%string, map example_plane [1; 2; 3]%Z)].

Definition sparse_world : world :=
  mk_world [example_filename]
           [(path_join "netcdf4data" example_filename, sparse_grid)] [] [].

(** ** The point lookup of [src/verifiers/csv_VerifierWithCoordinates.py] *)

(** The exceptions of [get_data_for_day_and_coordinate]: its own two
    [ValueError]s, and those of the calls it makes. *)
Inductive lookup_error :=
| Date_not_found (target_date : iso_date)
    (* f"Date {target_date} not found in the dataset." *)
| No_variable_of_interest
    (* "No variable of interest found in the dataset." *)
| Raised (e : exn).

Definition datetime_eqb (a b : datetime) : bool :=
  match datetime_compare a b with Eq => true | _ => false end.

(** [np.where(flags)[0]]: the indices of the [true] flags, counting from
    [i]. *)
Fixpoint where_true (i : nat) (flags : list bool) : list nat :=
  match flags with
  | [] => []
  | x :: r => if x then i :: where_true (S i) r else where_true (S i) r
  end.

(** [var[t, i, j]] with three integer indices. *)
Definition item3 (var : array3) (t i j : nat) : result Q :=
  match nth_error var t with
  | None => Raise IndexError
  | Some plane => item2 plane (i, j)
  end.

(** The function reads the dataset and returns a number; it prints and
    writes nothing. The nearest indices are taken by [np.argmin] alone,
    without the bounds test of [find_index]. *)
Definition get_data_for_day_and_coordinate (w : world) (netcdf_file : string)
    (target_date : iso_date) (target_lat target_lon : Q)
    : lookup_error + Q :=
  match assoc netcdf_file (datasets w) with
  | None => inl (Raised FileNotFoundError)
  | Some dataset =>
      let dates := time dataset in
      let target_date_obj := strptime target_date in
      let date_idx :=
        where_true 0 (map (fun d => datetime_eqb d target_date_obj) dates) in
      match date_idx with
      | [] => inl (Date_not_found target_date)
      | date_idx :: _ =>
          match argmin (map (fun x => Qabs (x - target_lat))
                            (latitude dataset)) with
          | Raise e => inl (Raised e)
          | Ok lat_idx =>
              match argmin (map (fun x => Qabs (x - target_lon))
                                (longitude dataset)) with
              | Raise e => inl (Raised e)
              | Ok lon_idx =>
                  match detect_variable dataset with
                  | None => inl No_variable_of_interest
                  | Some variable_name =>
                      match variable dataset (Some variable_name) with
                      | Raise e => inl (Raised e)
                      | Ok var =>
                          match item3 var date_idx lat_idx lon_idx with
                          | Raise e => inl (Raised e)
                          | Ok data => inr data
                          end
                      end
                  end
              end
          end
      end
  end.

(** ** More predicates of the statements *)

(** The dates that a starting date and an optional ending date select. *)
Definition in_date_range (sd : iso_date) (ed : option iso_date)
    (d : datetime) : bool :=
  dt_ge d (strptime sd)
  && match ed with
     | Some e => dt_le d (strptime e)
     | None => true
     end.

(** The character [c] occurs in [s]. *)
Fixpoint has_char (c : ascii) (s : string) : bool :=
  match s with
  | EmptyString => false
  | String x r => Ascii.eqb x c || has_char c r
  end.

(** The text [old] occurs in [s]. *)
Definition occurs (old s : string) : Prop :=
  exists a b, s = (a ++ old ++ b)%string.

(** A region of one point. *)
Definition point_region (lat lon : Q) : Region := mk_Region lat lon lat lon.

(** The dataset with its first data variable only. *)
Definition first_variable_only (g : Grid) : Grid :=
  mk_Grid (latitude g) (longitude g) (time g)
          (match data_variables g with
           | [] => []
           | v :: _ => [v]
           end).

(** The world with the table of one CSV file put in front of the others. *)
Definition with_csv (w : world) (path : string) (t : csv_table) : world :=
  mk_world (dir_listing w) (datasets w) ((path, t) :: csv_files w) (stdout w).

(** A dataset with two data variables, and its file. *)
Definition two_variable_grid : Grid :=
  mk_Grid [52; 103 # 2; 51] [-1; -1 # 2; 0] [jan 1; jan 2; jan 3]
          [("tg"%string, map example_plane [1; 2; 3]%Z);
           ("rr"%string, map example_plane [4; 5; 6]%Z)].

(** An action that changes nothing of the world but the terminal, to which
    it may add lines. *)
Definition prints_only {A} (c : M A) : Prop :=
  forall w, exists ls, snd (c w) = add_lines w ls.

(** An action whose result and printed lines do not depend on the world. *)
Definition world_blind {A} (c : M A) : Prop :=
  exists res ls, forall w, c w = (res, add_lines w ls).

(** ** The units of a batch *)

(** The body of the loop of [process_file] over the regions, in the script
    of [src/extractors] and in the older one: the work done for one region
    of one file. *)
Definition region_unit (self : NetCDFProcessor) (filename : string)
    (starting_date ending_date : option iso_date)
    : string * Region -> M unit :=
  let filepath := path_join (netcdf_dir self) filename in
  let variable_name := variable_of_filename filename in
  let version := version_of_filename filename in
  let output_subdir :=
    path_join (path_join (path_join ".." "..") (config_csv_dir self))
              variable_name in
  fun '(city, r) =>
    let output_filename := csv_name variable_name city version in
    city_extractor <~
      new_RegionalDataExtractor filepath r output_subdir output_filename ;;
    process_data city_extractor starting_date ending_date.

Definition legacy_region_unit (self : Legacy.NetCDFProcessor)
    (filename : string) (starting_date : option iso_date)
    : string * Region -> M unit :=
  let filepath := path_join (Legacy.netcdf_dir self) filename in
  let variable_name := variable_of_filename filename in
  let version := version_of_filename filename in
  let output_subdir := path_join "CSVClimateData" variable_name in
  fun '(city, r) =>
    let output_filename := csv_name variable_name city version in
    city_extractor <~
      new_RegionalDataExtractor filepath r output_subdir output_filename ;;
    Legacy.process_data city_extractor starting_date.

(** The four coordinates of a region, in the order in which
    [get_lat_lon_indices] looks them up. *)
Definition corners (r : Region) : list (coordinate_type * Q) :=
  [(Latitude, nw_lat r); (Longitude, nw_lon r);
   (Latitude, se_lat r); (Longitude, se_lon r)].

(** ** Proof steps *)

(** One step of a run: the next action is a pure computation whose result
    [E] gives. *)
Ltac bind_lift E := unfold bindM at 1, lift at 1; rewrite E.

(** * Properties *)

(** ** Comparisons on floats *)

Lemma Qltb_true (x y : Q) : Qltb x y = true <-> x < y.
Proof.
  unfold Qltb. rewrite negb_true_iff. split.
  - intro H. apply Qnot_le_lt. intro L.
    apply Qle_bool_iff in L. congruence.
  - intro H. destruct (Qle_bool y x) eqn:E; [|reflexivity].
    apply Qle_bool_iff in E. exfalso. exact (Qlt_not_le _ _ H E).
Qed.

Lemma Qltb_false (x y : Q) : Qltb x y = false <-> y <= x.
Proof.
  unfold Qltb. rewrite negb_false_iff. apply Qle_bool_iff.
Qed.

Lemma amin_spec (cs : list Q) :
  forall c, amin c cs <= c /\ (forall x, In x cs -> amin c cs <= x)
            /\ In (amin c cs) (c :: cs).
Proof.
  unfold amin. induction cs as [|x cs IH]; intro c; simpl.
  - split; [apply Qle_refl|]. split; [intros ? []|now left].
  - destruct (Qltb x c) eqn:E.
    + apply Qltb_true in E. destruct (IH x) as (H1 & H2 & H3).
      split; [eapply Qle_trans; [exact H1|apply Qlt_le_weak, E]|].
      split; [intros y [<-|Hy]; auto|]. right. exact H3.
    + apply Qltb_false in E. destruct (IH c) as (H1 & H2 & H3).
      split; [exact H1|].
      split; [intros y [<-|Hy]; [eapply Qle_trans; eauto|auto]|].
      destruct H3 as [H3|H3]; [now left|right; right; exact H3].
Qed.

Lemma amax_spec (cs : list Q) :
  forall c, c <= amax c cs /\ (forall x, In x cs -> x <= amax c cs)
            /\ In (amax c cs) (c :: cs).
Proof.
  unfold amax. induction cs as [|x cs IH]; intro c; simpl.
  - split; [apply Qle_refl|]. split; [intros ? []|now left].
  - destruct (Qltb c x) eqn:E.
    + apply Qltb_true in E. destruct (IH x) as (H1 & H2 & H3).
      split; [eapply Qle_trans; [apply Qlt_le_weak, E|exact H1]|].
      split; [intros y [<-|Hy]; auto|]. right. exact H3.
    + apply Qltb_false in E. destruct (IH c) as (H1 & H2 & H3).
      split; [exact H1|].
      split; [intros y [<-|Hy]; [eapply Qle_trans; eauto|auto]|].
      destruct H3 as [H3|H3]; [now left|right; right; exact H3].
Qed.

(** The bounds test of [find_index] in terms of the elements of the axis. *)
Lemma below_amin (c : Q) (cs : list Q) (t : Q) :
  Qltb t (amin c cs) = true <-> forall a, In a (c :: cs) -> t < a.
Proof.
  rewrite Qltb_true. destruct (amin_spec cs c) as (H1 & H2 & H3). split.
  - intros H a [<-|Ha].
    + eapply Qlt_le_trans; eauto.
    + eapply Qlt_le_trans; eauto.
  - intro H. apply H. exact H3.
Qed.

Lemma above_amax (c : Q) (cs : list Q) (t : Q) :
  Qltb (amax c cs) t = true <-> forall a, In a (c :: cs) -> a < t.
Proof.
  rewrite Qltb_true. destruct (amax_spec cs c) as (H1 & H2 & H3). split.
  - intros H a [<-|Ha].
    + eapply Qle_lt_trans; eauto.
    + eapply Qle_lt_trans; eauto.
  - intro H. apply H. exact H3.
Qed.

(** ** [np.argmin] *)

Lemma skipn_cons_nth {A} (d : A) (F : list A) :
  forall i x r, skipn i F = x :: r -> nth i F d = x /\ skipn (S i) F = r
                                     /\ (i < List.length F)%nat.
Proof.
  induction F as [|y F IH]; intros [|i] x r H; simpl in *; try discriminate.
  - inversion H; subst. repeat split. lia.
  - destruct (IH i x r H) as (H1 & H2 & H3). repeat split; auto. lia.
Qed.

Lemma argmin_from_spec (F : list Q) :
  forall l i bi,
    skipn i F = l -> (bi < i)%nat -> (i <= List.length F)%nat ->
    (forall j, (j < i)%nat -> nth bi F 0 <= nth j F 0) ->
    (forall j, (j < bi)%nat -> nth bi F 0 < nth j F 0) ->
    let r := argmin_from bi (nth bi F 0) i l in
    (r < List.length F)%nat
    /\ (forall j, (j < List.length F)%nat -> nth r F 0 <= nth j F 0)
    /\ (forall j, (j < r)%nat -> nth r F 0 < nth j F 0).
Proof.
  induction l as [|x l IH]; intros i bi Hs Hbi Hi Hle Hlt; simpl.
  - assert (List.length F <= i)%nat.
    { destruct (Nat.le_gt_cases (List.length F) i) as [?|G]; [assumption|].
      apply (f_equal (@List.length Q)) in Hs. rewrite length_skipn in Hs.
      simpl in Hs. lia. }
    repeat split; [lia| |assumption]. intros j Hj. apply Hle. lia.
  - destruct (skipn_cons_nth 0 F i x l Hs) as (Hx & Hs' & Hi').
    destruct (Qltb x (nth bi F 0)) eqn:E.
    + apply Qltb_true in E. rewrite <- Hx. apply IH; auto; try lia.
      * intros j Hj. destruct (Nat.eq_dec j i) as [->|N]; [apply Qle_refl|].
        rewrite Hx. eapply Qle_trans; [apply Qlt_le_weak, E|]. apply Hle. lia.
      * intros j Hj. rewrite Hx. eapply Qlt_le_trans; [exact E|].
        apply Hle. exact Hj.
    + apply Qltb_false in E. apply IH; auto; try lia.
      intros j Hj. destruct (Nat.eq_dec j i) as [->|N]; [now rewrite Hx|].
      apply Hle. lia.
Qed.

Lemma argmin_spec (l : list Q) :
  l <> [] ->
  exists r, argmin l = Ok r /\ (r < List.length l)%nat
            /\ (forall j, (j < List.length l)%nat -> nth r l 0 <= nth j l 0)
            /\ (forall j, (j < r)%nat -> nth r l 0 < nth j l 0).
Proof.
  destruct l as [|x l]; [congruence|intros _].
  eexists; split; [reflexivity|].
  apply (argmin_from_spec (x :: l) l 1 0); simpl; auto; try lia.
  intros j Hj. assert (j = 0)%nat by lia. subst. apply Qle_refl.
Qed.

(** ** [find_index] *)

Lemma in_bounds_test (c : Q) (cs : list Q) (t : Q) :
  in_bounds (c :: cs) t ->
  Qltb t (amin c cs) || Qltb (amax c cs) t = false.
Proof.
  intros [(a & Ha & La) (b & Hb & Lb)]. apply orb_false_iff. split.
  - destruct (Qltb t (amin c cs)) eqn:E; [|reflexivity].
    exfalso. apply (Qlt_not_le _ _ (proj1 (below_amin c cs t) E a Ha) La).
  - destruct (Qltb (amax c cs) t) eqn:E; [|reflexivity].
    exfalso. apply (Qlt_not_le _ _ (proj1 (above_amax c cs t) E b Hb) Lb).
Qed.

Lemma out_of_bounds_test (c : Q) (cs : list Q) (t : Q) :
  Qltb t (amin c cs) || Qltb (amax c cs) t = true <->
  out_of_bounds (c :: cs) t.
Proof.
  rewrite orb_true_iff, below_amin, above_amax. reflexivity.
Qed.

Lemma not_out_in_bounds (c : Q) (cs : list Q) (t : Q) :
  Qltb t (amin c cs) || Qltb (amax c cs) t = false -> in_bounds (c :: cs) t.
Proof.
  intro H. apply orb_false_iff in H. destruct H as [H1 H2].
  apply Qltb_false in H1, H2.
  destruct (amin_spec cs c) as (_ & _ & I1).
  destruct (amax_spec cs c) as (_ & _ & I2).
  split.
  - exists (amin c cs). split; assumption.
  - exists (amax c cs). split; assumption.
Qed.

Lemma nth_distances (A : list Q) (t : Q) (j : nat) :
  (j < List.length A)%nat ->
  nth j (map (fun x => Qabs (x - t)) A) 0 = distance A t j.
Proof.
  intro H. unfold distance.
  rewrite (nth_indep _ 0 (Qabs (0 - t))) by (now rewrite length_map).
  apply (map_nth (fun x => Qabs (x - t))).
Qed.

Lemma find_index_in_bounds (g : Grid) (ax : coordinate_type) (t : Q) :
  in_bounds (axis_values g ax) t ->
  exists i,
    find_index g t ax = Ok i
    /\ (i < List.length (axis_values g ax))%nat
    /\ (forall j, (j < List.length (axis_values g ax))%nat ->
                  distance (axis_values g ax) t i
                  <= distance (axis_values g ax) t j)
    /\ (forall j, (j < i)%nat ->
                  distance (axis_values g ax) t i
                  < distance (axis_values g ax) t j).
Proof.
  intro H. unfold find_index.
  destruct (axis_values g ax) as [|c cs] eqn:EA.
  { destruct H as [(a & [] & _) _]. }
  rewrite (in_bounds_test c cs t H).
  destruct (argmin_spec (map (fun x => Qabs (x - t)) (c :: cs)))
    as (r & E & L & Hmin & Hfirst); [discriminate|].
  rewrite length_map in L, Hmin.
  exists r. split; [exact E|]. split; [exact L|]. split.
  - intros j Hj. rewrite <- !nth_distances by assumption. now apply Hmin.
  - intros j Hj. rewrite <- !nth_distances by lia. now apply Hfirst.
Qed.

(** C4. For a non-empty coordinate axis and a target within
    [[min(A), max(A)]], [find_index] returns an index [i] such that no index
    has a strictly smaller absolute difference to the target, and every
    index before [i] has a strictly larger one: [i] is the lowest index
    attaining the minimum. *)
Theorem find_index_nearest_first (g : Grid) (ax : coordinate_type) (t : Q) :
  axis_values g ax <> [] ->
  in_bounds (axis_values g ax) t ->
  exists i,
    find_index g t ax = Ok i
    /\ (i < List.length (axis_values g ax))%nat
    /\ (forall j, (j < List.length (axis_values g ax))%nat ->
                  ~ distance (axis_values g ax) t j
                    < distance (axis_values g ax) t i)
    /\ (forall j, (j < i)%nat ->
                  distance (axis_values g ax) t i
                  < distance (axis_values g ax) t j).
Proof.
  intros _ H.
  destruct (find_index_in_bounds g ax t H) as (i & E & L & Hmin & Hfirst).
  exists i. repeat split; auto.
  intros j Hj. apply Qle_not_lt. now apply Hmin.
Qed.

Lemma example_latitude_in_bounds : in_bounds (latitude example_grid) (518 # 10).
Proof.
  split.
  - exists 51. split; [simpl; tauto|]. unfold Qle; simpl; lia.
  - exists 52. split; [simpl; tauto|]. unfold Qle; simpl; lia.
Qed.

Lemma find_index_nearest_first_witness :
  exists i,
    find_index example_grid (518 # 10) Latitude = Ok i
    /\ (i < 3)%nat
    /\ (forall j, (j < 3)%nat ->
                  ~ distance (latitude example_grid) (518 # 10) j
                    < distance (latitude example_grid) (518 # 10) i)
    /\ (forall j, (j < i)%nat ->
                  distance (latitude example_grid) (518 # 10) i
                  < distance (latitude example_grid) (518 # 10) j).
Proof.
  apply (find_index_nearest_first example_grid Latitude (518 # 10)).
  - discriminate.
  - exact example_latitude_in_bounds.
Defined.

(** C5. For a non-empty coordinate axis, [find_index] raises the
    out-of-bounds [ValueError] exactly when the target lies outside
    [[min(A), max(A)]], and for a target inside the interval it returns an
    index. *)
Theorem find_index_out_of_bounds_iff (g : Grid) (ax : coordinate_type) (t : Q) :
  axis_values g ax <> [] ->
  (find_index g t ax = Raise (ValueError_out_of_bounds ax t)
   <-> out_of_bounds (axis_values g ax) t)
  /\ ((exists e, find_index g t ax = Raise e)
      <-> out_of_bounds (axis_values g ax) t)
  /\ (in_bounds (axis_values g ax) t -> exists i, find_index g t ax = Ok i).
Proof.
  intro NE.
  assert (In_ok : in_bounds (axis_values g ax) t ->
                  exists i, find_index g t ax = Ok i).
  { intro H. destruct (find_index_in_bounds g ax t H) as (i & E & _).
    now exists i. }
  assert (Out : out_of_bounds (axis_values g ax) t ->
                find_index g t ax = Raise (ValueError_out_of_bounds ax t)).
  { unfold find_index. destruct (axis_values g ax) as [|c cs]; [congruence|].
    intro H. apply out_of_bounds_test in H. now rewrite H. }
  assert (Raised : forall e, find_index g t ax = Raise e ->
                             out_of_bounds (axis_values g ax) t).
  { intros e E. unfold find_index in E, In_ok.
    destruct (axis_values g ax) as [|c cs]; [congruence|].
    destruct (Qltb t (amin c cs) || Qltb (amax c cs) t) eqn:B.
    - now apply out_of_bounds_test.
    - destruct (In_ok (not_out_in_bounds c cs t B)) as (i & Ei).
      congruence. }
  split; [|split].
  - split; [apply Raised|apply Out].
  - split; [intros (e & E); eapply Raised; eauto|].
    intro H. eexists. now apply Out.
  - exact In_ok.
Qed.

Lemma find_index_out_of_bounds_iff_witness :
  (find_index example_grid 53 Latitude
   = Raise (ValueError_out_of_bounds Latitude 53)
   <-> out_of_bounds (latitude example_grid) 53)
  /\ ((exists e, find_index example_grid 53 Latitude = Raise e)
      <-> out_of_bounds (latitude example_grid) 53)
  /\ (in_bounds (latitude example_grid) 53 ->
      exists i, find_index example_grid 53 Latitude = Ok i).
Proof.
  apply (find_index_out_of_bounds_iff example_grid Latitude 53).
  discriminate.
Defined.

(** ** [get_lat_lon_indices] *)

(** The window for in-bounds corners, and its symmetry. *)
Lemma get_lat_lon_indices_in_bounds (g : Grid) (r : Region) :
  region_in_bounds g r ->
  exists a b c d,
    find_index g (nw_lat r) Latitude = Ok a
    /\ find_index g (nw_lon r) Longitude = Ok b
    /\ find_index g (se_lat r) Latitude = Ok c
    /\ find_index g (se_lon r) Longitude = Ok d
    /\ get_lat_lon_indices g r
       = Ok ((Nat.min a c, Nat.max a c + 1)%nat,
             (Nat.min b d, Nat.max b d + 1)%nat)
    /\ get_lat_lon_indices g (swap_corners r) = get_lat_lon_indices g r.
Proof.
  intros (H1 & H2 & H3 & H4).
  destruct (find_index_in_bounds g Latitude _ H1) as (a & Ea & _).
  destruct (find_index_in_bounds g Longitude _ H2) as (b & Eb & _).
  destruct (find_index_in_bounds g Latitude _ H3) as (c & Ec & _).
  destruct (find_index_in_bounds g Longitude _ H4) as (d & Ed & _).
  exists a, b, c, d. repeat (split; [assumption|]).
  unfold get_lat_lon_indices, swap_corners; simpl.
  rewrite Ea, Eb, Ec, Ed; simpl. split; [reflexivity|].
  now rewrite (Nat.min_comm c a), (Nat.max_comm c a),
              (Nat.min_comm d b), (Nat.max_comm d b).
Qed.

(** C6. For in-bounds corner coordinates, [get_lat_lon_indices] returns the
    window made of the minimum and of the maximum plus one of the resolved
    indices (not of the coordinates), and exchanging the two corners gives
    the same window. *)
Theorem get_lat_lon_indices_swap (g : Grid) (r : Region) :
  region_in_bounds g r ->
  exists a b c d,
    find_index g (nw_lat r) Latitude = Ok a
    /\ find_index g (nw_lon r) Longitude = Ok b
    /\ find_index g (se_lat r) Latitude = Ok c
    /\ find_index g (se_lon r) Longitude = Ok d
    /\ get_lat_lon_indices g r
       = Ok ((Nat.min a c, Nat.max a c + 1)%nat,
             (Nat.min b d, Nat.max b d + 1)%nat)
    /\ get_lat_lon_indices g (swap_corners r) = get_lat_lon_indices g r.
Proof. apply get_lat_lon_indices_in_bounds. Qed.

Lemma Qle_concrete (a b : Q) :
  (Qnum a * Z.pos (Qden b) <=? Qnum b * Z.pos (Qden a))%Z = true -> a <= b.
Proof. intro H. apply Z.leb_le in H. exact H. Qed.

Lemma example_region_in_bounds : region_in_bounds example_grid example_region.
Proof.
  repeat split.
  - exists 51. split; [simpl; tauto|now apply Qle_concrete].
  - exists 52. split; [simpl; tauto|now apply Qle_concrete].
  - exists (-1). split; [simpl; tauto|now apply Qle_concrete].
  - exists 0. split; [simpl; tauto|now apply Qle_concrete].
  - exists 51. split; [simpl; tauto|now apply Qle_concrete].
  - exists 52. split; [simpl; tauto|now apply Qle_concrete].
  - exists (-1). split; [simpl; tauto|now apply Qle_concrete].
  - exists 0. split; [simpl; tauto|now apply Qle_concrete].
Qed.

Lemma get_lat_lon_indices_swap_witness :
  exists a b c d,
    find_index example_grid 52 Latitude = Ok a
    /\ find_index example_grid (-1) Longitude = Ok b
    /\ find_index example_grid 51 Latitude = Ok c
    /\ find_index example_grid 0 Longitude = Ok d
    /\ get_lat_lon_indices example_grid example_region
       = Ok ((Nat.min a c, Nat.max a c + 1)%nat,
             (Nat.min b d, Nat.max b d + 1)%nat)
    /\ get_lat_lon_indices example_grid (swap_corners example_region)
       = get_lat_lon_indices example_grid example_region.
Proof.
  apply (get_lat_lon_indices_swap example_grid example_region).
  exact example_region_in_bounds.
Defined.

(** ** The order of dates *)

Lemma compare_Lt_earlier (a b : datetime) :
  datetime_compare a b = Lt <-> earlier a b.
Proof.
  unfold datetime_compare, earlier.
  destruct (Z.compare_spec (year a) (year b));
    destruct (Z.compare_spec (month a) (month b));
    destruct (Z.compare_spec (day a) (day b));
    destruct (Z.compare_spec (secs a) (secs b));
    split; intro; try discriminate; try reflexivity; lia.
Qed.

Lemma compare_Gt_earlier (a b : datetime) :
  datetime_compare a b = Gt <-> earlier b a.
Proof.
  unfold datetime_compare, earlier.
  destruct (Z.compare_spec (year a) (year b));
    destruct (Z.compare_spec (month a) (month b));
    destruct (Z.compare_spec (day a) (day b));
    destruct (Z.compare_spec (secs a) (secs b));
    split; intro; try discriminate; try reflexivity; lia.
Qed.

Lemma earlier_trans (a b c : datetime) :
  earlier a b -> earlier b c -> earlier a c.
Proof. unfold earlier. lia. Qed.

Lemma earlier_irrefl (a : datetime) : ~ earlier a a.
Proof. unfold earlier. lia. Qed.

Lemma dt_lt_earlier (a b : datetime) : dt_lt a b = true <-> earlier a b.
Proof.
  rewrite <- compare_Lt_earlier. unfold dt_lt.
  destruct (datetime_compare a b); split; congruence.
Qed.

Lemma dt_gt_earlier (a b : datetime) : dt_gt a b = true <-> earlier b a.
Proof.
  rewrite <- compare_Gt_earlier. unfold dt_gt.
  destruct (datetime_compare a b); split; congruence.
Qed.

Lemma dt_ge_not_lt (a b : datetime) : dt_ge a b = negb (dt_lt a b).
Proof. unfold dt_ge, dt_lt. now destruct (datetime_compare a b). Qed.

Lemma dt_le_not_gt (a b : datetime) : dt_le a b = negb (dt_gt a b).
Proof. unfold dt_le, dt_gt. now destruct (datetime_compare a b). Qed.

Lemma dt_le_not_earlier (a b : datetime) : dt_le a b = true <-> ~ earlier b a.
Proof.
  rewrite dt_le_not_gt, negb_true_iff, <- dt_gt_earlier.
  destruct (dt_gt a b); split; congruence.
Qed.

Lemma dt_ge_not_earlier (a b : datetime) : dt_ge a b = true <-> ~ earlier a b.
Proof.
  rewrite dt_ge_not_lt, negb_true_iff, <- dt_lt_earlier.
  destruct (dt_lt a b); split; congruence.
Qed.

Lemma dt_le_trans (a b c : datetime) :
  dt_le a b = true -> dt_le b c = true -> dt_le a c = true.
Proof. rewrite !dt_le_not_earlier. unfold earlier. lia. Qed.

Lemma dt_le_refl (a : datetime) : dt_le a a = true.
Proof. apply dt_le_not_earlier, earlier_irrefl. Qed.

(** ** The scans for the start and the end index *)

Lemma first_index_found {A} (p : A -> bool) (d : A) (l : list A) :
  forall i k,
    first_index p i l = Ok k ->
    (i <= k)%nat /\ (k - i < List.length l)%nat
    /\ p (nth (k - i) l d) = true
    /\ (forall j, (j < k - i)%nat -> p (nth j l d) = false).
Proof.
  induction l as [|x l IH]; intros i k H; simpl in H; [discriminate|].
  destruct (p x) eqn:E.
  - inversion H; subst. rewrite Nat.sub_diag. simpl.
    repeat split; auto; lia.
  - destruct (IH _ _ H) as (H1 & H2 & H3 & H4).
    replace (k - i)%nat with (S (k - S i)) by lia. simpl.
    repeat split; auto; try lia.
    intros [|j] Hj; [exact E|]. apply H4. lia.
Qed.

Lemma first_index_exists {A} (p : A -> bool) (l : list A) :
  forall i, (exists x, In x l /\ p x = true) ->
            exists k, first_index p i l = Ok k.
Proof.
  induction l as [|x l IH]; intros i (y & Hy & Py); [destruct Hy|].
  simpl. destruct (p x) eqn:E; [eauto|].
  destruct Hy as [->|Hy]; [congruence|]. apply IH. eauto.
Qed.

Lemma first_index_none {A} (p : A -> bool) (l : list A) :
  forall i, (forall x, In x l -> p x = false) ->
            first_index p i l = Raise StopIteration.
Proof.
  induction l as [|x l IH]; intros i H; simpl; [reflexivity|].
  rewrite (H x (or_introl eq_refl)). apply IH. intros y Hy. apply H.
  now right.
Qed.

Lemma item_last_In {A} (l : list A) (x : A) : item_last l = Ok x -> In x l.
Proof.
  destruct l as [|y l]; simpl; [discriminate|]. intro H. inversion H.
  clear. revert y. induction l as [|z l IH]; intro y; [now left|].
  destruct l as [|z' l']; [right; now left|].
  change (last (z :: z' :: l') y) with (last (z' :: l') y).
  destruct (IH y) as [E|I]; [now left|right; right; exact I].
Qed.

Lemma item_first_In {A} (l : list A) (x : A) : item_first l = Ok x -> In x l.
Proof.
  destruct l as [|y l]; simpl; [discriminate|]. intro H. inversion H.
  now left.
Qed.

Lemma start_block_in_bounds (dates : list datetime) (sd : iso_date)
    (d0 dn : datetime) :
  item_first dates = Ok d0 -> item_last dates = Ok dn ->
  dt_le d0 (strptime sd) = true -> dt_le (strptime sd) dn = true ->
  exists i,
    first_index (fun date => dt_ge date (strptime sd)) 0 dates = Ok i
    /\ start_block dates (Some sd) = Ok (Some i)
    /\ (i < List.length dates)%nat
    /\ dt_ge (nth i dates d0) (strptime sd) = true
    /\ (forall j, (j < i)%nat -> dt_ge (nth j dates d0) (strptime sd) = false).
Proof.
  intros H0 Hn L0 Ln.
  destruct (first_index_exists (fun date => dt_ge date (strptime sd)) dates 0)
    as (i & Ei).
  { exists dn. split; [now apply item_last_In|].
    apply dt_ge_not_earlier. now apply dt_le_not_earlier. }
  exists i. split; [exact Ei|].
  destruct (first_index_found _ d0 _ _ _ Ei) as (_ & H2 & H3 & H4).
  rewrite Nat.sub_0_r in *.
  split; [|repeat split; auto].
  unfold start_block. rewrite H0, Hn; simpl.
  rewrite dt_le_not_gt in L0, Ln. apply negb_true_iff in L0, Ln.
  assert (E : dt_lt (strptime sd) d0 = false).
  { destruct (dt_lt (strptime sd) d0) eqn:E; [|reflexivity].
    apply dt_lt_earlier in E. apply dt_gt_earlier in E. congruence. }
  rewrite E, Ln; simpl. now rewrite Ei.
Qed.

(** C10. When the starting date passes the bounds test (first decoded date
    <= starting date <= last decoded date), the scan
    [next(i for i, date in enumerate(dates) if date >= start_date)] returns
    an index: [StopIteration] cannot occur, and the block of the starting
    date yields that index, the first one whose date is not before the
    starting date. The monotonicity of the time axis is not needed. *)
Theorem start_index_total (g : Grid) (sd : iso_date) (d0 dn : datetime) :
  item_first (time g) = Ok d0 -> item_last (time g) = Ok dn ->
  dt_le d0 (strptime sd) = true -> dt_le (strptime sd) dn = true ->
  exists i,
    first_index (fun date => dt_ge date (strptime sd)) 0 (time g) = Ok i
    /\ start_block (time g) (Some sd) = Ok (Some i)
    /\ (i < List.length (time g))%nat
    /\ dt_ge (nth i (time g) d0) (strptime sd) = true
    /\ (forall j, (j < i)%nat ->
                  dt_ge (nth j (time g) d0) (strptime sd) = false).
Proof. apply start_block_in_bounds. Qed.

Lemma start_index_total_witness :
  exists i,
    first_index (fun date => dt_ge date (strptime (mk_iso_date 2013 1 2))) 0
                (time example_grid) = Ok i
    /\ start_block (time example_grid) (Some (mk_iso_date 2013 1 2))
       = Ok (Some i)
    /\ (i < 3)%nat
    /\ dt_ge (nth i (time example_grid) (jan 1))
             (strptime (mk_iso_date 2013 1 2)) = true
    /\ (forall j, (j < i)%nat ->
                  dt_ge (nth j (time example_grid) (jan 1))
                        (strptime (mk_iso_date 2013 1 2)) = false).
Proof.
  apply (start_index_total example_grid (mk_iso_date 2013 1 2)
                           (jan 1) (jan 3));
    reflexivity.
Defined.

Lemma monotonic_tail (x : datetime) (l : list datetime) :
  monotonic (x :: l) = true -> monotonic l = true.
Proof.
  destruct l as [|y l]; [reflexivity|]. simpl. intro H.
  apply andb_true_iff in H. apply H.
Qed.

Lemma last_cons_default {A} (l : list A) :
  forall x z, last (z :: l) x = last l z.
Proof.
  induction l as [|a l IH]; intros x z; [reflexivity|].
  change (last (z :: a :: l) x) with (last (a :: l) x).
  now rewrite (IH x a), (IH z a).
Qed.

Lemma monotonic_le_last (l : list datetime) :
  forall x, monotonic (x :: l) = true ->
            forall y, In y (x :: l) -> dt_le y (last l x) = true.
Proof.
  induction l as [|z l IH]; intros x H y Hy.
  - destruct Hy as [<-|[]]. apply dt_le_refl.
  - assert (Hz : dt_le x z = true).
    { simpl in H. apply andb_true_iff in H. apply H. }
    apply monotonic_tail in H.
    rewrite last_cons_default. destruct Hy as [<-|Hy].
    + eapply dt_le_trans; [exact Hz|]. apply IH; [exact H|now left].
    + now apply IH.
Qed.

Lemma monotonic_first_le (l : list datetime) :
  forall x, monotonic (x :: l) = true ->
            forall y, In y (x :: l) -> dt_le x y = true.
Proof.
  induction l as [|z l IH]; intros x H y Hy.
  - destruct Hy as [<-|[]]. apply dt_le_refl.
  - assert (Hz : dt_le x z = true).
    { simpl in H. apply andb_true_iff in H. apply H. }
    apply monotonic_tail in H. destruct Hy as [<-|Hy]; [apply dt_le_refl|].
    eapply dt_le_trans; [exact Hz|]. now apply IH.
Qed.

(** On a monotonic time axis an ending date equal to the last decoded date
    passes the bounds test and then exhausts the scan for a later date. *)
Lemma end_block_last_date (dates : list datetime) (ed : iso_date) :
  monotonic dates = true -> item_last dates = Ok (strptime ed) ->
  end_block dates (Some ed) = Raise StopIteration.
Proof.
  intros Hm Hl. destruct dates as [|x l]; [discriminate|].
  simpl in Hl. inversion Hl as [El]. unfold end_block.
  cbn [item_first item_last bind]. rewrite El.
  assert (A : dt_lt (strptime ed) x = false).
  { destruct (dt_lt (strptime ed) x) eqn:E; [|reflexivity].
    apply dt_lt_earlier in E.
    pose proof (monotonic_le_last l x Hm x (or_introl eq_refl)) as L.
    rewrite El in L. apply dt_le_not_earlier in L. contradiction. }
  assert (B : dt_gt (strptime ed) (strptime ed) = false).
  { destruct (dt_gt (strptime ed) (strptime ed)) eqn:E; [|reflexivity].
    apply dt_gt_earlier in E. now apply earlier_irrefl in E. }
  rewrite A, B. cbn [orb].
  rewrite (first_index_none (fun date => dt_gt date (strptime ed)) (x :: l) 0);
    [reflexivity|].
  intros y Hy. pose proof (monotonic_le_last l x Hm y Hy) as L.
  rewrite El in L. rewrite dt_le_not_gt in L. now apply negb_true_iff in L.
Qed.

(** C3 (the code departs from the claim). With an ending date equal to the
    last decoded date of the example dataset the block of the ending date
    raises [StopIteration], and so does the whole extraction, which writes
    no file. *)
Theorem end_date_last_raises_StopIteration :
  monotonic (time example_grid) = true
  /\ item_last (time example_grid) = Ok (strptime (mk_iso_date 2013 1 3))
  /\ end_block (time example_grid) (Some (mk_iso_date 2013 1 3))
     = Raise StopIteration
  /\ extract example_grid example_region "out.csv" None
             (Some (mk_iso_date 2013 1 3)) example_world
     = (Raise StopIteration, example_world)
  /\ extract example_grid example_region "out.csv"
             (Some (mk_iso_date 2013 1 1)) (Some (mk_iso_date 2013 1 3))
             example_world
     = (Raise StopIteration, example_world).
Proof. repeat split; reflexivity. Qed.

(** ** The comparison of the verifier *)

Lemma add_lines_add_lines (w : world) (a b : list line) :
  add_lines (add_lines w a) b = add_lines w (a ++ b).
Proof. unfold add_lines; simpl. now rewrite app_assoc. Qed.

Lemma add_lines_nil (w : world) : add_lines w [] = w.
Proof. destruct w. unfold add_lines; simpl. now rewrite app_nil_r. Qed.

(** C7 as stated fails: the two date sequences below differ at their second
    position only, and the verifier prints the pair of their first dates,
    which are equal. *)
Lemma date_mismatch_counterexample :
  let csv_dates := ["2013-01-01"; "2013-01-02"]%string in
  let netcdf_dates := ["2013-01-01"; "2013-01-03"]%string in
  let out := compare_loaded csv_dates [[1]; [2]] netcdf_dates [[1]; [2]]
                            example_world in
  fst out = Ok false
  /\ stdout (snd out)
     = [Print_date_mismatch "2013-01-01" "2013-01-01"]
  /\ ~ reports_first_divergent_pair csv_dates netcdf_dates (stdout (snd out)).
Proof.
  cbv zeta. split; [reflexivity|]. split; [reflexivity|].
  intros (k & a & b & Ha & Hb & Hab & _ & Hp).
  change (stdout _) with [Print_date_mismatch "2013-01-01" "2013-01-01"] in Hp.
  inversion Hp; subst. congruence.
Qed.

(** C7, amended. When the two date sequences differ and neither is empty,
    the verifier prints one date-mismatch line made of the first date of
    each sequence and returns [False], whatever the two matrices are: the
    values are not compared. *)
Theorem date_mismatch_short_circuits (csv_dates netcdf_dates : list string)
    (csv_data netcdf_data : list (list Q)) (c0 n0 : string) (w : world) :
  csv_dates <> netcdf_dates ->
  item_first csv_dates = Ok c0 -> item_first netcdf_dates = Ok n0 ->
  compare_loaded csv_dates csv_data netcdf_dates netcdf_data w
  = (Ok false, add_lines w [Print_date_mismatch c0 n0]).
Proof.
  intros Hne Hc Hn. unfold compare_loaded.
  destruct (list_eq_dec string_dec csv_dates netcdf_dates) as [E|_];
    [contradiction|].
  unfold bindM, lift. rewrite Hc, Hn. reflexivity.
Qed.

Lemma date_mismatch_short_circuits_witness :
  compare_loaded ["2013-01-01"; "2013-01-02"]%string [[1]; [2]]
                 ["2013-01-02"; "2013-01-03"]%string [[1; 5]; [2; 6]; [3; 7]]
                 example_world
  = (Ok false,
     add_lines example_world [Print_date_mismatch "2013-01-01" "2013-01-02"]).
Proof.
  apply (date_mismatch_short_circuits
           ["2013-01-01"; "2013-01-02"]%string
           ["2013-01-02"; "2013-01-03"]%string);
    [discriminate|reflexivity|reflexivity].
Defined.

Lemma isclose_within_tolerance (a b : Q) :
  isclose a b = true <-> within_tolerance a b.
Proof. unfold isclose, within_tolerance. apply Qle_bool_iff. Qed.

Lemma isclose_refl (a : Q) : isclose a a = true.
Proof.
  apply Qle_bool_iff.
  assert (E : Qabs (a - a) == 0).
  { setoid_replace (a - a) with 0 by ring. reflexivity. }
  rewrite E. unfold atol, rtol.
  apply Qle_trans with ((1 # 1000000) + 0); [discriminate|].
  apply Qplus_le_r. apply Qmult_le_0_compat; [discriminate|apply Qabs_nonneg].
Qed.

Lemma combine_map_self {A B} (f : A -> B) (l : list A) :
  combine l (map f l) = map (fun x => (x, f x)) l.
Proof. induction l as [|x l IH]; simpl; [reflexivity|now rewrite IH]. Qed.

Lemma where_false_row (i : nat) (f : nat -> bool) (l : list nat) :
  flat_map (fun jx : nat * bool => if snd jx then [] else [(i, fst jx)])
           (combine l (map f l))
  = filter (fun idx => negb (f (snd idx))) (map (pair i) l).
Proof.
  induction l as [|j l IH]; simpl; [reflexivity|].
  rewrite IH. now destruct (f j).
Qed.

Lemma where_false_generated (f : nat -> nat -> bool) (r c : nat) :
  where_false (map (fun i => map (f i) (seq 0 c)) (seq 0 r))
  = filter (fun idx => negb (f (fst idx) (snd idx))) (all_positions r c).
Proof.
  unfold where_false, all_positions. rewrite length_map, length_seq.
  rewrite combine_map_self. generalize (seq 0 r) as rows.
  induction rows as [|i rows IH]; simpl; [reflexivity|].
  rewrite filter_app, <- IH. f_equal.
  rewrite length_map, length_seq, where_false_row.
  apply filter_ext_in. intros idx Hidx. apply in_map_iff in Hidx.
  destruct Hidx as (j & <- & _). reflexivity.
Qed.

Lemma all_true_generated (f : nat -> nat -> bool) (r c : nat) :
  all_true (map (fun i => map (f i) (seq 0 c)) (seq 0 r)) = true
  <-> forall i j, (i < r)%nat -> (j < c)%nat -> f i j = true.
Proof.
  unfold all_true. rewrite forallb_forall. split.
  - intros H i j Hi Hj.
    assert (R : forallb (fun x => x) (map (f i) (seq 0 c)) = true).
    { apply H. apply in_map_iff. exists i. split; [reflexivity|].
      apply in_seq. lia. }
    rewrite forallb_forall in R. apply R. apply in_map_iff. exists j.
    split; [reflexivity|]. apply in_seq. lia.
  - intros H row Hrow. apply in_map_iff in Hrow. destruct Hrow as (i & <- & Hi).
    apply in_seq in Hi. apply forallb_forall. intros x Hx.
    apply in_map_iff in Hx. destruct Hx as (j & <- & Hj). apply in_seq in Hj.
    apply H; lia.
Qed.

Lemma in_all_positions (r c : nat) (idx : nat * nat) :
  In idx (all_positions r c) <-> (fst idx < r)%nat /\ (snd idx < c)%nat.
Proof.
  unfold all_positions. rewrite in_flat_map. split.
  - intros (i & Hi & Hidx). apply in_map_iff in Hidx.
    destruct Hidx as (j & <- & Hj). apply in_seq in Hi, Hj. simpl. lia.
  - intros [Hi Hj]. exists (fst idx). split; [apply in_seq; lia|].
    apply in_map_iff. exists (snd idx). split; [now destruct idx|].
    apply in_seq. lia.
Qed.

Lemma item2_cell (m : list (list Q)) (r c : nat) (idx : nat * nat) :
  has_shape m r c -> (fst idx < r)%nat -> (snd idx < c)%nat ->
  item2 m idx = Ok (cell m idx).
Proof.
  intros [Hr Hc] Hi Hj. unfold item2, cell.
  destruct (nth_error m (fst idx)) as [row|] eqn:E.
  - rewrite (nth_error_nth _ _ [] E).
    assert (L : List.length row = c).
    { rewrite Forall_forall in Hc. apply Hc. eapply nth_error_In; eauto. }
    destruct (nth_error row (snd idx)) as [x|] eqn:E2.
    + now rewrite (nth_error_nth _ _ 0 E2).
    + apply nth_error_None in E2. lia.
  - apply nth_error_None in E. lia.
Qed.

Lemma ncols_shape (m : list (list Q)) (r c : nat) :
  has_shape m r c -> (0 < r)%nat -> ncols m = c.
Proof.
  intros [Hr Hc] H. destruct m as [|row m]; simpl in *; [lia|].
  now inversion Hc.
Qed.

Lemma broadcast_dim_same (n : nat) : broadcast_dim n n = Ok n.
Proof. unfold broadcast_dim. now rewrite Nat.eqb_refl. Qed.

Lemma broadcast_cell_cell (m : list (list Q)) (r c i j : nat) :
  has_shape m r c -> (i < r)%nat -> (j < c)%nat ->
  broadcast_cell m i j = cell m (i, j).
Proof.
  intros Hs Hi Hj. unfold broadcast_cell, cell; simpl.
  rewrite (ncols_shape m r c Hs) by lia. destruct Hs as [Hr _]. rewrite Hr.
  destruct (Nat.eqb_spec r 1) as [->|_]; destruct (Nat.eqb_spec c 1) as [->|_];
    repeat match goal with
           | H : (?x < 1)%nat |- _ =>
               assert (x = 0)%nat by lia; subst x; clear H
           end; reflexivity.
Qed.

Lemma map_seq_ext {A} (f g : nat -> A) (n : nat) :
  (forall i, (i < n)%nat -> f i = g i) ->
  map f (seq 0 n) = map g (seq 0 n).
Proof.
  intro H. apply map_ext_in. intros i Hi. apply in_seq in Hi. apply H. lia.
Qed.

(** On two matrices of one shape [np.isclose] compares cell by cell. *)
Lemma isclose_matrix_same_shape (a b : list (list Q)) (r c : nat) :
  has_shape a r c -> has_shape b r c ->
  isclose_matrix a b
  = Ok (map (fun i => map (fun j => isclose (cell a (i, j)) (cell b (i, j)))
                          (seq 0 c))
            (seq 0 r)).
Proof.
  intros Ha Hb. unfold isclose_matrix.
  rewrite (proj1 Ha), (proj1 Hb), broadcast_dim_same. cbn [bind].
  destruct r as [|r].
  - destruct a; [|destruct Ha; discriminate].
    destruct b; [|destruct Hb; discriminate]. reflexivity.
  - rewrite (ncols_shape a _ c Ha), (ncols_shape b _ c Hb) by lia.
    rewrite broadcast_dim_same. cbn [bind]. f_equal.
    apply map_seq_ext. intros i Hi. apply map_seq_ext. intros j Hj.
    now rewrite (broadcast_cell_cell a (S r) c), (broadcast_cell_cell b (S r) c).
Qed.

Lemma for_each_print_mismatches (a b : list (list Q)) (r c : nat)
    (l : list (nat * nat)) :
  has_shape a r c -> has_shape b r c ->
  (forall idx, In idx l -> (fst idx < r)%nat /\ (snd idx < c)%nat) ->
  forall w,
    for_each (fun idx =>
                x <~ lift (item2 a idx) ;;
                y <~ lift (item2 b idx) ;;
                print (Print_mismatch_at idx x y)) l w
    = (Ok tt,
       add_lines w (map (fun idx => Print_mismatch_at idx (cell a idx)
                                                      (cell b idx)) l)).
Proof.
  intros Ha Hb. induction l as [|idx l IH]; intros Hl w.
  - simpl. unfold ret. now rewrite add_lines_nil.
  - destruct (Hl idx (or_introl eq_refl)) as [Hi Hj].
    cbn [for_each]. unfold bindM at 1. unfold bindM at 1, lift at 1.
    rewrite (item2_cell a r c idx Ha Hi Hj).
    unfold bindM at 1, lift at 1.
    rewrite (item2_cell b r c idx Hb Hi Hj).
    unfold print at 1. rewrite IH by (intros; apply Hl; now right).
    now rewrite add_lines_add_lines.
Qed.

Lemma mismatch_lines_spec (csv_data netcdf_data : list (list Q)) (r c : nat)
    (idx : nat * nat) (x y : Q) :
  In (Print_mismatch_at idx x y) (mismatch_lines csv_data netcdf_data r c)
  <-> (fst idx < r)%nat /\ (snd idx < c)%nat
      /\ x = cell csv_data idx /\ y = cell netcdf_data idx
      /\ ~ within_tolerance (cell csv_data idx) (cell netcdf_data idx).
Proof.
  unfold mismatch_lines. rewrite in_map_iff. split.
  - intros (idx' & E & H). inversion E; subst. apply filter_In in H.
    destruct H as [H1 H2]. apply in_all_positions in H1.
    apply negb_true_iff in H2. repeat split; try tauto.
    rewrite <- isclose_within_tolerance. congruence.
  - intros (Hi & Hj & -> & -> & H). exists idx. split; [reflexivity|].
    apply filter_In. split; [now apply in_all_positions|].
    apply negb_true_iff. rewrite <- isclose_within_tolerance in H.
    now destruct (isclose (cell csv_data idx) (cell netcdf_data idx)).
Qed.

(** C2 as stated fails: the two cells below differ by 1, far more than
    [1e-6], and the verifier passes, because [np.allclose] adds the relative
    tolerance [1e-05 * abs(netcdf value)]. *)
Lemma tolerance_counterexample :
  fst (compare_loaded ["2013-01-01"%string] [[1048577]]
                      ["2013-01-01"%string] [[1048576]] example_world)
  = Ok true
  /\ ~ Qabs (1048577 - 1048576) <= 1 # 1000000.
Proof.
  split; [reflexivity|]. intro H. apply Qle_bool_iff in H. discriminate.
Qed.

(** The outcome of the comparison on two matrices of one shape. *)
Lemma compare_loaded_same_shape (dates : list string)
    (csv_data netcdf_data : list (list Q)) (r c : nat) (w : world) :
  has_shape csv_data r c -> has_shape netcdf_data r c ->
  let out := compare_loaded dates csv_data dates netcdf_data w in
  (fst out = Ok true
   <-> forall i j, (i < r)%nat -> (j < c)%nat ->
                   within_tolerance (cell csv_data (i, j))
                                    (cell netcdf_data (i, j)))
  /\ (fst out = Ok true ->
      snd out = add_lines w [Print_verification_successful])
  /\ (fst out <> Ok true ->
      fst out = Ok false
      /\ snd out = add_lines w (Print_data_mismatch_found
                                  :: mismatch_lines csv_data netcdf_data r c))
  /\ (forall idx x y,
        In (Print_mismatch_at idx x y) (mismatch_lines csv_data netcdf_data r c)
        <-> (fst idx < r)%nat /\ (snd idx < c)%nat
            /\ x = cell csv_data idx /\ y = cell netcdf_data idx
            /\ ~ within_tolerance (cell csv_data idx) (cell netcdf_data idx)).
Proof.
  intros Ha Hb out.
  assert (Hall : all_true
                   (map (fun i => map (fun j => isclose (cell csv_data (i, j))
                                                        (cell netcdf_data (i, j)))
                                      (seq 0 c)) (seq 0 r)) = true
                 <-> forall i j, (i < r)%nat -> (j < c)%nat ->
                                 within_tolerance (cell csv_data (i, j))
                                                  (cell netcdf_data (i, j))).
  { rewrite (all_true_generated
               (fun i j => isclose (cell csv_data (i, j))
                                   (cell netcdf_data (i, j)))).
    split; intros H i j Hi Hj; apply isclose_within_tolerance; now apply H. }
  assert (Hout :
            out = if all_true
                       (map (fun i => map (fun j =>
                                             isclose (cell csv_data (i, j))
                                                     (cell netcdf_data (i, j)))
                                          (seq 0 c)) (seq 0 r))
                  then (Ok true, add_lines w [Print_verification_successful])
                  else (Ok false,
                        add_lines w (Print_data_mismatch_found
                                       :: mismatch_lines csv_data netcdf_data
                                            r c))).
  { unfold out, compare_loaded.
    destruct (list_eq_dec string_dec dates dates) as [_|N]; [|congruence].
    unfold bindM at 1, lift at 1.
    rewrite (isclose_matrix_same_shape csv_data netcdf_data r c Ha Hb).
    destruct (all_true _) eqn:E; cbn [negb].
    - reflexivity.
    - unfold bindM at 1, print at 1. unfold bindM at 1.
      rewrite (where_false_generated
                 (fun i j => isclose (cell csv_data (i, j))
                                     (cell netcdf_data (i, j)))).
      rewrite (for_each_print_mismatches csv_data netcdf_data r c
                 _ Ha Hb).
      + unfold ret. rewrite add_lines_add_lines. reflexivity.
      + intros idx Hidx. apply filter_In in Hidx.
        now apply in_all_positions. }
  rewrite Hout. destruct (all_true _) eqn:E; cbn [fst snd].
  - split; [split; [intros _; now apply Hall|reflexivity]|].
    split; [reflexivity|]. split; [congruence|].
    apply mismatch_lines_spec.
  - split.
    + split; [discriminate|]. intro H. apply Hall in H. discriminate.
    + split; [discriminate|]. split; [now split|].
      apply mismatch_lines_spec.
Qed.

(** C2, amended. For a CSV matrix and a grid matrix of one shape whose date
    sequences agree, the verifier returns [True] exactly when every pair of
    cells satisfies [abs(csv - grid) <= 1e-6 + 1e-5 * abs(grid)]; otherwise
    it returns [False] and prints, after the line announcing a mismatch, one
    line for each position whose cells are not within that tolerance, in
    row order, with the two compared values, and for no other position. *)
Theorem values_compared_cellwise (dates : list string)
    (csv_data netcdf_data : list (list Q)) (r c : nat) (w : world) :
  has_shape csv_data r c -> has_shape netcdf_data r c ->
  let out := compare_loaded dates csv_data dates netcdf_data w in
  (fst out = Ok true
   <-> forall i j, (i < r)%nat -> (j < c)%nat ->
                   within_tolerance (cell csv_data (i, j))
                                    (cell netcdf_data (i, j)))
  /\ (fst out = Ok true ->
      snd out = add_lines w [Print_verification_successful])
  /\ (fst out <> Ok true ->
      fst out = Ok false
      /\ snd out = add_lines w (Print_data_mismatch_found
                                  :: mismatch_lines csv_data netcdf_data r c))
  /\ (forall idx x y,
        In (Print_mismatch_at idx x y) (mismatch_lines csv_data netcdf_data r c)
        <-> (fst idx < r)%nat /\ (snd idx < c)%nat
            /\ x = cell csv_data idx /\ y = cell netcdf_data idx
            /\ ~ within_tolerance (cell csv_data idx) (cell netcdf_data idx)).
Proof. apply compare_loaded_same_shape. Qed.

Lemma example_shape_1_2 (a b : Q) : has_shape [[a; b]] 1 2.
Proof. split; [reflexivity|]. repeat constructor. Qed.

Lemma values_compared_cellwise_witness :
  let csv_data := [[1; 5]] in
  let netcdf_data := [[1; 2]] in
  let out := compare_loaded ["2013-01-01"%string] csv_data
                            ["2013-01-01"%string] netcdf_data example_world in
  (fst out = Ok true
   <-> forall i j, (i < 1)%nat -> (j < 2)%nat ->
                   within_tolerance (cell csv_data (i, j))
                                    (cell netcdf_data (i, j)))
  /\ (fst out = Ok true ->
      snd out = add_lines example_world [Print_verification_successful])
  /\ (fst out <> Ok true ->
      fst out = Ok false
      /\ snd out = add_lines example_world
                     (Print_data_mismatch_found
                        :: mismatch_lines csv_data netcdf_data 1 2))
  /\ (forall idx x y,
        In (Print_mismatch_at idx x y) (mismatch_lines csv_data netcdf_data 1 2)
        <-> (fst idx < 1)%nat /\ (snd idx < 2)%nat
            /\ x = cell csv_data idx /\ y = cell netcdf_data idx
            /\ ~ within_tolerance (cell csv_data idx) (cell netcdf_data idx)).
Proof.
  apply (values_compared_cellwise ["2013-01-01"%string] [[1; 5]] [[1; 2]] 1 2
                                  example_world);
    apply example_shape_1_2.
Defined.

Lemma length_update {A} (n : nat) (x : A) (l : list A) :
  List.length (update n x l) = List.length l.
Proof.
  revert n. induction l as [|y l IH]; intros [|n]; simpl; auto.
Qed.

Lemma nth_update {A} (d : A) (n k : nat) (x : A) (l : list A) :
  (n < List.length l)%nat ->
  nth k (update n x l) d = if (k =? n)%nat then x else nth k l d.
Proof.
  revert n k. induction l as [|y l IH]; intros [|n] [|k] H; simpl in *;
    try lia; auto.
  apply IH. lia.
Qed.

Lemma cell_set_cell (m : list (list Q)) (r c : nat) (idx idx' : nat * nat)
    (v : Q) :
  has_shape m r c -> (fst idx < r)%nat -> (snd idx < c)%nat ->
  cell (set_cell m idx v) idx'
  = if ((fst idx' =? fst idx) && (snd idx' =? snd idx))%nat then v
    else cell m idx'.
Proof.
  intros [Hr Hc] Hi Hj. unfold cell, set_cell.
  rewrite nth_update by lia.
  destruct (Nat.eqb_spec (fst idx') (fst idx)) as [E|N]; [|reflexivity].
  rewrite nth_update.
  - rewrite E. now destruct (snd idx' =? snd idx)%nat.
  - rewrite Forall_forall in Hc. rewrite (Hc (nth (fst idx) m [])); [lia|].
    apply nth_In. lia.
Qed.

Lemma Forall_update {A} (P : A -> Prop) (x : A) (l : list A) :
  forall n, Forall P l -> ((n < List.length l)%nat -> P x) ->
            Forall P (update n x l).
Proof.
  induction l as [|y l IH]; intros [|n] Hl Hx; simpl; auto;
    inversion Hl; subst; constructor; auto.
  - apply Hx. simpl. lia.
  - apply IH; auto. intro. apply Hx. simpl. lia.
Qed.

Lemma set_cell_shape (m : list (list Q)) (r c : nat) (idx : nat * nat)
    (v : Q) :
  has_shape m r c -> has_shape (set_cell m idx v) r c.
Proof.
  intros [Hr Hc]. unfold set_cell. split; [now rewrite length_update|].
  apply Forall_update; [exact Hc|]. intro L. rewrite length_update.
  rewrite Forall_forall in Hc. apply Hc. now apply nth_In.
Qed.

(** The scenario of a single altered cell: when one cell of a copy of the
    grid matrix is replaced by a value out of tolerance, the verifier
    returns [False] and the only position it prints is the altered one. *)
Lemma single_altered_cell (dates : list string) (m : list (list Q))
    (r c : nat) (idx : nat * nat) (v : Q) (w : world) :
  has_shape m r c -> (fst idx < r)%nat -> (snd idx < c)%nat ->
  ~ within_tolerance v (cell m idx) ->
  let out := compare_loaded dates (set_cell m idx v) dates m w in
  fst out = Ok false
  /\ snd out = add_lines w (Print_data_mismatch_found
                              :: mismatch_lines (set_cell m idx v) m r c)
  /\ (forall idx' x y,
        In (Print_mismatch_at idx' x y) (mismatch_lines (set_cell m idx v) m r c)
        <-> idx' = idx /\ x = v /\ y = cell m idx).
Proof.
  intros Hm Hi Hj Hv out.
  pose proof (compare_loaded_same_shape dates (set_cell m idx v) m r c w
                (set_cell_shape m r c idx v Hm) Hm) as H.
  cbv zeta in H. fold out in H. destruct H as (H1 & _ & H3 & H4).
  assert (Hsame : cell (set_cell m idx v) idx = v).
  { rewrite (cell_set_cell m r c idx idx v Hm Hi Hj).
    now rewrite !Nat.eqb_refl. }
  assert (N : fst out <> Ok true).
  { intro E. apply Hv. rewrite <- Hsame.
    replace idx with (fst idx, snd idx) by now destruct idx.
    now apply (proj1 H1 E). }
  destruct (H3 N) as [E1 E2]. split; [exact E1|]. split; [exact E2|].
  intros idx' x y. rewrite H4. split.
  - intros (Hi' & Hj' & -> & -> & Hn).
    rewrite (cell_set_cell m r c idx idx' v Hm Hi Hj) in *.
    destruct (Nat.eqb_spec (fst idx') (fst idx)) as [Ea|Na]; cbn [andb] in *.
    + destruct (Nat.eqb_spec (snd idx') (snd idx)) as [Eb|Nb].
      * assert (idx' = idx) by (destruct idx, idx'; simpl in *; congruence).
        subst. auto.
      * exfalso. apply Hn. apply isclose_within_tolerance, isclose_refl.
    + exfalso. apply Hn. apply isclose_within_tolerance, isclose_refl.
  - intros (-> & -> & ->). rewrite Hsame. repeat split; auto.
Qed.

(** ** The batch *)

Lemma for_each_app {A} (body : A -> M unit) (pre post : list A) :
  forall w,
    for_each body (pre ++ post) w
    = match for_each body pre w with
      | (Ok _, w1) => for_each body post w1
      | (Raise e, w1) => (Raise e, w1)
      end.
Proof.
  induction pre as [|x pre IH]; intro w; cbn [for_each app].
  - unfold ret. reflexivity.
  - unfold bindM. destruct (body x w) as [[u|e] w']; [apply IH|reflexivity].
Qed.

(** A loop stops at the first body that raises. *)
Lemma for_each_raises {A} (body : A -> M unit) (pre post : list A) (x : A)
    (w w1 w2 : world) (e : exn) :
  for_each body pre w = (Ok tt, w1) -> body x w1 = (Raise e, w2) ->
  for_each body (pre ++ x :: post) w = (Raise e, w2).
Proof.
  intros Hpre Hx. rewrite for_each_app, Hpre. simpl. unfold bindM.
  now rewrite Hx.
Qed.

(** A loop goes on after a body that returns. *)
Lemma for_each_continues {A} (body : A -> M unit) (pre post : list A) (x : A)
    (w w1 w2 : world) :
  for_each body pre w = (Ok tt, w1) -> body x w1 = (Ok tt, w2) ->
  for_each body (pre ++ x :: post) w = for_each body post w2.
Proof.
  intros Hpre Hx. rewrite for_each_app, Hpre. simpl. unfold bindM.
  now rewrite Hx.
Qed.

Lemma legacy_process_file_missing (self : Legacy.NetCDFProcessor)
    (filename : string) (sd : option iso_date) (w : world) :
  assoc (path_join (Legacy.netcdf_dir self) filename) (datasets w) = None ->
  Legacy.process_file self filename sd w
  = (Ok tt,
     add_lines w [Print_skipping (path_join (Legacy.netcdf_dir self) filename)]).
Proof.
  intro H. unfold Legacy.process_file, open_dataset. now rewrite H.
Qed.

Lemma process_file_missing (self : NetCDFProcessor) (filename : string)
    (sd ed : option iso_date) (w : world) :
  assoc (path_join (netcdf_dir self) filename) (datasets w) = None ->
  process_file self filename sd ed w
  = (Ok tt, add_lines w [Print_skipping (path_join (netcdf_dir self) filename)]).
Proof.
  intro H. unfold process_file, open_dataset. now rewrite H.
Qed.

(** A bounds violation met by [get_lat_lon_indices] leaves [process_data]
    as it was raised. *)
Lemma legacy_process_data_raises (self : RegionalDataExtractor)
    (sd : option iso_date) (s : option nat) (e : exn) (w w' : world) :
  start_block (time (dataset self)) sd = Ok s ->
  Legacy.print_time_info self s w = (Ok tt, w') ->
  get_lat_lon_indices (dataset self) (region self) = Raise e ->
  Legacy.process_data self sd w = (Raise e, w').
Proof.
  intros Hs Hp Hg. unfold Legacy.process_data.
  bind_lift Hs.
  unfold bindM at 1. rewrite Hp.
  unfold bindM at 1, lift at 1. now rewrite Hg.
Qed.

(** C8 as stated fails: the first unit of the batch below violates the
    latitude bounds, the [ValueError] leaves [process_all], and no CSV file
    is written, although the units that remain are processed without error
    when the batch is run on them alone. *)
Lemma batch_aborts_counterexample :
  let both := Legacy.mk_NetCDFProcessor "netcdf4data"
                [("Far"%string, far_region); ("Paris"%string, example_region)] in
  let rest := Legacy.mk_NetCDFProcessor "netcdf4data"
                [("Paris"%string, example_region)] in
  fst (Legacy.process_all both None batch_world)
  = Raise (ValueError_out_of_bounds Latitude 60)
  /\ csv_files (snd (Legacy.process_all both None batch_world)) = []
  /\ fst (Legacy.process_all rest None batch_world) = Ok tt
  /\ map fst (csv_files (snd (Legacy.process_all rest None batch_world)))
     = ["CSVClimateData/rr/rr_Paris_v29.0e.csv";
        "CSVClimateData/tg/tg_Paris_v29.0e.csv"]%string.
Proof. cbv zeta. repeat split; reflexivity. Qed.

(** The same holds for the script of [src/extractors]. *)
Lemma process_all_skips_missing_files_only (self : NetCDFProcessor)
    (sd ed : option iso_date) (w w1 : world) (pre post : list string)
    (f : string) :
  filter (fun f => endswith f ".nc") (dir_listing w) = pre ++ f :: post ->
  for_each (fun filename => process_file self filename sd ed) pre
           (add_lines w [Print_cwd])
  = (Ok tt, w1) ->
  (assoc (path_join (netcdf_dir self) f) (datasets w1) = None ->
   process_all self sd ed w
   = for_each (fun filename => process_file self filename sd ed) post
       (add_lines w1 [Print_skipping (path_join (netcdf_dir self) f)]))
  /\ (forall e w2,
        process_file self f sd ed w1 = (Raise e, w2) ->
        process_all self sd ed w = (Raise e, w2)).
Proof.
  intros Hl Hpre. unfold process_all, bindM, print.
  change (dir_listing (add_lines w [Print_cwd])) with (dir_listing w).
  rewrite Hl. split.
  - intro Hm. eapply for_each_continues; [exact Hpre|].
    now apply process_file_missing.
  - intros e w2 Hf. eapply for_each_raises; [exact Hpre|exact Hf].
Qed.

(** ** Windows of lists and flattened matrices *)

Lemma length_concat_rect {A} (l : list (list A)) (m : nat) :
  Forall (fun row => List.length row = m) l ->
  List.length (List.concat l) = (List.length l * m)%nat.
Proof.
  induction 1 as [|row l Hrow _ IH]; simpl; [reflexivity|].
  rewrite length_app, IH, Hrow. reflexivity.
Qed.

Lemma nth_concat_rect {A} (d : A) (l : list (list A)) (m : nat) :
  Forall (fun row => List.length row = m) l ->
  forall i j, (i < List.length l)%nat -> (j < m)%nat ->
              nth (i * m + j) (List.concat l) d = nth j (nth i l []) d.
Proof.
  induction 1 as [|row l Hrow _ IH]; intros i j Hi Hj; simpl in Hi; [lia|].
  simpl List.concat. destruct i as [|i].
  - simpl. rewrite app_nth1 by lia. reflexivity.
  - rewrite app_nth2 by (rewrite Hrow; simpl; lia).
    replace (S i * m + j - List.length row)%nat with (i * m + j)%nat
      by (rewrite Hrow; simpl; lia).
    simpl nth. apply IH; lia.
Qed.

Lemma length_apply_slice {A} (lo hi : nat) (l : list A) :
  (hi <= List.length l)%nat ->
  List.length (apply_slice (lo, hi) l) = (hi - lo)%nat.
Proof.
  intro H. unfold apply_slice; simpl. rewrite length_firstn, length_skipn. lia.
Qed.

Lemma nth_apply_slice {A} (d : A) (lo hi : nat) (l : list A) (i : nat) :
  (i < hi - lo)%nat ->
  nth i (apply_slice (lo, hi) l) d = nth (lo + i) l d.
Proof.
  intro H. unfold apply_slice; simpl. rewrite nth_firstn.
  destruct (Nat.ltb_spec i (hi - lo)); [|lia]. apply nth_skipn.
Qed.

Lemma In_apply_slice {A} (s : slice) (l : list A) (x : A) :
  In x (apply_slice s l) -> In x l.
Proof.
  unfold apply_slice. intro H.
  apply (In_nth _ _ x) in H. destruct H as (n & Hn & <-).
  rewrite nth_firstn in *. rewrite length_firstn, length_skipn in Hn.
  destruct (Nat.ltb_spec n (snd s - fst s)); [|lia].
  rewrite nth_skipn. apply nth_In. lia.
Qed.

Lemma Forall_apply_slice {A} (P : A -> Prop) (s : slice) (l : list A) :
  Forall P l -> Forall P (apply_slice s l).
Proof.
  rewrite !Forall_forall. intros H x Hx. apply H.
  now apply In_apply_slice in Hx.
Qed.

Lemma In_time_window {A} (s e : option nat) (l : list A) (x : A) :
  In x (time_window s e l) -> In x l.
Proof.
  destruct s as [s|]; [destruct e as [e|]|]; simpl; auto.
  - apply In_apply_slice.
  - intro H. apply (In_nth _ _ x) in H. destruct H as (n & Hn & <-).
    rewrite length_skipn in Hn. rewrite nth_skipn. apply nth_In. lia.
Qed.

Lemma nth_time_window {A} (d : A) (s e : option nat) (l : list A) (k : nat) :
  (k < List.length (time_window s e l))%nat ->
  nth k (time_window s e l) d = nth (window_start s + k) l d.
Proof.
  destruct s as [s|]; [destruct e as [e|]|]; simpl; auto.
  - intro H. unfold apply_slice in *; simpl in *. rewrite length_firstn in H.
    rewrite nth_firstn. destruct (Nat.ltb_spec k (e - s)); [|lia].
    apply nth_skipn.
  - intros _. apply nth_skipn.
Qed.

Lemma length_time_window {A B} (s e : option nat) (l : list A) (l' : list B) :
  List.length l = List.length l' ->
  List.length (time_window s e l) = List.length (time_window s e l').
Proof.
  intro H. destruct s as [s|]; [destruct e as [e|]|]; simpl; auto.
  - unfold apply_slice. rewrite !length_firstn, !length_skipn. lia.
  - rewrite !length_skipn. lia.
Qed.

(** ** The window that [get_lat_lon_indices] returns *)

Lemma find_index_lt (g : Grid) (t : Q) (ax : coordinate_type) (i : nat) :
  find_index g t ax = Ok i -> (i < List.length (axis_values g ax))%nat.
Proof.
  intro H.
  assert (B : in_bounds (axis_values g ax) t).
  { unfold find_index in H. destruct (axis_values g ax) as [|c cs];
      [discriminate|].
    destruct (Qltb t (amin c cs) || Qltb (amax c cs) t) eqn:E;
      [discriminate|].
    now apply not_out_in_bounds. }
  destruct (find_index_in_bounds g ax t B) as (i' & E & L & _).
  congruence.
Qed.

Lemma get_lat_lon_indices_window (g : Grid) (r : Region)
    (lat_range lon_range : slice) :
  get_lat_lon_indices g r = Ok (lat_range, lon_range) ->
  (fst lat_range < snd lat_range <= List.length (latitude g))%nat
  /\ (fst lon_range < snd lon_range <= List.length (longitude g))%nat.
Proof.
  unfold get_lat_lon_indices.
  destruct (find_index g (nw_lat r) Latitude) as [a|] eqn:Ea; [|discriminate].
  destruct (find_index g (nw_lon r) Longitude) as [b|] eqn:Eb; [|discriminate].
  destruct (find_index g (se_lat r) Latitude) as [c|] eqn:Ec; [|discriminate].
  destruct (find_index g (se_lon r) Longitude) as [d|] eqn:Ed; [|discriminate].
  apply find_index_lt in Ea, Eb, Ec, Ed. simpl in *.
  intro H. inversion H; subst; simpl. lia.
Qed.

(** ** The steps of [process_data] *)

Lemma print_time_info_spec (self : RegionalDataExtractor)
    (s e : option nat) (w : world) :
  print_time_info self s e w
  = match time_window s e (time (dataset self)) with
    | [] => (Raise IndexError, w)
    | d :: r =>
        (Ok tt, add_lines w [Print_first_date (is_some s) d;
                             Print_last_date (is_some s) (last r d)])
    end.
Proof.
  unfold print_time_info.
  destruct s as [s|]; cbn [is_some].
  - destruct (time_window (Some s) e (time (dataset self))) as [|d r];
      [reflexivity|].
    unfold bindM, lift, print; cbn [item_first item_last].
    now rewrite add_lines_add_lines.
  - change (time_window None e (time (dataset self)))
      with (time (dataset self)).
    destruct (time (dataset self)) as [|d r]; [reflexivity|].
    unfold bindM, lift, print; cbn [item_first item_last].
    now rewrite add_lines_add_lines.
Qed.

Lemma save_to_csv_ok (self : RegionalDataExtractor) (data : list (list Q))
    (dates headers : list string) (w : world) :
  (size data =? 0)%nat = false ->
  List.length (tl headers) = ncols data ->
  List.length dates = List.length data ->
  save_to_csv self data dates headers w
  = (Ok tt,
     saved_world w (output_filename self)
       (mk_csv_table ("Date"%string :: tl headers) (combine dates data))
       [Print_shape (List.length data) (ncols data);
        Print_number_of_headers (List.length headers);
        Print_saved (output_filename self)]).
Proof.
  intros H1 H2 H3. unfold save_to_csv, bindM, print. rewrite H1.
  apply Nat.eqb_eq in H2, H3. rewrite H2, H3. cbn [negb].
  unfold to_csv, saved_world, add_lines; simpl.
  now rewrite <- !app_assoc.
Qed.

Lemma save_to_csv_inv (self : RegionalDataExtractor) (data : list (list Q))
    (dates headers : list string) (w w' : world) :
  save_to_csv self data dates headers w = (Ok tt, w') ->
  (size data =? 0)%nat = false
  /\ List.length (tl headers) = ncols data
  /\ List.length dates = List.length data.
Proof.
  unfold save_to_csv, bindM, print, raise.
  destruct (size data =? 0)%nat; [discriminate|].
  destruct (Nat.eqb_spec (List.length (tl headers)) (ncols data));
    [|discriminate].
  destruct (Nat.eqb_spec (List.length dates) (List.length data));
    [|discriminate].
  auto.
Qed.

(** What a run of [process_data] that returns has done. *)
Lemma process_data_inv (self : RegionalDataExtractor)
    (sd ed : option iso_date) (w w' : world) :
  process_data self sd ed w = (Ok tt, w') ->
  exists s e lat_range lon_range data d r,
    start_block (time (dataset self)) sd = Ok s
    /\ end_block (time (dataset self)) ed = Ok e
    /\ time_window s e (time (dataset self)) = d :: r
    /\ get_lat_lon_indices (dataset self) (region self)
       = Ok (lat_range, lon_range)
    /\ extract_data self lat_range lon_range s e = Ok data
    /\ (size data =? 0)%nat = false
    /\ List.length (tl (generate_headers lat_range lon_range (dataset self)))
       = ncols data
    /\ List.length (extract_date self s e) = List.length data
    /\ w' = saved_world w (output_filename self)
              (extraction_table (dataset self) lat_range lon_range s e data)
              (extraction_lines (is_some s) d (last r d) data
                 (generate_headers lat_range lon_range (dataset self))
                 (output_filename self)).
Proof.
  unfold process_data. unfold bindM at 1, lift at 1.
  destruct (start_block (time (dataset self)) sd) as [s|] eqn:Es;
    [|discriminate].
  unfold bindM at 1, lift at 1.
  destruct (end_block (time (dataset self)) ed) as [e|] eqn:Ee;
    [|discriminate].
  unfold bindM at 1. rewrite print_time_info_spec.
  destruct (time_window s e (time (dataset self))) as [|d r] eqn:Ew;
    [discriminate|].
  unfold bindM at 1, lift at 1.
  destruct (get_lat_lon_indices (dataset self) (region self))
    as [[lat_range lon_range]|] eqn:Eg; [|discriminate].
  unfold bindM at 1, lift at 1.
  destruct (extract_data self lat_range lon_range s e) as [data|] eqn:Ed;
    [|discriminate].
  intro H. destruct (save_to_csv_inv _ _ _ _ _ _ H) as (H1 & H2 & H3).
  rewrite (save_to_csv_ok _ _ _ _ _ H1 H2 H3) in H.
  exists s, e, lat_range, lon_range, data, d, r.
  repeat (split; [first [reflexivity|assumption]|]).
  inversion H. unfold saved_world, add_lines, extraction_table,
    extraction_lines, extract_date. simpl.
  now rewrite <- !app_assoc.
Qed.

(** And the converse: the run returns when its steps do. *)
Lemma process_data_ok (self : RegionalDataExtractor)
    (sd ed : option iso_date) (w : world) (s e : option nat)
    (lat_range lon_range : slice) (data : list (list Q)) (d : datetime)
    (r : list datetime) :
  start_block (time (dataset self)) sd = Ok s ->
  end_block (time (dataset self)) ed = Ok e ->
  time_window s e (time (dataset self)) = d :: r ->
  get_lat_lon_indices (dataset self) (region self)
  = Ok (lat_range, lon_range) ->
  extract_data self lat_range lon_range s e = Ok data ->
  (size data =? 0)%nat = false ->
  List.length (tl (generate_headers lat_range lon_range (dataset self)))
  = ncols data ->
  List.length (extract_date self s e) = List.length data ->
  process_data self sd ed w
  = (Ok tt,
     saved_world w (output_filename self)
       (extraction_table (dataset self) lat_range lon_range s e data)
       (extraction_lines (is_some s) d (last r d) data
          (generate_headers lat_range lon_range (dataset self))
          (output_filename self))).
Proof.
  intros Es Ee Ew Eg Ed H1 H2 H3. unfold process_data.
  bind_lift Es.
  bind_lift Ee.
  unfold bindM at 1. rewrite print_time_info_spec, Ew.
  bind_lift Eg.
  bind_lift Ed.
  rewrite (save_to_csv_ok _ _ _ _ _ H1 H2 H3).
  unfold saved_world, add_lines, extraction_table, extraction_lines,
    extract_date. simpl.
  now rewrite <- !app_assoc.
Qed.

(** ** Headers and columns *)

Lemma generate_headers_tl (lat_range lon_range : slice) (g : Grid) :
  tl (generate_headers lat_range lon_range g)
  = List.concat
      (map (fun lat =>
              map (fun lon => (format_1f lat ++ ", " ++ format_1f lon)%string)
                  (apply_slice lon_range (longitude g)))
           (apply_slice lat_range (latitude g))).
Proof. unfold generate_headers. simpl. apply flat_map_concat_map. Qed.

Lemma header_rows_rect (g : Grid) (a b c d : nat) :
  (d <= List.length (longitude g))%nat ->
  Forall (fun row : list string => List.length row = (d - c)%nat)
    (map (fun lat =>
            map (fun lon => (format_1f lat ++ ", " ++ format_1f lon)%string)
                (apply_slice (c, d) (longitude g)))
         (apply_slice (a, b) (latitude g))).
Proof.
  intro Hd. apply Forall_forall. intros row Hrow. apply in_map_iff in Hrow.
  destruct Hrow as (lat & <- & _). rewrite length_map.
  now apply length_apply_slice.
Qed.

Lemma length_headers (g : Grid) (a b c d : nat) :
  (b <= List.length (latitude g))%nat -> (d <= List.length (longitude g))%nat ->
  List.length (tl (generate_headers (a, b) (c, d) g))
  = ((b - a) * (d - c))%nat.
Proof.
  intros Hb Hd. rewrite generate_headers_tl.
  rewrite (length_concat_rect _ (d - c)) by now apply header_rows_rect.
  now rewrite length_map, length_apply_slice.
Qed.

Lemma nth_headers (g : Grid) (a b c d i j : nat) :
  (b <= List.length (latitude g))%nat -> (d <= List.length (longitude g))%nat ->
  (i < b - a)%nat -> (j < d - c)%nat ->
  nth (i * (d - c) + j) (tl (generate_headers (a, b) (c, d) g)) EmptyString
  = (format_1f (nth (a + i) (latitude g) 0) ++ ", "
       ++ format_1f (nth (c + j) (longitude g) 0))%string.
Proof.
  intros Hb Hd Hi Hj. rewrite generate_headers_tl.
  rewrite (nth_concat_rect EmptyString _ (d - c));
    [|now apply header_rows_rect
     |now rewrite length_map, length_apply_slice|assumption].
  set (f := fun lat =>
              map (fun lon => (format_1f lat ++ ", " ++ format_1f lon)%string)
                  (apply_slice (c, d) (longitude g))).
  rewrite (nth_indep _ [] (f 0))
    by now rewrite length_map, length_apply_slice.
  rewrite (map_nth f). unfold f.
  set (h := fun lon => (format_1f (nth i (apply_slice (a, b) (latitude g)) 0)
                          ++ ", " ++ format_1f lon)%string).
  rewrite (nth_indep _ EmptyString (h 0))
    by now rewrite length_map, length_apply_slice.
  rewrite (map_nth h). unfold h.
  now rewrite !nth_apply_slice.
Qed.

Lemma assoc_In {A} (k : string) (l : list (string * A)) (v : A) :
  assoc k l = Some v -> In (k, v) l.
Proof.
  induction l as [|[k' v'] l IH]; simpl; [discriminate|].
  destruct (String.eqb_spec k k') as [->|_].
  - intro H. inversion H. now left.
  - intro H. right. now apply IH.
Qed.

Lemma variable_shaped (g : Grid) (name : option string) (var : array3) :
  well_formed g -> variable g name = Ok var -> shaped g var.
Proof.
  intros Hw H. unfold variable in H. destruct name as [n|]; [|discriminate].
  destruct (assoc n (data_variables g)) as [v|] eqn:E;
    [|destruct (is_axis_name n); discriminate].
  inversion H; subst. apply assoc_In in E. unfold well_formed in Hw.
  rewrite Forall_forall in Hw. apply (Hw _ E).
Qed.

Lemma subarray_plane_rect (plane : list (list Q)) (nlat nlon a b c d : nat) :
  has_shape plane nlat nlon -> (b <= nlat)%nat -> (d <= nlon)%nat ->
  has_shape (map (apply_slice (c, d)) (apply_slice (a, b) plane))
            (b - a) (d - c).
Proof.
  intros [Hr Hc] Hb Hd. split.
  - rewrite length_map. apply length_apply_slice. lia.
  - apply Forall_forall. intros row Hrow. apply in_map_iff in Hrow.
    destruct Hrow as (row' & <- & Hin). apply In_apply_slice in Hin.
    rewrite Forall_forall in Hc. apply length_apply_slice.
    rewrite (Hc _ Hin). exact Hd.
Qed.

Lemma nth_subarray_plane (plane : list (list Q)) (a b c d i j : nat) :
  (b <= List.length plane)%nat -> (i < b - a)%nat -> (j < d - c)%nat ->
  nth j (nth i (map (apply_slice (c, d)) (apply_slice (a, b) plane)) []) 0
  = nth (c + j) (nth (a + i) plane []) 0.
Proof.
  intros Hb Hi Hj.
  rewrite (nth_indep _ [] (apply_slice (c, d) []))
    by now rewrite length_map, length_apply_slice.
  rewrite (map_nth (apply_slice (c, d))).
  now rewrite !nth_apply_slice.
Qed.

(** The rows that [extract_data] returns, cell by cell. *)
Lemma extract_data_cells (self : RegionalDataExtractor) (var : array3)
    (a b c d : nat) (s e : option nat) (data : list (list Q)) :
  shaped (dataset self) var ->
  variable (dataset self) (variable_name self) = Ok var ->
  (b <= List.length (latitude (dataset self)))%nat ->
  (d <= List.length (longitude (dataset self)))%nat ->
  extract_data self (a, b) (c, d) s e = Ok data ->
  data = map (@List.concat Q) (subarray (a, b) (c, d) (time_window s e var))
  /\ List.length data = List.length (time_window s e var)
  /\ has_shape data (List.length data) ((b - a) * (d - c))
  /\ (forall k i j,
        (k < List.length data)%nat -> (i < b - a)%nat -> (j < d - c)%nat ->
        nth (i * (d - c) + j) (nth k data []) 0
        = cell3 var (window_start s + k) (a + i) (c + j)).
Proof.
  intros [Hlen Hplanes] Hv Hb Hd H. unfold extract_data in H. rewrite Hv in H.
  cbn [bind] in H. unfold reshape_rows in H.
  assert (E : data = map (@List.concat Q)
                         (subarray (a, b) (c, d) (time_window s e var))).
  { destruct (subarray (a, b) (c, d) (time_window s e var));
      [discriminate|now inversion H]. }
  clear H. split; [exact E|].
  assert (L : List.length data = List.length (time_window s e var)).
  { rewrite E. unfold subarray. now rewrite !length_map. }
  split; [exact L|].
  assert (Hwin : forall plane, In plane (time_window s e var) ->
                               has_shape plane
                                 (List.length (latitude (dataset self)))
                                 (List.length (longitude (dataset self)))).
  { intros plane Hin. apply In_time_window in Hin.
    rewrite Forall_forall in Hplanes. now apply Hplanes. }
  split.
  - split; [reflexivity|]. rewrite E. apply Forall_forall. intros row Hrow.
    apply in_map_iff in Hrow. destruct Hrow as (p & <- & Hp).
    unfold subarray in Hp. apply in_map_iff in Hp.
    destruct Hp as (plane & <- & Hin).
    destruct (subarray_plane_rect plane _ _ a b c d (Hwin _ Hin) Hb Hd)
      as [R C].
    now rewrite (length_concat_rect _ (d - c)), R.
  - intros k i j Hk Hi Hj. rewrite L in Hk. rewrite E. unfold subarray.
    rewrite map_map.
    set (f := fun plane =>
                List.concat (map (apply_slice (c, d)) (apply_slice (a, b) plane))).
    rewrite (nth_indep _ [] (f [])) by now rewrite length_map.
    rewrite (map_nth f). unfold f.
    assert (Hin : In (nth k (time_window s e var) []) (time_window s e var))
      by now apply nth_In.
    pose proof (Hwin _ Hin) as Hs.
    destruct (subarray_plane_rect _ _ _ a b c d Hs Hb Hd) as [R C].
    rewrite (nth_concat_rect 0 _ (d - c)); [|exact C|lia|exact Hj].
    rewrite nth_subarray_plane; [|destruct Hs as [Hs _]; lia|exact Hi|exact Hj].
    unfold cell3. now rewrite nth_time_window.
Qed.

Lemma assoc_head {A} (k : string) (v : A) (l : list (string * A)) :
  assoc k ((k, v) :: l) = Some v.
Proof. simpl. now rewrite String.eqb_refl. Qed.

(** The header row and the data rows of the file that an extraction of
    [src/extractors] writes. *)
Lemma extraction_headers (g : Grid) (r : Region) (out : string)
    (sd ed : option iso_date) (w w' : world) :
  well_formed g ->
  extract g r out sd ed w = (Ok tt, w') ->
  exists lat_range lon_range s e var table,
    get_lat_lon_indices g r = Ok (lat_range, lon_range)
    /\ start_block (time g) sd = Ok s
    /\ end_block (time g) ed = Ok e
    /\ variable g (detect_variable g) = Ok var
    /\ assoc out (csv_files w') = Some table
    /\ csv_header table = generate_headers lat_range lon_range g
    /\ hd EmptyString (csv_header table) = "Date"%string
    /\ let nlat := (snd lat_range - fst lat_range)%nat in
       let nlon := (snd lon_range - fst lon_range)%nat in
       List.length (csv_header table) = (1 + nlat * nlon)%nat
       /\ (forall row, In row (csv_rows table) ->
                       List.length (snd row) = (nlat * nlon)%nat)
       /\ (forall i j,
             (i < nlat)%nat -> (j < nlon)%nat ->
             nth (1 + (i * nlon + j)) (csv_header table) EmptyString
             = (format_1f (nth (fst lat_range + i) (latitude g) 0) ++ ", "
                  ++ format_1f (nth (fst lon_range + j) (longitude g) 0))%string
             /\ (forall k,
                   (k < List.length (csv_rows table))%nat ->
                   nth (i * nlon + j)
                       (snd (nth k (csv_rows table) (EmptyString, []))) 0
                   = cell3 var (window_start s + k) (fst lat_range + i)
                           (fst lon_range + j))).
Proof.
  intros Hw H. unfold extract in H.
  destruct (process_data_inv _ _ _ _ _ H)
    as (s & e & [a b] & [c d] & data & d0 & rest & Es & Ee & Ewin & Eg & Ed
        & H1 & H2 & H3 & ->).
  cbn [dataset region output_filename variable_name] in *.
  destruct (get_lat_lon_indices_window g r _ _ Eg) as [[La Lb] [Lc Ld]].
  cbn [fst snd] in *.
  assert (Hvar : exists var, variable g (detect_variable g) = Ok var).
  { unfold extract_data in Ed. cbn [dataset variable_name] in Ed.
    destruct (variable g (detect_variable g)) as [var|]; [eauto|discriminate]. }
  destruct Hvar as (var & Ev).
  pose proof (variable_shaped g _ var Hw Ev) as Hs.
  destruct (extract_data_cells
              (mk_RegionalDataExtractor g (detect_variable g) out r)
              var a b c d s e data Hs Ev Lb Ld Ed)
    as (_ & Ldata & [_ Hrows] & Hcells).
  exists (a, b), (c, d), s, e, var,
    (extraction_table g (a, b) (c, d) s e data).
  repeat (split; [first [assumption|reflexivity|apply assoc_head]|]).
  cbn [fst snd]. unfold extraction_table; cbn [csv_header csv_rows].
  unfold extract_date in H3. cbn [dataset] in H3.
  split; [|split].
  - cbn [List.length]. now rewrite length_headers.
  - intros row Hrow. destruct row as [date values]. apply in_combine_r in Hrow.
    rewrite Forall_forall in Hrows. now apply Hrows.
  - intros i j Hi Hj. split.
    + change (nth (1 + (i * (d - c) + j))
                  ("Date"%string :: tl (generate_headers (a, b) (c, d) g))
                  EmptyString)
        with (nth (i * (d - c) + j) (tl (generate_headers (a, b) (c, d) g))
                  EmptyString).
      now apply nth_headers.
    + intros k Hk. rewrite length_combine, H3, Nat.min_id in Hk.
      rewrite (combine_nth _ _ _ _ _ H3). cbn [snd]. now apply Hcells.
Qed.

(** C9 as stated fails for the file written by the older script
    [netcdf_to_csv.py], whose [save_to_csv] passes no headers: the columns
    are labelled by their numbers. *)
Lemma legacy_headers_counterexample :
  let self := mk_RegionalDataExtractor example_grid
                (detect_variable example_grid) "out.csv" example_region in
  let out := Legacy.process_data self None example_world in
  fst out = Ok tt
  /\ option_map csv_header (assoc "out.csv" (csv_files (snd out)))
     = Some ["Date"; "0"; "1"; "2"; "3"; "4"; "5"; "6"; "7"; "8"]%string
  /\ get_lat_lon_indices example_grid example_region
     = Ok ((0, 3)%nat, (0, 3)%nat)
  /\ option_map csv_header (assoc "out.csv" (csv_files (snd out)))
     <> Some (generate_headers (0, 3)%nat (0, 3)%nat example_grid).
Proof. cbv zeta. repeat split; try reflexivity. discriminate. Qed.

(** C9, amended. After an extraction by the script of [src/extractors]
    that returns, the header row of the file is ['Date'] followed by one
    header per data column, the header of the column of latitude index [i]
    and longitude index [j] of the window being
    ["{lat:.1f}, {lon:.1f}"] of the axis values at those indices, in
    row-major order (latitude outer, longitude inner), and the cell of that
    column in each row is the value of the variable at the same indices. *)
Theorem headers_label_columns (g : Grid) (r : Region) (out : string)
    (sd ed : option iso_date) (w w' : world) :
  well_formed g ->
  extract g r out sd ed w = (Ok tt, w') ->
  exists lat_range lon_range s e var table,
    get_lat_lon_indices g r = Ok (lat_range, lon_range)
    /\ start_block (time g) sd = Ok s
    /\ end_block (time g) ed = Ok e
    /\ variable g (detect_variable g) = Ok var
    /\ assoc out (csv_files w') = Some table
    /\ csv_header table = generate_headers lat_range lon_range g
    /\ hd EmptyString (csv_header table) = "Date"%string
    /\ let nlat := (snd lat_range - fst lat_range)%nat in
       let nlon := (snd lon_range - fst lon_range)%nat in
       List.length (csv_header table) = (1 + nlat * nlon)%nat
       /\ (forall row, In row (csv_rows table) ->
                       List.length (snd row) = (nlat * nlon)%nat)
       /\ (forall i j,
             (i < nlat)%nat -> (j < nlon)%nat ->
             nth (1 + (i * nlon + j)) (csv_header table) EmptyString
             = (format_1f (nth (fst lat_range + i) (latitude g) 0) ++ ", "
                  ++ format_1f (nth (fst lon_range + j) (longitude g) 0))%string
             /\ (forall k,
                   (k < List.length (csv_rows table))%nat ->
                   nth (i * nlon + j)
                       (snd (nth k (csv_rows table) (EmptyString, []))) 0
                   = cell3 var (window_start s + k) (fst lat_range + i)
                           (fst lon_range + j))).
Proof. apply extraction_headers. Qed.

Lemma example_grid_well_formed : well_formed example_grid.
Proof.
  repeat constructor.
Qed.

(** ** Date ranges with a non-empty window *)

Lemma monotonic_nth (l : list datetime) (d : datetime) :
  monotonic l = true ->
  forall j m, (j <= m)%nat -> (m < List.length l)%nat ->
              dt_le (nth j l d) (nth m l d) = true.
Proof.
  induction l as [|x l IH]; intros Hm j m Hjm Hml; simpl in Hml; [lia|].
  destruct j as [|j].
  - apply (monotonic_first_le l x Hm). apply nth_In. simpl. lia.
  - destruct m as [|m]; [lia|]. simpl. apply IH; try lia.
    now apply monotonic_tail in Hm.
Qed.

Lemma end_block_in_bounds (dates : list datetime) (ed : iso_date)
    (d0 dn : datetime) :
  item_first dates = Ok d0 -> item_last dates = Ok dn ->
  dt_le d0 (strptime ed) = true -> dt_lt (strptime ed) dn = true ->
  exists k,
    end_block dates (Some ed) = Ok (Some k)
    /\ (k < List.length dates)%nat
    /\ dt_gt (nth k dates d0) (strptime ed) = true
    /\ (forall j, (j < k)%nat -> dt_gt (nth j dates d0) (strptime ed) = false).
Proof.
  intros H0 Hn L0 Ln.
  assert (Gn : dt_gt dn (strptime ed) = true).
  { apply dt_gt_earlier. now apply dt_lt_earlier. }
  destruct (first_index_exists (fun date => dt_gt date (strptime ed)) dates 0)
    as (k & Ek).
  { exists dn. split; [now apply item_last_In|exact Gn]. }
  exists k.
  destruct (first_index_found _ d0 _ _ _ Ek) as (_ & H2 & H3 & H4).
  rewrite Nat.sub_0_r in *.
  split; [|repeat split; auto].
  unfold end_block. rewrite H0, Hn; cbn [bind].
  assert (A : dt_lt (strptime ed) d0 = false).
  { destruct (dt_lt (strptime ed) d0) eqn:E; [|reflexivity].
    apply dt_lt_earlier in E. apply dt_le_not_earlier in L0. contradiction. }
  assert (B : dt_gt (strptime ed) dn = false).
  { destruct (dt_gt (strptime ed) dn) eqn:E; [|reflexivity].
    apply dt_gt_earlier in E. apply dt_lt_earlier in Ln.
    exfalso. apply (earlier_irrefl dn). eapply earlier_trans; eauto. }
  rewrite A, B; cbn [orb]. now rewrite Ek.
Qed.

Lemma skipn_nonempty {A} (n : nat) (l : list A) :
  (n < List.length l)%nat -> exists x r, skipn n l = x :: r.
Proof.
  intro H. destruct (skipn n l) as [|x r] eqn:E; [|eauto].
  apply (f_equal (@List.length A)) in E. rewrite length_skipn in E.
  simpl in E. lia.
Qed.

Lemma apply_slice_nonempty {A} (lo hi : nat) (l : list A) :
  (lo < hi)%nat -> (lo < List.length l)%nat ->
  exists x r, apply_slice (lo, hi) l = x :: r.
Proof.
  intros H1 H2. destruct (apply_slice (lo, hi) l) as [|x r] eqn:E; [|eauto].
  apply (f_equal (@List.length A)) in E. unfold apply_slice in E.
  rewrite length_firstn, length_skipn in E. simpl in E. lia.
Qed.

(** A supported date range resolves, in the extractor and in the verifier
    alike, to a window that holds at least one time step. *)
Lemma supported_date_range_window (dates : list datetime)
    (sd ed : option iso_date) :
  supported_date_range dates sd ed ->
  exists s e d rest,
    start_block dates sd = Ok s
    /\ end_block dates ed = Ok e
    /\ verifier_end_block dates sd ed = Ok e
    /\ time_window s e dates = d :: rest.
Proof.
  destruct sd as [sd|]; destruct ed as [ed|]; cbn [supported_date_range].
  - intros (Hm & d0 & dn & H0 & Hn & Ls0 & Lsn & Le0 & Len & dm & Hin & Lsd & Lde).
    destruct (start_block_in_bounds dates sd d0 dn H0 Hn Ls0 Lsn)
      as (i & _ & Es & Li & _ & Hbefore).
    destruct (end_block_in_bounds dates ed d0 dn H0 Hn Le0 Len)
      as (k & Ee & Lk & Hk & _).
    apply (In_nth _ _ d0) in Hin. destruct Hin as (m & Lm & <-).
    assert (Him : (i <= m)%nat).
    { destruct (Nat.le_gt_cases i m) as [?|G]; [assumption|].
      specialize (Hbefore m G). rewrite dt_ge_not_lt in Hbefore.
      apply negb_false_iff, dt_lt_earlier in Hbefore.
      apply dt_le_not_earlier in Lsd. contradiction. }
    assert (Hmk : (m < k)%nat).
    { destruct (Nat.le_gt_cases k m) as [G|?]; [|assumption].
      pose proof (monotonic_nth dates d0 Hm k m G Lm) as Lkm.
      pose proof (dt_le_trans _ _ _ Lkm Lde) as Lke.
      rewrite dt_le_not_gt, Hk in Lke. discriminate. }
    destruct (apply_slice_nonempty i k dates) as (d & rest & Ew); try lia.
    exists (Some i), (Some k), d, rest. repeat split; assumption.
  - intros (d0 & dn & H0 & Hn & Ls0 & Lsn).
    destruct (start_block_in_bounds dates sd d0 dn H0 Hn Ls0 Lsn)
      as (i & _ & Es & Li & _).
    destruct (skipn_nonempty i dates Li) as (d & rest & Ew).
    exists (Some i), None, d, rest. repeat split; assumption.
  - intros [].
  - intro H. destruct dates as [|d rest]; [congruence|].
    exists None, None, d, rest. repeat split.
Qed.

(** ** Extraction followed by verification *)

Lemma map_fst_combine_same {A B} (l : list A) :
  forall l' : list B, List.length l = List.length l' ->
                      map fst (combine l l') = l.
Proof.
  induction l as [|x l IH]; intros [|y l'] H; simpl in *; try discriminate;
    [reflexivity|]. f_equal. apply IH. lia.
Qed.

Lemma map_snd_combine_same {A B} (l : list A) :
  forall l' : list B, List.length l = List.length l' ->
                      map snd (combine l l') = l'.
Proof.
  induction l as [|x l IH]; intros [|y l'] H; simpl in *; try discriminate;
    [reflexivity|]. f_equal. apply IH. lia.
Qed.

Lemma compare_loaded_identical (dates : list string) (data : list (list Q))
    (c : nat) (w : world) :
  has_shape data (List.length data) c ->
  compare_loaded dates data dates data w
  = (Ok true, add_lines w [Print_verification_successful]).
Proof.
  intro Hs.
  destruct (compare_loaded_same_shape dates data data _ c w Hs Hs)
    as (H1 & H2 & _).
  assert (E : fst (compare_loaded dates data dates data w) = Ok true).
  { apply H1. intros i j _ _. apply isclose_within_tolerance, isclose_refl. }
  specialize (H2 E).
  destruct (compare_loaded dates data dates data w) as [res w'].
  simpl in *. congruence.
Qed.

Lemma detect_variable_found (g : Grid) (name : string) :
  detect_variable g = Some name ->
  exists var, variable g (Some name) = Ok var.
Proof.
  unfold detect_variable, variable.
  destruct (data_variables g) as [|[n var] rest]; [discriminate|].
  intro H. inversion H; subst. exists var. simpl.
  now rewrite String.eqb_refl.
Qed.

(** Under the hypotheses of the round trip, the file that the extractor
    writes passes the verifier, whose only line is the one of success. *)
Lemma extract_then_verify_passes (g : Grid) (r : Region)
    (filepath output_directory output_name name : string)
    (sd ed : option iso_date) (w : world) :
  assoc filepath (datasets w) = Some g ->
  well_formed g ->
  detect_variable g = Some name ->
  region_in_bounds g r ->
  supported_date_range (time g) sd ed ->
  exists w1 table,
    extract g r (path_join output_directory output_name) sd ed w = (Ok tt, w1)
    /\ assoc (path_join output_directory output_name) (csv_files w1)
       = Some table
    /\ extract_then_verify filepath r output_directory output_name sd ed name w
       = (Ok true, add_lines w1 [Print_verification_successful]).
Proof.
  intros Hopen Hwf Hdet Hreg Hrange.
  destruct (supported_date_range_window _ _ _ Hrange)
    as (s & e & d0 & rest & Es & Ee & Ev & Ewin).
  destruct (get_lat_lon_indices_in_bounds g r Hreg)
    as (ia & ib & ic & id & _ & _ & _ & _ & Eg & _).
  set (lat_range := (Nat.min ia ic, Nat.max ia ic + 1)%nat) in *.
  set (lon_range := (Nat.min ib id, Nat.max ib id + 1)%nat) in *.
  destruct (get_lat_lon_indices_window g r _ _ Eg) as [[La Lb] [Lc Ld]].
  destruct (detect_variable_found g name Hdet) as (var & Evar).
  pose proof (variable_shaped g _ var Hwf Evar) as Hshaped.
  set (self := mk_RegionalDataExtractor g (detect_variable g)
                 (path_join output_directory output_name) r).
  set (data := map (@List.concat Q)
                   (subarray lat_range lon_range (time_window s e var))).
  assert (Lwin : List.length (time_window s e var) = S (List.length rest)).
  { rewrite <- (length_time_window s e (time g) var);
      [now rewrite Ewin|symmetry; apply Hshaped]. }
  assert (Ed : extract_data self lat_range lon_range s e = Ok data).
  { unfold extract_data, self; cbn [dataset variable_name].
    rewrite Hdet, Evar; cbn [bind]. unfold reshape_rows, data, subarray.
    destruct (time_window s e var); [discriminate|reflexivity]. }
  assert (Hself : variable (dataset self) (variable_name self) = Ok var).
  { unfold self; cbn [dataset variable_name]. now rewrite Hdet. }
  destruct (extract_data_cells self var (fst lat_range) (snd lat_range)
              (fst lon_range) (snd lon_range) s e data Hshaped Hself Lb Ld Ed)
    as (_ & Ldata & Hdata & _).
  assert (Hrows : (0 < List.length data)%nat) by lia.
  pose proof (ncols_shape data _ _ Hdata Hrows) as Hncols.
  assert (H1 : (size data =? 0)%nat = false).
  { apply Nat.eqb_neq. unfold size. rewrite Hncols. cbn [fst snd] in *. nia. }
  assert (H2 : List.length (tl (generate_headers lat_range lon_range g))
               = ncols data).
  { rewrite Hncols. now apply length_headers. }
  assert (H3 : List.length (extract_date self s e) = List.length data).
  { unfold extract_date, self; cbn [dataset]. rewrite length_map, Ldata.
    apply length_time_window. symmetry. apply Hshaped. }
  pose proof (process_data_ok self sd ed w s e lat_range lon_range data d0 rest
                Es Ee Ewin Eg Ed H1 H2 H3) as Hrun.
  cbn [dataset output_filename] in Hrun.
  set (table := extraction_table g lat_range lon_range s e data) in *.
  match type of Hrun with _ = (_, ?W) => set (w1 := W) in * end.
  exists w1, table. split; [exact Hrun|]. split; [apply assoc_head|].
  unfold extract_then_verify.
  unfold bindM at 1. unfold new_RegionalDataExtractor, bindM at 1, open_dataset.
  rewrite Hopen. unfold ret at 1. fold self.
  unfold bindM at 1. rewrite Hrun.
  unfold verify_data; cbn [v_starting_date v_ending_date output_filename self].
  unfold bindM at 1, open_dataset at 1.
  change (datasets w1) with (datasets w). rewrite Hopen.
  bind_lift Eg.
  bind_lift Es.
  bind_lift Ev.
  unfold bindM at 1. unfold load_csv_data, bindM at 1, read_csv.
  change (csv_files w1)
    with ((path_join output_directory output_name, table) :: csv_files w).
  rewrite assoc_head. cbn [table extraction_table csv_header csv_rows hd].
  change (negb (String.eqb "Date" "Date")) with false. cbv iota. unfold ret at 1.
  assert (H3' : List.length (map strftime (time_window s e (time g)))
                = List.length data) by exact H3.
  rewrite (map_fst_combine_same _ data H3'), (map_snd_combine_same _ data H3').
  unfold bindM at 1. unfold load_netcdf_data, bindM at 1, open_dataset at 1.
  change (datasets w1) with (datasets w). rewrite Hopen.
  bind_lift Evar.
  unfold bindM at 1, lift at 1.
  assert (Er : reshape_rows (subarray lat_range lon_range (time_window s e var))
               = Ok data).
  { unfold reshape_rows, data, subarray.
    destruct (time_window s e var); [discriminate|reflexivity]. }
  rewrite Er. unfold ret at 1.
  apply (compare_loaded_identical _ data _ w1 Hdata).
Qed.

(** C1 as stated fails: both dates below lie within the bounds of the time
    axis of the dataset with gaps, no time step lies between them, and the
    extractor raises instead of writing a file with no row. *)
Lemma round_trip_counterexample :
  let sd := Some (mk_iso_date 2013 1 2) in
  let ed := Some (mk_iso_date 2013 1 3) in
  region_in_bounds sparse_grid example_region
  /\ start_block (time sparse_grid) sd = Ok (Some 1%nat)
  /\ end_block (time sparse_grid) ed = Ok (Some 1%nat)
  /\ extract_then_verify (path_join "netcdf4data" example_filename)
       example_region "out" "tg.csv" sd ed "tg" sparse_world
     = (Raise IndexError, sparse_world).
Proof.
  cbv zeta. split; [exact example_region_in_bounds|].
  repeat split; reflexivity.
Qed.

(** C1, amended. For a well-formed dataset, a region whose corners lie
    within the bounds of the axes and a supported date range (no date, a
    starting date within the bounds, or both dates within the bounds with
    the ending date strictly before the last decoded date and a time step
    between them on a monotonic axis), the extractor writes its file and
    the verifier, run on the same dataset, region and date range with the
    name of the variable the extractor detected, returns [True] and prints
    the line of success only. *)
Theorem round_trip_passes (g : Grid) (r : Region)
    (filepath output_directory output_name name : string)
    (sd ed : option iso_date) (w : world) :
  assoc filepath (datasets w) = Some g ->
  well_formed g ->
  detect_variable g = Some name ->
  region_in_bounds g r ->
  supported_date_range (time g) sd ed ->
  exists w1 table,
    extract g r (path_join output_directory output_name) sd ed w = (Ok tt, w1)
    /\ assoc (path_join output_directory output_name) (csv_files w1)
       = Some table
    /\ extract_then_verify filepath r output_directory output_name sd ed name w
       = (Ok true, add_lines w1 [Print_verification_successful]).
Proof. apply extract_then_verify_passes. Qed.

Lemma example_date_range :
  supported_date_range (time example_grid) (Some (mk_iso_date 2013 1 2))
                       (Some (mk_iso_date 2013 1 2)).
Proof.
  split; [reflexivity|]. exists (jan 1), (jan 3).
  repeat (split; [reflexivity|]).
  exists (jan 2). split; [simpl; tauto|]. split; reflexivity.
Qed.

Lemma round_trip_passes_witness :
  exists w1 table,
    extract example_grid example_region (path_join "out" "tg.csv")
            (Some (mk_iso_date 2013 1 2)) (Some (mk_iso_date 2013 1 2))
            example_world
    = (Ok tt, w1)
    /\ assoc (path_join "out" "tg.csv") (csv_files w1) = Some table
    /\ extract_then_verify (path_join "netcdf4data" example_filename)
         example_region "out" "tg.csv" (Some (mk_iso_date 2013 1 2))
         (Some (mk_iso_date 2013 1 2)) "tg" example_world
       = (Ok true, add_lines w1 [Print_verification_successful]).
Proof.
  apply (round_trip_passes example_grid example_region
           (path_join "netcdf4data" example_filename) "out" "tg.csv" "tg"
           (Some (mk_iso_date 2013 1 2)) (Some (mk_iso_date 2013 1 2))
           example_world).
  - reflexivity.
  - exact example_grid_well_formed.
  - reflexivity.
  - exact example_region_in_bounds.
  - exact example_date_range.
Defined.

(** With an ending date and no starting date the extractor writes the whole
    time axis and the verifier then reads [dates] before any assignment. *)
Lemma end_without_start_unbound :
  fst (extract example_grid example_region (path_join "out" "tg.csv") None
               (Some (mk_iso_date 2013 1 1)) example_world)
  = Ok tt
  /\ fst (extract_then_verify (path_join "netcdf4data" example_filename)
            example_region "out" "tg.csv" None (Some (mk_iso_date 2013 1 1))
            "tg" example_world)
     = Raise UnboundLocalError.
Proof. split; reflexivity. Qed.

Lemma headers_label_columns_witness :
  exists lat_range lon_range s e var table,
    get_lat_lon_indices example_grid example_region
    = Ok (lat_range, lon_range)
    /\ start_block (time example_grid) None = Ok s
    /\ end_block (time example_grid) None = Ok e
    /\ variable example_grid (detect_variable example_grid) = Ok var
    /\ assoc "out.csv"
             (csv_files (snd (extract example_grid example_region "out.csv"
                                      None None example_world)))
       = Some table
    /\ csv_header table = generate_headers lat_range lon_range example_grid
    /\ hd EmptyString (csv_header table) = "Date"%string
    /\ let nlat := (snd lat_range - fst lat_range)%nat in
       let nlon := (snd lon_range - fst lon_range)%nat in
       List.length (csv_header table) = (1 + nlat * nlon)%nat
       /\ (forall row, In row (csv_rows table) ->
                       List.length (snd row) = (nlat * nlon)%nat)
       /\ (forall i j,
             (i < nlat)%nat -> (j < nlon)%nat ->
             nth (1 + (i * nlon + j)) (csv_header table) EmptyString
             = (format_1f (nth (fst lat_range + i) (latitude example_grid) 0)
                  ++ ", "
                  ++ format_1f (nth (fst lon_range + j)
                                    (longitude example_grid) 0))%string
             /\ (forall k,
                   (k < List.length (csv_rows table))%nat ->
                   nth (i * nlon + j)
                       (snd (nth k (csv_rows table) (EmptyString, []))) 0
                   = cell3 var (window_start s + k) (fst lat_range + i)
                           (fst lon_range + j))).
Proof.
  apply (headers_label_columns example_grid example_region "out.csv" None None
           example_world).
  - exact example_grid_well_formed.
  - reflexivity.
Defined.

(** The scenario of the three by three grid: the window is the whole grid
    and the nine headers run from ["52.0, -1.0"] to ["51.0, 0.0"]. *)
Lemma example_headers :
  get_lat_lon_indices example_grid example_region
  = Ok ((0, 3)%nat, (0, 3)%nat)
  /\ generate_headers (0, 3)%nat (0, 3)%nat example_grid
     = ["Date"; "52.0, -1.0"; "52.0, -0.5"; "52.0, 0.0"; "51.5, -1.0";
        "51.5, -0.5"; "51.5, 0.0"; "51.0, -1.0"; "51.0, -0.5";
        "51.0, 0.0"]%string.
Proof. split; reflexivity. Qed.

(** ** The two verifiers *)

(** The older verifier is the newer one without an ending date. *)
Lemma legacy_verify_data_no_ending_date (self : NetCDFVerifier)
    (netcdf_filepath csv_filepath name : string) (r : Region) :
  v_ending_date self = None ->
  Legacy.verify_data (v_starting_date self) netcdf_filepath csv_filepath r name
  = verify_data self netcdf_filepath csv_filepath r name.
Proof.
  intro H. unfold Legacy.verify_data, verify_data. rewrite H. reflexivity.
Qed.

(** Once the window is resolved and both sides are loaded, [verify_data] is
    the comparison of what was loaded. *)
Lemma verify_data_compares (self : NetCDFVerifier)
    (netcdf_filepath csv_filepath name : string) (r : Region) (g : Grid)
    (lat_range lon_range : slice) (s e : option nat)
    (csv_dates netcdf_dates : list string)
    (csv_data netcdf_data : list (list Q)) (w : world) :
  assoc netcdf_filepath (datasets w) = Some g ->
  get_lat_lon_indices g r = Ok (lat_range, lon_range) ->
  start_block (time g) (v_starting_date self) = Ok s ->
  verifier_end_block (time g) (v_starting_date self) (v_ending_date self)
  = Ok e ->
  load_csv_data csv_filepath w = (Ok (csv_dates, csv_data), w) ->
  load_netcdf_data netcdf_filepath name lat_range lon_range s e w
  = (Ok (netcdf_dates, netcdf_data), w) ->
  verify_data self netcdf_filepath csv_filepath r name w
  = compare_loaded csv_dates csv_data netcdf_dates netcdf_data w.
Proof.
  intros Hopen Eg Es Ee Hcsv Hnc. unfold verify_data.
  unfold bindM at 1, open_dataset at 1. rewrite Hopen.
  bind_lift Eg.
  bind_lift Es.
  bind_lift Ee.
  unfold bindM at 1. rewrite Hcsv.
  unfold bindM at 1. rewrite Hnc. reflexivity.
Qed.

(** * Further properties of the scripts *)

(** ** The dates of the window *)

Lemma filter_all_false {A} (p : A -> bool) (l : list A) :
  Forall (fun x => p x = false) l -> filter p l = [].
Proof.
  induction 1 as [|x l Hx _ IH]; simpl; [reflexivity|]. now rewrite Hx.
Qed.

Lemma filter_all_true {A} (p : A -> bool) (l : list A) :
  Forall (fun x => p x = true) l -> filter p l = l.
Proof.
  induction 1 as [|x l Hx _ IH]; simpl; [reflexivity|]. now rewrite Hx, IH.
Qed.

Lemma filter_andb {A} (p q : A -> bool) (l : list A) :
  filter (fun x => p x && q x) l = filter q (filter p l).
Proof.
  induction l as [|x l IH]; simpl; [reflexivity|].
  destruct (p x); simpl; [|exact IH]. destruct (q x); now rewrite IH.
Qed.

(** A predicate false before the index [n] and true from it on keeps the
    elements from [n] on. *)
Lemma filter_from_index {A} (d : A) (p : A -> bool) (l : list A) (n : nat) :
  (forall j, (j < n)%nat -> (j < List.length l)%nat -> p (nth j l d) = false) ->
  (forall j, (n <= j)%nat -> (j < List.length l)%nat -> p (nth j l d) = true) ->
  filter p l = skipn n l.
Proof.
  intros Hlo Hhi. rewrite <- (firstn_skipn n l) at 1. rewrite filter_app.
  rewrite filter_all_false, filter_all_true; [reflexivity| |].
  - apply Forall_forall. intros x Hx. apply (In_nth _ _ d) in Hx.
    destruct Hx as (j & Hj & <-). rewrite length_skipn in Hj.
    rewrite nth_skipn. apply Hhi; lia.
  - apply Forall_forall. intros x Hx. apply (In_nth _ _ d) in Hx.
    destruct Hx as (j & Hj & <-). rewrite length_firstn in Hj.
    rewrite nth_firstn. destruct (Nat.ltb_spec j n); [|lia]. apply Hlo; lia.
Qed.

(** A predicate true before the index [n] and false from it on keeps the
    elements before [n]. *)
Lemma filter_to_index {A} (d : A) (p : A -> bool) (l : list A) (n : nat) :
  (forall j, (j < n)%nat -> (j < List.length l)%nat -> p (nth j l d) = true) ->
  (forall j, (n <= j)%nat -> (j < List.length l)%nat -> p (nth j l d) = false) ->
  filter p l = firstn n l.
Proof.
  intros Hlo Hhi. rewrite <- (firstn_skipn n l) at 1. rewrite filter_app.
  rewrite filter_all_true, filter_all_false; [apply app_nil_r| |].
  - apply Forall_forall. intros x Hx. apply (In_nth _ _ d) in Hx.
    destruct Hx as (j & Hj & <-). rewrite length_skipn in Hj.
    rewrite nth_skipn. apply Hhi; lia.
  - apply Forall_forall. intros x Hx. apply (In_nth _ _ d) in Hx.
    destruct Hx as (j & Hj & <-). rewrite length_firstn in Hj.
    rewrite nth_firstn. destruct (Nat.ltb_spec j n); [|lia]. apply Hlo; lia.
Qed.

Lemma dt_ge_le (a b : datetime) : dt_ge a b = dt_le b a.
Proof.
  destruct (dt_ge a b) eqn:E1; destruct (dt_le b a) eqn:E2; try reflexivity.
  - apply dt_ge_not_earlier in E1.
    assert (H : dt_le b a = true) by now apply dt_le_not_earlier.
    congruence.
  - apply dt_le_not_earlier in E2.
    assert (H : dt_ge a b = true) by now apply dt_ge_not_earlier.
    congruence.
Qed.

Lemma start_block_inv (dates : list datetime) (sd : iso_date)
    (s : option nat) :
  start_block dates (Some sd) = Ok s ->
  exists i, s = Some i
            /\ first_index (fun date => dt_ge date (strptime sd)) 0 dates = Ok i.
Proof.
  unfold start_block.
  destruct (item_first dates) as [d0|]; [|discriminate].
  destruct (item_last dates) as [dn|]; [|discriminate]. cbn [bind].
  destruct (dt_lt (strptime sd) d0 || dt_gt (strptime sd) dn); [discriminate|].
  destruct (first_index _ 0 dates) as [i|] eqn:E; [|discriminate].
  cbn [bind]. intro H. inversion H. eauto.
Qed.

Lemma end_block_inv (dates : list datetime) (ed : iso_date) (e : option nat) :
  end_block dates (Some ed) = Ok e ->
  exists k, e = Some k
            /\ first_index (fun date => dt_gt date (strptime ed)) 0 dates = Ok k.
Proof.
  unfold end_block.
  destruct (item_first dates) as [d0|]; [|discriminate].
  destruct (item_last dates) as [dn|]; [|discriminate]. cbn [bind].
  destruct (dt_lt (strptime ed) d0 || dt_gt (strptime ed) dn); [discriminate|].
  destruct (first_index _ 0 dates) as [k|] eqn:E; [|discriminate].
  cbn [bind]. intro H. inversion H. eauto.
Qed.

(** On a monotonic axis the dates from the start index on are those not
    before the starting date. *)
Lemma dates_from_start (dates : list datetime) (sd : iso_date) (i : nat) :
  monotonic dates = true ->
  first_index (fun date => dt_ge date (strptime sd)) 0 dates = Ok i ->
  filter (fun d => dt_ge d (strptime sd)) dates = skipn i dates.
Proof.
  intros Hm Hi. set (d := strptime sd).
  destruct (first_index_found _ d _ _ _ Hi) as (_ & Li & Hat & Hbefore).
  rewrite Nat.sub_0_r in *.
  apply (filter_from_index d); [intros j Hj _; now apply Hbefore|].
  intros j Hj Lj. rewrite dt_ge_le. rewrite dt_ge_le in Hat.
  eapply dt_le_trans; [exact Hat|]. now apply monotonic_nth.
Qed.

(** And the dates before the end index are those not after the ending
    date. *)
Lemma dates_to_end (dates : list datetime) (ed : iso_date) (k : nat) :
  monotonic dates = true ->
  first_index (fun date => dt_gt date (strptime ed)) 0 dates = Ok k ->
  forall j, (j < List.length dates)%nat ->
            dt_le (nth j dates (strptime ed)) (strptime ed) = (j <? k)%nat.
Proof.
  intros Hm Hk j Lj. set (d := strptime ed) in *.
  destruct (first_index_found _ d _ _ _ Hk) as (_ & Lk & Hat & Hbefore).
  rewrite Nat.sub_0_r in *. rewrite dt_le_not_gt.
  destruct (Nat.ltb_spec j k) as [L|G].
  - now rewrite Hbefore.
  - apply negb_false_iff. apply dt_gt_earlier. apply dt_gt_earlier in Hat.
    pose proof (monotonic_nth dates d Hm k j G Lj) as Lkj.
    apply dt_le_not_earlier in Lkj.
    unfold earlier in *. lia.
Qed.

(** The window of a starting date and an optional ending date, once both
    resolved on a monotonic axis, holds the dates of the range and no
    other. *)
Lemma time_window_in_range (dates : list datetime) (sd : iso_date)
    (ed : option iso_date) (s e : option nat) :
  monotonic dates = true ->
  start_block dates (Some sd) = Ok s -> end_block dates ed = Ok e ->
  time_window s e dates = filter (in_date_range sd ed) dates.
Proof.
  intros Hm Hs He. destruct (start_block_inv _ _ _ Hs) as (i & -> & Hi).
  unfold in_date_range. rewrite filter_andb, (dates_from_start _ _ _ Hm Hi).
  destruct ed as [ed|].
  - destruct (end_block_inv _ _ _ He) as (k & -> & Hk).
    cbn [time_window]. unfold apply_slice; cbn [fst snd]. symmetry.
    apply (filter_to_index (strptime ed)).
    + intros j Hj Lj. rewrite length_skipn in Lj. rewrite nth_skipn.
      rewrite (dates_to_end _ _ _ Hm Hk) by lia. apply Nat.ltb_lt. lia.
    + intros j Hj Lj. rewrite length_skipn in Lj. rewrite nth_skipn.
      rewrite (dates_to_end _ _ _ Hm Hk) by lia. apply Nat.ltb_ge. lia.
  - inversion He; subst. cbn [time_window]. symmetry.
    apply filter_all_true. apply Forall_forall. reflexivity.
Qed.

(** X1. On a monotonic time axis, the [Date] column of the file written by
    an extraction with a starting date and an optional ending date lists, in
    the order of the axis, the dates that are not before the starting date
    and not after the ending date, and no other. *)
Theorem extracted_dates_in_range (g : Grid) (r : Region) (out : string)
    (sd : iso_date) (ed : option iso_date) (w w' : world) :
  monotonic (time g) = true ->
  extract g r out (Some sd) ed w = (Ok tt, w') ->
  exists table,
    assoc out (csv_files w') = Some table
    /\ map fst (csv_rows table)
       = map strftime (filter (in_date_range sd ed) (time g)).
Proof.
  intros Hm H. unfold extract in H.
  destruct (process_data_inv _ _ _ _ _ H)
    as (s & e & la & lo & data & d0 & rest & Es & Ee & _ & _ & _ & _ & _
        & H3 & ->).
  cbn [dataset output_filename] in *.
  exists (extraction_table g la lo s e data). split; [apply assoc_head|].
  unfold extraction_table; cbn [csv_rows].
  unfold extract_date in H3; cbn [dataset] in H3.
  rewrite (map_fst_combine_same _ data H3).
  now rewrite (time_window_in_range _ _ _ _ _ Hm Es Ee).
Qed.

Lemma extracted_dates_in_range_witness :
  exists table,
    assoc "out.csv"
          (csv_files (snd (extract example_grid example_region "out.csv"
                                   (Some (mk_iso_date 2013 1 2))
                                   (Some (mk_iso_date 2013 1 2))
                                   example_world)))
    = Some table
    /\ map fst (csv_rows table)
       = map strftime
           (filter (in_date_range (mk_iso_date 2013 1 2)
                                  (Some (mk_iso_date 2013 1 2)))
                   (time example_grid)).
Proof.
  apply (extracted_dates_in_range example_grid example_region "out.csv"
           (mk_iso_date 2013 1 2) (Some (mk_iso_date 2013 1 2)) example_world);
    reflexivity.
Defined.

(** ** Date ranges at their edges *)

(** X2. When the ending date resolves (it lies within the bounds of the time
    axis, strictly before the last decoded date) and no starting date is
    given, the extractor ignores the ending date: it does what it does
    without any date, and writes every time step. *)
Theorem ending_date_ignored_without_start (g : Grid) (r : Region)
    (out : string) (ed : iso_date) (d0 dn : datetime) (w : world) :
  item_first (time g) = Ok d0 -> item_last (time g) = Ok dn ->
  dt_le d0 (strptime ed) = true -> dt_lt (strptime ed) dn = true ->
  extract g r out None (Some ed) w = extract g r out None None w.
Proof.
  intros H0 Hn L0 Ln.
  destruct (end_block_in_bounds (time g) ed d0 dn H0 Hn L0 Ln) as (k & Ek & _).
  unfold extract, process_data; cbn [dataset].
  rewrite Ek. reflexivity.
Qed.

Lemma ending_date_ignored_without_start_witness :
  extract example_grid example_region "out.csv" None
          (Some (mk_iso_date 2013 1 1)) example_world
  = extract example_grid example_region "out.csv" None None example_world.
Proof.
  apply (ending_date_ignored_without_start example_grid example_region
           "out.csv" (mk_iso_date 2013 1 1) (jan 1) (jan 3) example_world);
    reflexivity.
Defined.

(** X3. With an ending date and no starting date, the verifier of
    [src/verifiers] raises [UnboundLocalError] as soon as the dataset opens
    and the corners of the region are within bounds, before any file is
    compared: its block of the ending date reads [dates], which only the
    block of the starting date assigns. *)
Theorem verifier_needs_starting_date (self : NetCDFVerifier)
    (netcdf_filepath csv_filepath name : string) (r : Region) (g : Grid)
    (ed : iso_date) (w : world) :
  assoc netcdf_filepath (datasets w) = Some g ->
  region_in_bounds g r ->
  v_starting_date self = None -> v_ending_date self = Some ed ->
  verify_data self netcdf_filepath csv_filepath r name w
  = (Raise UnboundLocalError, w).
Proof.
  intros Hopen Hreg Hs He.
  destruct (get_lat_lon_indices_in_bounds g r Hreg)
    as (a & b & c & d & _ & _ & _ & _ & Eg & _).
  unfold verify_data. unfold bindM at 1, open_dataset at 1. rewrite Hopen.
  bind_lift Eg. rewrite Hs, He. reflexivity.
Qed.

Lemma verifier_needs_starting_date_witness :
  verify_data (mk_NetCDFVerifier "netcdf4data" "CSVClimateData" [] None
                 (Some (mk_iso_date 2013 1 2)))
              (path_join "netcdf4data" example_filename) "out.csv"
              example_region "tg" example_world
  = (Raise UnboundLocalError, example_world).
Proof.
  apply (verifier_needs_starting_date
           (mk_NetCDFVerifier "netcdf4data" "CSVClimateData" [] None
              (Some (mk_iso_date 2013 1 2)))
           (path_join "netcdf4data" example_filename) "out.csv" "tg"
           example_region example_grid (mk_iso_date 2013 1 2) example_world).
  - reflexivity.
  - exact example_region_in_bounds.
  - reflexivity.
  - reflexivity.
Defined.

Lemma first_index_unique {A} (p : A -> bool) (d : A) (l : list A) (k : nat) :
  (k < List.length l)%nat -> p (nth k l d) = true ->
  (forall j, (j < k)%nat -> p (nth j l d) = false) ->
  first_index p 0 l = Ok k.
Proof.
  intros Lk Hk Hbefore.
  destruct (first_index_exists p l 0) as (k' & E).
  { exists (nth k l d). split; [now apply nth_In|exact Hk]. }
  destruct (first_index_found p d l 0 k' E) as (_ & L' & H' & Hb').
  rewrite Nat.sub_0_r in *.
  destruct (Nat.lt_trichotomy k k') as [L|[->|G]]; [|exact E|].
  - rewrite (Hb' k L) in Hk. discriminate.
  - rewrite (Hbefore k' G) in H'. discriminate.
Qed.

Lemma first_index_stops {A} (p : A -> bool) (l : list A) (i : nat) :
  first_index p i l = Raise StopIteration <-> forall x, In x l -> p x = false.
Proof.
  split; [|apply first_index_none].
  revert i. induction l as [|x l IH]; intros i H y Hy; [destruct Hy|].
  simpl in H. destruct (p x) eqn:E; [discriminate|].
  destruct Hy as [<-|Hy]; [exact E|]. eapply IH; eauto.
Qed.

Lemma first_index_raises_only_stop {A} (p : A -> bool) (l : list A) (i : nat)
    (e : exn) :
  first_index p i l = Raise e -> e = StopIteration.
Proof.
  revert i. induction l as [|x l IH]; intros i H; simpl in H.
  - now inversion H.
  - destruct (p x); [discriminate|]. eapply IH; eauto.
Qed.

(** The three outcomes of the block of an ending date. *)
Lemma end_block_cases (dates : list datetime) (ed : iso_date)
    (d0 dn : datetime) :
  item_first dates = Ok d0 -> item_last dates = Ok dn ->
  (end_block dates (Some ed) = Raise (ValueError_ending_date (strptime ed))
   <-> earlier (strptime ed) d0 \/ earlier dn (strptime ed))
  /\ (end_block dates (Some ed) = Raise StopIteration
      <-> ~ (earlier (strptime ed) d0 \/ earlier dn (strptime ed))
          /\ forall d, In d dates -> ~ earlier (strptime ed) d)
  /\ (forall k,
        end_block dates (Some ed) = Ok (Some k)
        <-> ~ (earlier (strptime ed) d0 \/ earlier dn (strptime ed))
            /\ (k < List.length dates)%nat
            /\ earlier (strptime ed) (nth k dates d0)
            /\ forall j, (j < k)%nat -> ~ earlier (strptime ed) (nth j dates d0)).
Proof.
  intros H0 Hn. unfold end_block. rewrite H0, Hn. cbn [bind].
  set (t := strptime ed).
  assert (Htest : dt_lt t d0 || dt_gt t dn = true
                  <-> earlier t d0 \/ earlier dn t).
  { now rewrite orb_true_iff, dt_lt_earlier, dt_gt_earlier. }
  assert (Hgt : forall d, dt_gt d t = false <-> ~ earlier t d).
  { intro d. rewrite <- dt_gt_earlier. destruct (dt_gt d t); split; congruence. }
  destruct (dt_lt t d0 || dt_gt t dn) eqn:B.
  - assert (Out : earlier t d0 \/ earlier dn t) by now apply Htest.
    split; [tauto|]. split; [split; [discriminate|tauto]|].
    intro k. split; [discriminate|tauto].
  - assert (In_ : ~ (earlier t d0 \/ earlier dn t)).
    { intro H. apply Htest in H. discriminate. }
    destruct (first_index (fun date => dt_gt date t) 0 dates) as [k0|e] eqn:E;
      cbn [bind].
    + destruct (first_index_found _ d0 _ _ _ E) as (_ & L & Hat & Hbefore).
      rewrite Nat.sub_0_r in *.
      split; [split; [discriminate|tauto]|].
      split.
      * split; [discriminate|]. intros [_ H]. exfalso.
        apply (H (nth k0 dates d0)); [now apply nth_In|].
        now apply dt_gt_earlier.
      * intro k. split.
        -- intro H. inversion H; subst. repeat split; auto.
           ++ now apply dt_gt_earlier.
           ++ intros j Hj. apply Hgt. now apply Hbefore.
        -- intros (_ & Lk & Hk & Hb).
           assert (E' : first_index (fun date => dt_gt date t) 0 dates = Ok k).
           { apply (first_index_unique _ d0); auto.
             - now apply dt_gt_earlier.
             - intros j Hj. apply Hgt. now apply Hb. }
           congruence.
    + pose proof (first_index_raises_only_stop _ _ _ _ E) as ->.
      split; [split; [discriminate|tauto]|].
      split.
      * split; [|reflexivity]. intros _. split; [exact In_|].
        intros d Hd. apply Hgt.
        exact (proj1 (first_index_stops _ _ _) E d Hd).
      * intro k. split; [discriminate|]. intros (_ & Lk & Hk & _). exfalso.
        pose proof (proj1 (first_index_stops _ _ _) E (nth k dates d0)
                      (nth_In _ _ Lk)) as F.
        apply dt_gt_earlier in Hk. cbv beta in F. congruence.
Qed.

(** X4. On a non-empty time axis the block of the ending date has three
    outcomes: the [ValueError] of the bounds exactly when the date is
    before the first or after the last decoded date; [StopIteration]
    exactly when the date is within the bounds and no decoded date is
    strictly after it; otherwise the index of the first decoded date
    strictly after it. *)
Theorem end_block_outcomes (g : Grid) (ed : iso_date) (d0 dn : datetime) :
  item_first (time g) = Ok d0 -> item_last (time g) = Ok dn ->
  (end_block (time g) (Some ed)
   = Raise (ValueError_ending_date (strptime ed))
   <-> earlier (strptime ed) d0 \/ earlier dn (strptime ed))
  /\ (end_block (time g) (Some ed) = Raise StopIteration
      <-> ~ (earlier (strptime ed) d0 \/ earlier dn (strptime ed))
          /\ forall d, In d (time g) -> ~ earlier (strptime ed) d)
  /\ (forall k,
        end_block (time g) (Some ed) = Ok (Some k)
        <-> ~ (earlier (strptime ed) d0 \/ earlier dn (strptime ed))
            /\ (k < List.length (time g))%nat
            /\ earlier (strptime ed) (nth k (time g) d0)
            /\ forall j, (j < k)%nat ->
                         ~ earlier (strptime ed) (nth j (time g) d0)).
Proof. apply end_block_cases. Qed.

Lemma end_block_outcomes_witness :
  (end_block (time sparse_grid) (Some (mk_iso_date 2013 1 5))
   = Raise (ValueError_ending_date (strptime (mk_iso_date 2013 1 5)))
   <-> earlier (strptime (mk_iso_date 2013 1 5)) (jan 1)
       \/ earlier (jan 9) (strptime (mk_iso_date 2013 1 5)))
  /\ (end_block (time sparse_grid) (Some (mk_iso_date 2013 1 5))
      = Raise StopIteration
      <-> ~ (earlier (strptime (mk_iso_date 2013 1 5)) (jan 1)
             \/ earlier (jan 9) (strptime (mk_iso_date 2013 1 5)))
          /\ forall d, In d (time sparse_grid) ->
                       ~ earlier (strptime (mk_iso_date 2013 1 5)) d)
  /\ (forall k,
        end_block (time sparse_grid) (Some (mk_iso_date 2013 1 5))
        = Ok (Some k)
        <-> ~ (earlier (strptime (mk_iso_date 2013 1 5)) (jan 1)
               \/ earlier (jan 9) (strptime (mk_iso_date 2013 1 5)))
            /\ (k < List.length (time sparse_grid))%nat
            /\ earlier (strptime (mk_iso_date 2013 1 5))
                       (nth k (time sparse_grid) (jan 1))
            /\ forall j, (j < k)%nat ->
                         ~ earlier (strptime (mk_iso_date 2013 1 5))
                                   (nth j (time sparse_grid) (jan 1))).
Proof.
  apply (end_block_outcomes sparse_grid (mk_iso_date 2013 1 5) (jan 1) (jan 9));
    reflexivity.
Defined.

(** X5. On a dataset whose time axis is empty the extractor raises
    [IndexError] whatever the dates are, and leaves the world as it was. *)
Theorem empty_time_axis_raises (self : RegionalDataExtractor)
    (sd ed : option iso_date) (w : world) :
  time (dataset self) = [] ->
  process_data self sd ed w = (Raise IndexError, w).
Proof.
  intro H. unfold process_data. rewrite H.
  destruct sd as [sd|]; [reflexivity|].
  destruct ed as [ed|]; [reflexivity|].
  unfold bindM at 1, lift at 1. cbn [start_block].
  unfold bindM at 1, lift at 1. cbn [end_block].
  unfold bindM at 1. rewrite print_time_info_spec, H. reflexivity.
Qed.

Lemma empty_time_axis_raises_witness :
  process_data
    (mk_RegionalDataExtractor (mk_Grid [52] [0] [] []) None "out.csv"
                              example_region)
    (Some (mk_iso_date 2013 1 1)) None example_world
  = (Raise IndexError, example_world).
Proof.
  apply (empty_time_axis_raises
           (mk_RegionalDataExtractor (mk_Grid [52] [0] [] []) None "out.csv"
                                     example_region)).
  reflexivity.
Defined.

(** ** What the scripts write *)

Lemma save_to_csv_world (self : RegionalDataExtractor) (data : list (list Q))
    (dates headers : list string) (w : world) :
  exists ls,
    (exists e, save_to_csv self data dates headers w
               = (Raise e, add_lines w ls))
    \/ (save_to_csv self data dates headers w
        = (Ok tt,
           saved_world w (output_filename self)
             (mk_csv_table ("Date"%string :: tl headers) (combine dates data))
             ls)
        /\ (size data =? 0)%nat = false
        /\ List.length dates = List.length data).
Proof.
  destruct (size data =? 0)%nat eqn:H1.
  { eexists. left. eexists. unfold save_to_csv, bindM, print, raise.
    rewrite H1. rewrite add_lines_add_lines. reflexivity. }
  destruct (Nat.eqb_spec (List.length (tl headers)) (ncols data)) as [H2|N2].
  - destruct (Nat.eqb_spec (List.length dates) (List.length data)) as [H3|N3].
    + eexists. right. split; [|split; [reflexivity|exact H3]].
      now apply save_to_csv_ok.
    + eexists. left. eexists. unfold save_to_csv, bindM, print, raise.
      rewrite H1. apply Nat.eqb_eq in H2. rewrite H2.
      apply Nat.eqb_neq in N3. rewrite N3. cbn [negb].
      rewrite add_lines_add_lines. reflexivity.
  - eexists. left. eexists. unfold save_to_csv, bindM, print, raise.
    rewrite H1. apply Nat.eqb_neq in N2. rewrite N2. cbn [negb].
    rewrite add_lines_add_lines. reflexivity.
Qed.

Lemma saved_world_add_lines (w : world) (a b : list line) (path : string)
    (t : csv_table) :
  saved_world (add_lines w a) path t b = saved_world w path t (a ++ b).
Proof. unfold saved_world, add_lines; simpl. now rewrite app_assoc. Qed.

(** The run of [process_data], step by step. *)
Lemma process_data_steps (self : RegionalDataExtractor)
    (sd ed : option iso_date) (w : world) :
  process_data self sd ed w
  = match start_block (time (dataset self)) sd with
    | Raise e => (Raise e, w)
    | Ok s =>
        match end_block (time (dataset self)) ed with
        | Raise e => (Raise e, w)
        | Ok e =>
            match time_window s e (time (dataset self)) with
            | [] => (Raise IndexError, w)
            | d :: rest =>
                let w1 := add_lines w [Print_first_date (is_some s) d;
                                       Print_last_date (is_some s)
                                                       (last rest d)] in
                match get_lat_lon_indices (dataset self) (region self) with
                | Raise e => (Raise e, w1)
                | Ok (la, lo) =>
                    match extract_data self la lo s e with
                    | Raise e => (Raise e, w1)
                    | Ok data =>
                        save_to_csv self data (extract_date self s e)
                          (generate_headers la lo (dataset self)) w1
                    end
                end
            end
        end
    end.
Proof.
  unfold process_data. unfold bindM at 1, lift at 1.
  destruct (start_block (time (dataset self)) sd) as [s|e1]; [|reflexivity].
  unfold bindM at 1, lift at 1.
  destruct (end_block (time (dataset self)) ed) as [e|e1]; [|reflexivity].
  unfold bindM at 1. rewrite print_time_info_spec.
  destruct (time_window s e (time (dataset self))) as [|d rest];
    [reflexivity|].
  cbv zeta. unfold bindM at 1, lift at 1.
  destruct (get_lat_lon_indices (dataset self) (region self))
    as [[la lo]|e1]; [|reflexivity].
  unfold bindM at 1, lift at 1.
  destruct (extract_data self la lo s e) as [data|e1]; reflexivity.
Qed.

(** A run of [process_data] either raises after printing some lines, or
    returns after printing some lines and writing its one file. *)
Lemma process_data_world (self : RegionalDataExtractor)
    (sd ed : option iso_date) (w : world) :
  exists ls,
    (exists e, process_data self sd ed w = (Raise e, add_lines w ls))
    \/ (exists table,
          process_data self sd ed w
          = (Ok tt, saved_world w (output_filename self) table ls)
          /\ hd EmptyString (csv_header table) = "Date"%string
          /\ csv_rows table <> []).
Proof.
  rewrite process_data_steps.
  destruct (start_block (time (dataset self)) sd) as [s|e1].
  2:{ exists []. left. exists e1. now rewrite add_lines_nil. }
  destruct (end_block (time (dataset self)) ed) as [e|e1].
  2:{ exists []. left. exists e1. now rewrite add_lines_nil. }
  destruct (time_window s e (time (dataset self))) as [|d rest].
  { exists []. left. exists IndexError. now rewrite add_lines_nil. }
  cbv zeta.
  destruct (get_lat_lon_indices (dataset self) (region self))
    as [[la lo]|e1].
  2:{ eexists. left. exists e1. reflexivity. }
  destruct (extract_data self la lo s e) as [data|e1].
  2:{ eexists. left. exists e1. reflexivity. }
  destruct (save_to_csv_world self data (extract_date self s e)
              (generate_headers la lo (dataset self))
              (add_lines w [Print_first_date (is_some s) d;
                            Print_last_date (is_some s) (last rest d)]))
    as (ls & [(e1 & H)|(H & H1 & H3)]); rewrite H.
  - eexists. left. exists e1. now rewrite add_lines_add_lines.
  - eexists. right. eexists. rewrite saved_world_add_lines.
    split; [reflexivity|]. split; [reflexivity|]. cbn [csv_rows].
    apply Nat.eqb_neq in H1. unfold size in H1.
    destruct data as [|row data]; [simpl in H1; lia|].
    destruct (extract_date self s e); [discriminate|]. discriminate.
Qed.

(** X6. An extraction never changes a dataset or the directory listing. If
    it raises, no CSV file is written or changed; if it returns, exactly one
    file is written, at its output path, with ['Date'] as first header and
    at least one row. *)
Theorem extraction_writes_one_file_or_none (self : RegionalDataExtractor)
    (sd ed : option iso_date) (w : world) :
  let out := process_data self sd ed w in
  dir_listing (snd out) = dir_listing w
  /\ datasets (snd out) = datasets w
  /\ (forall e, fst out = Raise e -> csv_files (snd out) = csv_files w)
  /\ (fst out = Ok tt ->
      exists table,
        csv_files (snd out) = (output_filename self, table) :: csv_files w
        /\ hd EmptyString (csv_header table) = "Date"%string
        /\ csv_rows table <> []).
Proof.
  cbv zeta.
  destruct (process_data_world self sd ed w)
    as (ls & [(e & H)|(table & H & Hd & Hr)]); rewrite H; cbn [fst snd].
  - repeat split; try reflexivity. discriminate.
  - repeat split; try reflexivity; [discriminate|].
    intros _. exists table. repeat split; assumption.
Qed.

(** ** What the verifier leaves untouched *)

Lemma prints_only_ret {A} (a : A) : prints_only (ret a).
Proof. intro w. exists []. unfold ret. simpl. now rewrite add_lines_nil. Qed.

Lemma prints_only_raise {A} (e : exn) : prints_only (@raise A e).
Proof. intro w. exists []. unfold raise. simpl. now rewrite add_lines_nil. Qed.

Lemma prints_only_lift {A} (r : result A) : prints_only (lift r).
Proof. intro w. exists []. unfold lift. simpl. now rewrite add_lines_nil. Qed.

Lemma prints_only_print (l : line) : prints_only (print l).
Proof. intro w. exists [l]. reflexivity. Qed.

Lemma prints_only_open_dataset (path : string) :
  prints_only (open_dataset path).
Proof.
  intro w. exists []. unfold open_dataset.
  destruct (assoc path (datasets w)); simpl; now rewrite add_lines_nil.
Qed.

Lemma prints_only_read_csv (path : string) : prints_only (read_csv path).
Proof.
  intro w. exists []. unfold read_csv.
  destruct (assoc path (csv_files w)); simpl; now rewrite add_lines_nil.
Qed.

Lemma prints_only_bind {A B} (c : M A) (k : A -> M B) :
  prints_only c -> (forall a, prints_only (k a)) -> prints_only (bindM c k).
Proof.
  intros Hc Hk w. destruct (Hc w) as (l1 & H1). unfold bindM.
  destruct (c w) as [[a|e] w1]; simpl in H1; subst w1.
  - destruct (Hk a (add_lines w l1)) as (l2 & H2). exists (l1 ++ l2).
    now rewrite H2, add_lines_add_lines.
  - now exists l1.
Qed.

Lemma prints_only_for_each {A} (body : A -> M unit) (l : list A) :
  (forall x, prints_only (body x)) -> prints_only (for_each body l).
Proof.
  intro H. induction l as [|x l IH]; simpl.
  - apply prints_only_ret.
  - apply prints_only_bind; [apply H|intros _; exact IH].
Qed.

Lemma prints_only_compare_loaded (csv_dates netcdf_dates : list string)
    (csv_data netcdf_data : list (list Q)) :
  prints_only (compare_loaded csv_dates csv_data netcdf_dates netcdf_data).
Proof.
  unfold compare_loaded.
  destruct (list_eq_dec string_dec csv_dates netcdf_dates).
  - apply prints_only_bind; [apply prints_only_lift|]. intro mask.
    destruct (negb (all_true mask)).
    + apply prints_only_bind; [apply prints_only_print|]. intros _.
      apply prints_only_bind; [|intros _; apply prints_only_ret].
      apply prints_only_for_each. intro idx.
      apply prints_only_bind; [apply prints_only_lift|]. intro a.
      apply prints_only_bind; [apply prints_only_lift|]. intro b.
      apply prints_only_print.
    + apply prints_only_bind; [apply prints_only_print|]. intros _.
      apply prints_only_ret.
  - apply prints_only_bind; [apply prints_only_lift|]. intro c0.
    apply prints_only_bind; [apply prints_only_lift|]. intro n0.
    apply prints_only_bind; [apply prints_only_print|]. intros _.
    apply prints_only_ret.
Qed.

Lemma prints_only_load_csv_data (path : string) :
  prints_only (load_csv_data path).
Proof.
  unfold load_csv_data.
  apply prints_only_bind; [apply prints_only_read_csv|]. intro df.
  destruct (negb _); [apply prints_only_raise|apply prints_only_ret].
Qed.

Lemma prints_only_load_netcdf_data (path name : string)
    (la lo : slice) (s e : option nat) :
  prints_only (load_netcdf_data path name la lo s e).
Proof.
  unfold load_netcdf_data.
  apply prints_only_bind; [apply prints_only_open_dataset|]. intro g.
  apply prints_only_bind; [apply prints_only_lift|]. intro var.
  apply prints_only_bind; [apply prints_only_lift|]. intro data.
  apply prints_only_ret.
Qed.

Lemma prints_only_verify_data (self : NetCDFVerifier)
    (netcdf_filepath csv_filepath name : string) (r : Region) :
  prints_only (verify_data self netcdf_filepath csv_filepath r name).
Proof.
  unfold verify_data.
  apply prints_only_bind; [apply prints_only_open_dataset|]. intro g.
  apply prints_only_bind; [apply prints_only_lift|]. intros [la lo].
  apply prints_only_bind; [apply prints_only_lift|]. intro s.
  apply prints_only_bind; [apply prints_only_lift|]. intro e.
  apply prints_only_bind; [apply prints_only_load_csv_data|].
  intros [csv_dates csv_data].
  apply prints_only_bind; [apply prints_only_load_netcdf_data|].
  intros [netcdf_dates netcdf_data].
  apply prints_only_compare_loaded.
Qed.

Lemma prints_only_process_and_verify_files (self : NetCDFVerifier) :
  prints_only (process_and_verify_files self).
Proof.
  intro w. unfold process_and_verify_files.
  apply prints_only_for_each. intro filename.
  apply prints_only_for_each. intros [city r].
  apply prints_only_bind; [apply prints_only_print|]. intros _.
  apply prints_only_bind; [apply prints_only_verify_data|]. intros _.
  apply prints_only_ret.
Qed.

(** X7. A verification batch reads and prints only: whatever it meets and
    however it ends, the CSV files, the datasets and the directory listing
    are afterwards what they were, and the terminal holds what it held
    followed by the lines of the batch. *)
Theorem verification_changes_no_file (self : NetCDFVerifier) (w : world) :
  let w' := snd (process_and_verify_files self w) in
  csv_files w' = csv_files w
  /\ datasets w' = datasets w
  /\ dir_listing w' = dir_listing w
  /\ exists ls, stdout w' = stdout w ++ ls.
Proof.
  cbv zeta. destruct (prints_only_process_and_verify_files self w) as (ls & H).
  rewrite H. repeat split. now exists ls.
Qed.

(** ** The older and the newer script *)

Lemma legacy_print_time_info (self : RegionalDataExtractor) (s : option nat) :
  Legacy.print_time_info self s = print_time_info self s None.
Proof. destruct s; reflexivity. Qed.

Lemma legacy_process_data_steps (self : RegionalDataExtractor)
    (sd : option iso_date) (w : world) :
  Legacy.process_data self sd w
  = match start_block (time (dataset self)) sd with
    | Raise e => (Raise e, w)
    | Ok s =>
        match time_window s None (time (dataset self)) with
        | [] => (Raise IndexError, w)
        | d :: rest =>
            let w1 := add_lines w [Print_first_date (is_some s) d;
                                   Print_last_date (is_some s)
                                                   (last rest d)] in
            match get_lat_lon_indices (dataset self) (region self) with
            | Raise e => (Raise e, w1)
            | Ok (la, lo) =>
                match extract_data self la lo s None with
                | Raise e => (Raise e, w1)
                | Ok data =>
                    Legacy.save_to_csv self data (extract_date self s None) w1
                end
            end
        end
    end.
Proof.
  unfold Legacy.process_data. unfold bindM at 1, lift at 1.
  destruct (start_block (time (dataset self)) sd) as [s|e1]; [|reflexivity].
  unfold bindM at 1. rewrite legacy_print_time_info, print_time_info_spec.
  destruct (time_window s None (time (dataset self))) as [|d rest];
    [reflexivity|].
  cbv zeta. unfold bindM at 1, lift at 1.
  destruct (get_lat_lon_indices (dataset self) (region self))
    as [[la lo]|e1]; [|reflexivity].
  unfold bindM at 1, lift at 1.
  change (Legacy.extract_data self la lo s) with (extract_data self la lo s None).
  destruct (extract_data self la lo s None) as [data|e1]; reflexivity.
Qed.

Lemma extract_data_variable (self : RegionalDataExtractor) (la lo : slice)
    (s e : option nat) (data : list (list Q)) :
  extract_data self la lo s e = Ok data ->
  exists var, variable (dataset self) (variable_name self) = Ok var.
Proof.
  unfold extract_data.
  destruct (variable (dataset self) (variable_name self)) as [var|];
    [eauto|discriminate].
Qed.

(** On a well-formed dataset the extracted matrix has as many columns as
    there are coordinate headers. *)
Lemma extract_data_ncols (self : RegionalDataExtractor) (la lo : slice)
    (s e : option nat) (data : list (list Q)) :
  well_formed (dataset self) ->
  get_lat_lon_indices (dataset self) (region self) = Ok (la, lo) ->
  extract_data self la lo s e = Ok data ->
  (size data =? 0)%nat = false ->
  List.length (tl (generate_headers la lo (dataset self))) = ncols data.
Proof.
  intros Hw Eg Ed H1.
  destruct (extract_data_variable _ _ _ _ _ _ Ed) as (var & Ev).
  pose proof (variable_shaped _ _ var Hw Ev) as Hs.
  destruct (get_lat_lon_indices_window _ _ _ _ Eg) as [[La Lb] [Lc Ld]].
  destruct la as [a b], lo as [c d]. cbn [fst snd] in *.
  destruct (extract_data_cells self var a b c d s e data Hs Ev Lb Ld Ed)
    as (_ & _ & Hdata & _).
  assert (Hrows : (0 < List.length data)%nat).
  { apply Nat.eqb_neq in H1. unfold size in H1.
    destruct data; simpl in *; lia. }
  rewrite (ncols_shape data _ _ Hdata Hrows). now apply length_headers.
Qed.

(** X8. On a well-formed dataset, the extractor of [src/extractors] run
    without an ending date and the older [netcdf_to_csv.py] end alike
    (both return, or both raise the same exception), and the files they
    write hold the same rows; only the header row differs. *)
Theorem newer_extractor_agrees_with_older (self : RegionalDataExtractor)
    (sd : option iso_date) (w : world) :
  well_formed (dataset self) ->
  let older := Legacy.process_data self sd w in
  let newer := process_data self sd None w in
  fst older = fst newer
  /\ option_map csv_rows (assoc (output_filename self) (csv_files (snd older)))
     = option_map csv_rows
         (assoc (output_filename self) (csv_files (snd newer))).
Proof.
  intros Hw. cbv zeta.
  rewrite legacy_process_data_steps, process_data_steps. cbn [end_block].
  destruct (start_block (time (dataset self)) sd) as [s|e1];
    [|split; reflexivity].
  destruct (time_window s None (time (dataset self))) as [|d rest];
    [split; reflexivity|].
  cbv zeta.
  destruct (get_lat_lon_indices (dataset self) (region self))
    as [[la lo]|e1] eqn:Eg; [|split; reflexivity].
  destruct (extract_data self la lo s None) as [data|e1] eqn:Ed;
    [|split; reflexivity].
  unfold Legacy.save_to_csv, save_to_csv, bindM, print, raise, to_csv.
  destruct (size data =? 0)%nat eqn:H1; [split; reflexivity|].
  rewrite (extract_data_ncols self la lo s None data Hw Eg Ed H1).
  rewrite Nat.eqb_refl. cbn [negb].
  destruct (negb (List.length (extract_date self s None) =? List.length data)%nat);
    [split; reflexivity|].
  cbn [fst snd csv_files add_lines]. rewrite !assoc_head. split; reflexivity.
Qed.

Lemma newer_extractor_agrees_with_older_witness :
  let self := mk_RegionalDataExtractor example_grid
                (detect_variable example_grid) "out.csv" example_region in
  let older := Legacy.process_data self (Some (mk_iso_date 2013 1 2))
                                   example_world in
  let newer := process_data self (Some (mk_iso_date 2013 1 2)) None
                            example_world in
  fst older = fst newer
  /\ option_map csv_rows (assoc "out.csv" (csv_files (snd older)))
     = option_map csv_rows (assoc "out.csv" (csv_files (snd newer))).
Proof.
  exact (newer_extractor_agrees_with_older
           (mk_RegionalDataExtractor example_grid
              (detect_variable example_grid) "out.csv" example_region)
           (Some (mk_iso_date 2013 1 2)) example_world
           example_grid_well_formed).
Defined.

(** ** The verifier and the header row *)

Lemma world_blind_ret {A} (a : A) : world_blind (ret a).
Proof. exists (Ok a), []. intro w. unfold ret. now rewrite add_lines_nil. Qed.

Lemma world_blind_lift {A} (r : result A) : world_blind (lift r).
Proof. exists r, []. intro w. unfold lift. now rewrite add_lines_nil. Qed.

Lemma world_blind_print (l : line) : world_blind (print l).
Proof. exists (Ok tt), [l]. reflexivity. Qed.

Lemma world_blind_bind {A B} (c : M A) (k : A -> M B) :
  world_blind c -> (forall a, world_blind (k a)) -> world_blind (bindM c k).
Proof.
  intros (res & l1 & Hc) Hk. destruct res as [a|e].
  - destruct (Hk a) as (res2 & l2 & H2). exists res2, (l1 ++ l2). intro w.
    unfold bindM. now rewrite Hc, H2, add_lines_add_lines.
  - exists (Raise e), l1. intro w. unfold bindM. now rewrite Hc.
Qed.

Lemma world_blind_for_each {A} (body : A -> M unit) (l : list A) :
  (forall x, world_blind (body x)) -> world_blind (for_each body l).
Proof.
  intro H. induction l as [|x l IH]; simpl.
  - apply world_blind_ret.
  - apply world_blind_bind; [apply H|intros _; exact IH].
Qed.

Lemma world_blind_compare_loaded (csv_dates netcdf_dates : list string)
    (csv_data netcdf_data : list (list Q)) :
  world_blind (compare_loaded csv_dates csv_data netcdf_dates netcdf_data).
Proof.
  unfold compare_loaded.
  destruct (list_eq_dec string_dec csv_dates netcdf_dates).
  - apply world_blind_bind; [apply world_blind_lift|]. intro mask.
    destruct (negb (all_true mask)).
    + apply world_blind_bind; [apply world_blind_print|]. intros _.
      apply world_blind_bind; [|intros _; apply world_blind_ret].
      apply world_blind_for_each. intro idx.
      apply world_blind_bind; [apply world_blind_lift|]. intro a.
      apply world_blind_bind; [apply world_blind_lift|]. intro b.
      apply world_blind_print.
    + apply world_blind_bind; [apply world_blind_print|]. intros _.
      apply world_blind_ret.
  - apply world_blind_bind; [apply world_blind_lift|]. intro c0.
    apply world_blind_bind; [apply world_blind_lift|]. intro n0.
    apply world_blind_bind; [apply world_blind_print|]. intros _.
    apply world_blind_ret.
Qed.

(** What [verify_data] does with a CSV file depends on its rows alone. *)
Lemma verify_data_reads_rows (self : NetCDFVerifier)
    (netcdf_filepath csv_filepath name : string) (r : Region) (w : world)
    (rows : list (string * list Q)) :
  exists res ls,
    forall t,
      csv_rows t = rows ->
      hd EmptyString (csv_header t) = "Date"%string ->
      verify_data self netcdf_filepath csv_filepath r name
                  (with_csv w csv_filepath t)
      = (res, add_lines (with_csv w csv_filepath t) ls).
Proof.
  assert (Fail_ : forall e,
             forall t,
               (Raise e : result bool, with_csv w csv_filepath t)
               = (Raise e, add_lines (with_csv w csv_filepath t) [])).
  { intros e t. now rewrite add_lines_nil. }
  destruct (assoc netcdf_filepath (datasets w)) as [g|] eqn:Hopen.
  2:{ exists (Raise FileNotFoundError), []. intros t _ _.
      unfold verify_data. unfold bindM at 1, open_dataset at 1.
      change (datasets (with_csv w csv_filepath t)) with (datasets w).
      rewrite Hopen. apply Fail_. }
  destruct (get_lat_lon_indices g r) as [[la lo]|e1] eqn:Eg.
  2:{ exists (Raise e1), []. intros t _ _.
      unfold verify_data. unfold bindM at 1, open_dataset at 1.
      change (datasets (with_csv w csv_filepath t)) with (datasets w).
      rewrite Hopen. bind_lift Eg. apply Fail_. }
  destruct (start_block (time g) (v_starting_date self)) as [s|e1] eqn:Es.
  2:{ exists (Raise e1), []. intros t _ _.
      unfold verify_data. unfold bindM at 1, open_dataset at 1.
      change (datasets (with_csv w csv_filepath t)) with (datasets w).
      rewrite Hopen. bind_lift Eg. bind_lift Es. apply Fail_. }
  destruct (verifier_end_block (time g) (v_starting_date self)
              (v_ending_date self)) as [e|e1] eqn:Ee.
  2:{ exists (Raise e1), []. intros t _ _.
      unfold verify_data. unfold bindM at 1, open_dataset at 1.
      change (datasets (with_csv w csv_filepath t)) with (datasets w).
      rewrite Hopen. bind_lift Eg. bind_lift Es. bind_lift Ee. apply Fail_. }
  assert (Hcsv : forall t,
             csv_rows t = rows ->
             hd EmptyString (csv_header t) = "Date"%string ->
             load_csv_data csv_filepath (with_csv w csv_filepath t)
             = (Ok (map fst rows, map snd rows), with_csv w csv_filepath t)).
  { intros t Hr Hd. unfold load_csv_data, bindM, read_csv.
    change (csv_files (with_csv w csv_filepath t))
      with ((csv_filepath, t) :: csv_files w).
    rewrite assoc_head, Hd, Hr. reflexivity. }
  destruct (variable g (Some name)) as [var|e1] eqn:Ev.
  2:{ exists (Raise e1), []. intros t Hr Hd.
      unfold verify_data. unfold bindM at 1, open_dataset at 1.
      change (datasets (with_csv w csv_filepath t)) with (datasets w).
      rewrite Hopen. bind_lift Eg. bind_lift Es. bind_lift Ee.
      unfold bindM at 1. rewrite (Hcsv t Hr Hd).
      unfold bindM at 1. unfold load_netcdf_data, bindM at 1, open_dataset at 1.
      change (datasets (with_csv w csv_filepath t)) with (datasets w).
      rewrite Hopen. bind_lift Ev. apply Fail_. }
  destruct (reshape_rows (subarray la lo (time_window s e var)))
    as [data|e1] eqn:Er.
  2:{ exists (Raise e1), []. intros t Hr Hd.
      unfold verify_data. unfold bindM at 1, open_dataset at 1.
      change (datasets (with_csv w csv_filepath t)) with (datasets w).
      rewrite Hopen. bind_lift Eg. bind_lift Es. bind_lift Ee.
      unfold bindM at 1. rewrite (Hcsv t Hr Hd).
      unfold bindM at 1. unfold load_netcdf_data, bindM at 1, open_dataset at 1.
      change (datasets (with_csv w csv_filepath t)) with (datasets w).
      rewrite Hopen. bind_lift Ev. bind_lift Er. apply Fail_. }
  destruct (world_blind_compare_loaded
              (map fst rows) (map strftime (time_window s e (time g)))
              (map snd rows) data) as (res & ls & Hc).
  exists res, ls. intros t Hr Hd.
  unfold verify_data. unfold bindM at 1, open_dataset at 1.
  change (datasets (with_csv w csv_filepath t)) with (datasets w).
  rewrite Hopen. bind_lift Eg. bind_lift Es. bind_lift Ee.
  unfold bindM at 1. rewrite (Hcsv t Hr Hd).
  unfold bindM at 1. unfold load_netcdf_data, bindM at 1, open_dataset at 1.
  change (datasets (with_csv w csv_filepath t)) with (datasets w).
  rewrite Hopen. bind_lift Ev. bind_lift Er. unfold ret at 1.
  apply Hc.
Qed.

(** X9. The verifier does not look at the header row beyond its [Date]
    label: on two CSV files with the same rows it returns the same result
    (or raises the same exception) and prints the same lines, whatever the
    other headers are. *)
Theorem verifier_ignores_column_headers (self : NetCDFVerifier)
    (netcdf_filepath csv_filepath name : string) (r : Region) (w : world)
    (t1 t2 : csv_table) :
  csv_rows t1 = csv_rows t2 ->
  hd EmptyString (csv_header t1) = "Date"%string ->
  hd EmptyString (csv_header t2) = "Date"%string ->
  exists res ls,
    verify_data self netcdf_filepath csv_filepath r name
                (with_csv w csv_filepath t1)
    = (res, add_lines (with_csv w csv_filepath t1) ls)
    /\ verify_data self netcdf_filepath csv_filepath r name
                   (with_csv w csv_filepath t2)
       = (res, add_lines (with_csv w csv_filepath t2) ls).
Proof.
  intros Hr H1 H2.
  destruct (verify_data_reads_rows self netcdf_filepath csv_filepath name r w
              (csv_rows t1)) as (res & ls & H).
  exists res, ls. split; apply H; auto.
Qed.

Lemma verifier_ignores_column_headers_witness :
  let self := mk_NetCDFVerifier "netcdf4data" "CSVClimateData" []
                (Some (mk_iso_date 2013 1 3)) None in
  let rows := [("2013-01-03"%string, [75; 1 # 4])] in
  let t1 := mk_csv_table ["Date"; "52.0, -1.0"; "52.0, -0.5"]%string rows in
  let t2 := mk_csv_table ["Date"; "48.0, 2.0"; "0"]%string rows in
  exists res ls,
    verify_data self (path_join "netcdf4data" example_filename) "out.csv"
                (mk_Region 52 (-1) 52 (-1 # 2)) "tg"
                (with_csv example_world "out.csv" t1)
    = (res, add_lines (with_csv example_world "out.csv" t1) ls)
    /\ verify_data self (path_join "netcdf4data" example_filename) "out.csv"
                   (mk_Region 52 (-1) 52 (-1 # 2)) "tg"
                   (with_csv example_world "out.csv" t2)
       = (res, add_lines (with_csv example_world "out.csv" t2) ls).
Proof.
  apply (verifier_ignores_column_headers
           (mk_NetCDFVerifier "netcdf4data" "CSVClimateData" []
              (Some (mk_iso_date 2013 1 3)) None)
           (path_join "netcdf4data" example_filename) "out.csv" "tg"
           (mk_Region 52 (-1) 52 (-1 # 2)) example_world
           (mk_csv_table ["Date"; "52.0, -1.0"; "52.0, -0.5"]%string
                         [("2013-01-03"%string, [75; 1 # 4])])
           (mk_csv_table ["Date"; "48.0, 2.0"; "0"]%string
                         [("2013-01-03"%string, [75; 1 # 4])]));
    reflexivity.
Defined.

(** ** The window and the nearest index *)

(** X10. Whenever [get_lat_lon_indices] returns, both ranges are non-empty,
    end within their axes, and hold the indices resolved for the two
    corners. *)
Theorem window_holds_both_corners (g : Grid) (r : Region)
    (lat_range lon_range : slice) :
  get_lat_lon_indices g r = Ok (lat_range, lon_range) ->
  (fst lat_range < snd lat_range <= List.length (latitude g))%nat
  /\ (fst lon_range < snd lon_range <= List.length (longitude g))%nat
  /\ exists a b c d,
       find_index g (nw_lat r) Latitude = Ok a
       /\ find_index g (nw_lon r) Longitude = Ok b
       /\ find_index g (se_lat r) Latitude = Ok c
       /\ find_index g (se_lon r) Longitude = Ok d
       /\ (fst lat_range <= a < snd lat_range)%nat
       /\ (fst lat_range <= c < snd lat_range)%nat
       /\ (fst lon_range <= b < snd lon_range)%nat
       /\ (fst lon_range <= d < snd lon_range)%nat.
Proof.
  intro H. destruct (get_lat_lon_indices_window g r _ _ H) as [Hlat Hlon].
  split; [exact Hlat|]. split; [exact Hlon|].
  unfold get_lat_lon_indices in H.
  destruct (find_index g (nw_lat r) Latitude) as [a|]; [|discriminate].
  destruct (find_index g (nw_lon r) Longitude) as [b|]; [|discriminate].
  destruct (find_index g (se_lat r) Latitude) as [c|]; [|discriminate].
  destruct (find_index g (se_lon r) Longitude) as [d|]; [|discriminate].
  cbn [bind] in H. inversion H; subst; cbn [fst snd].
  exists a, b, c, d. repeat split; lia.
Qed.

Lemma window_holds_both_corners_witness :
  (fst (0, 3) < snd (0, 3) <= List.length (latitude example_grid))%nat
  /\ (fst (0, 3) < snd (0, 3) <= List.length (longitude example_grid))%nat
  /\ exists a b c d,
       find_index example_grid (nw_lat example_region) Latitude = Ok a
       /\ find_index example_grid (nw_lon example_region) Longitude = Ok b
       /\ find_index example_grid (se_lat example_region) Latitude = Ok c
       /\ find_index example_grid (se_lon example_region) Longitude = Ok d
       /\ (fst (0, 3) <= a < snd (0, 3))%nat
       /\ (fst (0, 3) <= c < snd (0, 3))%nat
       /\ (fst (0, 3) <= b < snd (0, 3))%nat
       /\ (fst (0, 3) <= d < snd (0, 3))%nat.
Proof.
  apply (window_holds_both_corners example_grid example_region
                                   (0, 3)%nat (0, 3)%nat).
  reflexivity.
Defined.

Lemma find_index_ok_in_bounds (g : Grid) (t : Q) (ax : coordinate_type)
    (i : nat) :
  find_index g t ax = Ok i -> in_bounds (axis_values g ax) t.
Proof.
  intro H. unfold find_index in H.
  destruct (axis_values g ax) as [|c cs]; [discriminate|].
  destruct (Qltb t (amin c cs) || Qltb (amax c cs) t) eqn:E; [discriminate|].
  now apply not_out_in_bounds.
Qed.

Lemma distance_zero (A : list Q) (i : nat) : distance A (nth i A 0) i == 0.
Proof.
  unfold distance. setoid_replace (nth i A 0 - nth i A 0) with 0 by ring.
  reflexivity.
Qed.

Lemma distance_same_value (A : list Q) (t : Q) (i j : nat) :
  distance A (nth i A 0) j == 0 -> distance A t j == distance A t i.
Proof.
  unfold distance. intro H.
  assert (Z : nth j A 0 - nth i A 0 == 0).
  { assert (L : Qabs (nth j A 0 - nth i A 0) <= 0)
      by (rewrite H; apply Qle_refl).
    apply Qabs_Qle_condition in L. destruct L as [L1 L2].
    apply Qle_antisym; [exact L2|exact L1]. }
  assert (E : nth j A 0 == nth i A 0).
  { setoid_replace (nth j A 0) with ((nth j A 0 - nth i A 0) + nth i A 0)
      by ring.
    rewrite Z. ring. }
  now rewrite E.
Qed.

(** The index that [find_index] returns resolves to itself. *)
Lemma find_index_of_axis_value (g : Grid) (t : Q) (ax : coordinate_type)
    (i : nat) :
  find_index g t ax = Ok i ->
  find_index g (nth i (axis_values g ax) 0) ax = Ok i.
Proof.
  intro H. set (A := axis_values g ax) in *.
  pose proof (find_index_ok_in_bounds g t ax i H) as B. fold A in B.
  destruct (find_index_in_bounds g ax t B) as (i' & E & Li & Hmin & Hfirst).
  fold A in Li, Hmin, Hfirst.
  assert (i' = i) by congruence. subst i'. clear E.
  assert (B' : in_bounds A (nth i A 0)).
  { split; exists (nth i A 0); (split; [now apply nth_In|apply Qle_refl]). }
  destruct (find_index_in_bounds g ax (nth i A 0) B')
    as (k & Ek & Lk & Hmin' & Hfirst').
  fold A in Ek, Lk, Hmin', Hfirst'. rewrite Ek. f_equal.
  assert (Zk : distance A (nth i A 0) k == 0).
  { apply Qle_antisym.
    - apply Qle_trans with (distance A (nth i A 0) i); [now apply Hmin'|].
      rewrite distance_zero. apply Qle_refl.
    - apply Qabs_nonneg. }
  destruct (Nat.lt_trichotomy k i) as [L|[->|G]]; [|reflexivity|].
  - exfalso. specialize (Hfirst k L).
    rewrite (distance_same_value A t i k Zk) in Hfirst.
    now apply Qlt_irrefl in Hfirst.
  - exfalso. specialize (Hfirst' i G). rewrite Zk, (distance_zero A i) in Hfirst'.
    now apply Qlt_irrefl in Hfirst'.
Qed.

(** X11. Resolution is idempotent: the axis value at the index that
    [find_index] returns for a coordinate resolves to the same index, also
    when the axis holds the value more than once. *)
Theorem find_index_idempotent (g : Grid) (t : Q) (ax : coordinate_type)
    (i : nat) :
  find_index g t ax = Ok i ->
  find_index g (nth i (axis_values g ax) 0) ax = Ok i.
Proof. apply find_index_of_axis_value. Qed.

Lemma find_index_idempotent_witness :
  find_index example_grid (nth 1 (axis_values example_grid Latitude) 0)
             Latitude
  = Ok 1%nat.
Proof.
  apply (find_index_idempotent example_grid (514 # 10) Latitude 1).
  reflexivity.
Defined.

(** ** The variable that is read *)

(** X12. The extractor reads the first data variable of the dataset and no
    other: run on the dataset reduced to that variable, it does the same. *)
Theorem extraction_reads_first_variable (g : Grid) (r : Region) (out : string)
    (sd ed : option iso_date) (w : world) :
  extract g r out sd ed w = extract (first_variable_only g) r out sd ed w.
Proof.
  destruct g as [la lo ti dv]. destruct dv as [|[n v] rest]; [reflexivity|].
  unfold extract, first_variable_only.
  cbn [latitude longitude time data_variables].
  rewrite !process_data_steps. cbn [dataset region output_filename time].
  destruct (start_block ti sd) as [s|]; [|reflexivity].
  destruct (end_block ti ed) as [e|]; [|reflexivity].
  destruct (time_window s e ti) as [|d rest']; [reflexivity|].
  cbv zeta.
  change (get_lat_lon_indices (mk_Grid la lo ti [(n, v)]) r)
    with (get_lat_lon_indices (mk_Grid la lo ti ((n, v) :: rest)) r).
  destruct (get_lat_lon_indices (mk_Grid la lo ti ((n, v) :: rest)) r)
    as [[lat_range lon_range]|]; [|reflexivity].
  assert (E : extract_data
                (mk_RegionalDataExtractor (mk_Grid la lo ti [(n, v)])
                   (detect_variable (mk_Grid la lo ti [(n, v)])) out r)
                lat_range lon_range s e
              = extract_data
                  (mk_RegionalDataExtractor (mk_Grid la lo ti ((n, v) :: rest))
                     (detect_variable (mk_Grid la lo ti ((n, v) :: rest)))
                     out r)
                  lat_range lon_range s e).
  { unfold extract_data, variable, detect_variable.
    cbn [dataset variable_name data_variables assoc].
    now rewrite String.eqb_refl. }
  rewrite E.
  destruct (extract_data _ lat_range lon_range s e) as [data|]; reflexivity.
Qed.

(** X13. The verifier reads the variable whose name it is given (the batch
    gives the leading token of the file name): when the dataset has no
    variable of that name, neither a data variable nor one of the three
    axes, [verify_data] raises [KeyError] once the window is resolved and
    the CSV file is loaded, and compares nothing. *)
Theorem verifier_unknown_variable (self : NetCDFVerifier)
    (netcdf_filepath csv_filepath name : string) (r : Region) (g : Grid)
    (s e : option nat) (t : csv_table) (w : world) :
  assoc netcdf_filepath (datasets w) = Some g ->
  region_in_bounds g r ->
  start_block (time g) (v_starting_date self) = Ok s ->
  verifier_end_block (time g) (v_starting_date self) (v_ending_date self)
  = Ok e ->
  assoc csv_filepath (csv_files w) = Some t ->
  hd EmptyString (csv_header t) = "Date"%string ->
  assoc name (data_variables g) = None ->
  is_axis_name name = false ->
  verify_data self netcdf_filepath csv_filepath r name w
  = (Raise KeyError, w).
Proof.
  intros Hopen Hreg Es Ee Hcsv Hd Hname Haxis.
  destruct (get_lat_lon_indices_in_bounds g r Hreg)
    as (a & b & c & d & _ & _ & _ & _ & Eg & _).
  unfold verify_data. unfold bindM at 1, open_dataset at 1. rewrite Hopen.
  bind_lift Eg. bind_lift Es. bind_lift Ee.
  unfold bindM at 1. unfold load_csv_data, bindM at 1, read_csv.
  rewrite Hcsv, Hd. change (negb (String.eqb "Date" "Date")) with false.
  cbv iota. unfold ret at 1.
  unfold bindM at 1. unfold load_netcdf_data, bindM at 1, open_dataset at 1.
  rewrite Hopen. unfold bindM at 1, lift at 1. unfold variable.
  rewrite Hname, Haxis. reflexivity.
Qed.

Lemma verifier_unknown_variable_witness :
  let w := with_csv example_world "out.csv"
             (mk_csv_table ["Date"; "0"]%string
                           [("2013-01-01"%string, [25])]) in
  verify_data (mk_NetCDFVerifier "netcdf4data" "CSVClimateData" [] None None)
              (path_join "netcdf4data" example_filename) "out.csv"
              example_region "temperature" w
  = (Raise KeyError, w).
Proof.
  apply (verifier_unknown_variable
           (mk_NetCDFVerifier "netcdf4data" "CSVClimateData" [] None None)
           (path_join "netcdf4data" example_filename) "out.csv" "temperature"
           example_region example_grid None None
           (mk_csv_table ["Date"; "0"]%string [("2013-01-01"%string, [25])])).
  - reflexivity.
  - exact example_region_in_bounds.
  - reflexivity.
  - reflexivity.
  - reflexivity.
  - reflexivity.
  - reflexivity.
  - reflexivity.
Defined.

(** ** The point lookup *)

Lemma where_true_empty {A} (f : A -> bool) (l : list A) :
  forall i, where_true i (map f l) = [] <-> forall x, In x l -> f x = false.
Proof.
  induction l as [|x l IH]; intro i; simpl.
  - split; [intros _ y []|reflexivity].
  - destruct (f x) eqn:E.
    + split; [discriminate|]. intro H. rewrite (H x (or_introl eq_refl)) in E.
      discriminate.
    + rewrite IH. split.
      * intros H y [<-|Hy]; auto.
      * intros H y Hy. apply H. now right.
Qed.

Lemma where_true_first {A} (f : A -> bool) (l : list A) :
  forall i k rest, where_true i (map f l) = k :: rest ->
                   first_index f i l = Ok k.
Proof.
  induction l as [|x l IH]; intros i k rest H; simpl in *; [discriminate|].
  destruct (f x); [now inversion H|]. eapply IH; eauto.
Qed.

Lemma item3_cell3 (g : Grid) (var : array3) (t i j : nat) :
  shaped g var ->
  (t < List.length (time g))%nat -> (i < List.length (latitude g))%nat ->
  (j < List.length (longitude g))%nat ->
  item3 var t i j = Ok (cell3 var t i j).
Proof.
  intros [Hlen Hplanes] Lt Li Lj. unfold item3, cell3.
  destruct (nth_error var t) as [plane|] eqn:E.
  - rewrite (nth_error_nth _ _ [] E).
    rewrite Forall_forall in Hplanes.
    apply (item2_cell plane (List.length (latitude g))
                      (List.length (longitude g)) (i, j)); auto.
    apply Hplanes. eapply nth_error_In; eauto.
  - apply nth_error_None in E. lia.
Qed.

(** X14. Once the file opens, the point lookup raises the [ValueError] of
    the date exactly when no decoded date equals the target date at
    midnight. *)
Theorem point_lookup_date_not_found (w : world) (netcdf_file : string)
    (g : Grid) (target_date : iso_date) (target_lat target_lon : Q) :
  assoc netcdf_file (datasets w) = Some g ->
  (get_data_for_day_and_coordinate w netcdf_file target_date target_lat
                                   target_lon
   = inl (Date_not_found target_date)
   <-> forall d, In d (time g) -> datetime_eqb d (strptime target_date) = false).
Proof.
  intro Hopen. unfold get_data_for_day_and_coordinate. rewrite Hopen.
  destruct (where_true 0 (map (fun d => datetime_eqb d (strptime target_date))
                              (time g))) as [|k rest] eqn:E.
  - split; [intros _|reflexivity].
    exact (proj1 (where_true_empty _ _ _) E).
  - split.
    + intro H. exfalso.
      destruct (argmin _) as [i|]; [|discriminate].
      destruct (argmin _) as [j|]; [|discriminate].
      destruct (detect_variable g) as [n|]; [|discriminate].
      destruct (variable g (Some n)) as [var|]; [|discriminate].
      destruct (item3 var k i j); discriminate.
    + intro H.
      pose proof (proj2 (where_true_empty
                           (fun d => datetime_eqb d (strptime target_date))
                           (time g) 0%nat) H) as F.
      congruence.
Qed.

Lemma point_lookup_date_not_found_witness :
  get_data_for_day_and_coordinate example_world
    (path_join "netcdf4data" example_filename) (mk_iso_date 2013 1 4) 52 0
  = inl (Date_not_found (mk_iso_date 2013 1 4))
  <-> forall d, In d (time example_grid) ->
                datetime_eqb d (strptime (mk_iso_date 2013 1 4)) = false.
Proof.
  apply (point_lookup_date_not_found example_world
           (path_join "netcdf4data" example_filename) example_grid
           (mk_iso_date 2013 1 4) 52 0).
  reflexivity.
Defined.

(** The value that the point lookup returns on a well-formed dataset. *)
Lemma point_lookup_value (w : world) (netcdf_file name : string) (g : Grid)
    (target_date : iso_date) (target_lat target_lon : Q) :
  assoc netcdf_file (datasets w) = Some g ->
  well_formed g -> detect_variable g = Some name ->
  latitude g <> [] -> longitude g <> [] ->
  (exists d, In d (time g) /\ datetime_eqb d (strptime target_date) = true) ->
  exists var k i j,
    variable g (Some name) = Ok var
    /\ get_data_for_day_and_coordinate w netcdf_file target_date target_lat
                                       target_lon
       = inr (cell3 var k i j)
    /\ first_index (fun d => datetime_eqb d (strptime target_date)) 0 (time g)
       = Ok k
    /\ (k < List.length (time g))%nat
    /\ argmin (map (fun x => Qabs (x - target_lat)) (latitude g)) = Ok i
    /\ argmin (map (fun x => Qabs (x - target_lon)) (longitude g)) = Ok j
    /\ (i < List.length (latitude g))%nat
    /\ (forall i', (i' < List.length (latitude g))%nat ->
                   distance (latitude g) target_lat i
                   <= distance (latitude g) target_lat i')
    /\ (forall i', (i' < i)%nat ->
                   distance (latitude g) target_lat i
                   < distance (latitude g) target_lat i')
    /\ (j < List.length (longitude g))%nat
    /\ (forall j', (j' < List.length (longitude g))%nat ->
                   distance (longitude g) target_lon j
                   <= distance (longitude g) target_lon j')
    /\ (forall j', (j' < j)%nat ->
                   distance (longitude g) target_lon j
                   < distance (longitude g) target_lon j').
Proof.
  intros Hopen Hwf Hdet Hlat Hlon (d & Hin & Hd).
  destruct (detect_variable_found g name Hdet) as (var & Ev).
  pose proof (variable_shaped g _ var Hwf Ev) as Hs.
  destruct (where_true 0 (map (fun d => datetime_eqb d (strptime target_date))
                              (time g))) as [|k rest] eqn:E.
  { pose proof (proj1 (where_true_empty _ _ _) E d Hin) as F.
    cbv beta in F. congruence. }
  pose proof (where_true_first _ _ _ _ _ E) as Ek.
  destruct (first_index_found _ d _ _ _ Ek) as (_ & Lk & _).
  rewrite Nat.sub_0_r in Lk.
  destruct (argmin_spec (map (fun x => Qabs (x - target_lat)) (latitude g)))
    as (i & Ei & Li & Hmin_i & Hfirst_i).
  { destruct (latitude g); [congruence|discriminate]. }
  destruct (argmin_spec (map (fun x => Qabs (x - target_lon)) (longitude g)))
    as (j & Ej & Lj & Hmin_j & Hfirst_j).
  { destruct (longitude g); [congruence|discriminate]. }
  rewrite length_map in Li, Lj, Hmin_i, Hmin_j.
  exists var, k, i, j. split; [exact Ev|]. split.
  { unfold get_data_for_day_and_coordinate.
    rewrite Hopen, E, Ei, Ej, Hdet, Ev.
    now rewrite (item3_cell3 g var k i j Hs Lk Li Lj). }
  repeat (split; [assumption|]).
  split; [|split; [|split; [assumption|split]]].
  - intros i' L'. rewrite <- !nth_distances by assumption. now apply Hmin_i.
  - intros i' L'. rewrite <- !nth_distances by lia. now apply Hfirst_i.
  - intros j' L'. rewrite <- !nth_distances by assumption. now apply Hmin_j.
  - intros j' L'. rewrite <- !nth_distances by lia. now apply Hfirst_j.
Qed.

(** X15. On a well-formed dataset with a data variable and non-empty axes,
    the point lookup returns a value for every target coordinate, in bounds
    or not, as soon as the target date is on the time axis: the value of the
    variable at the first time step of that date and at the nearest latitude
    and longitude indices (the lowest ones on ties). *)
Theorem point_lookup_nearest_cell (w : world) (netcdf_file name : string)
    (g : Grid) (target_date : iso_date) (target_lat target_lon : Q) :
  assoc netcdf_file (datasets w) = Some g ->
  well_formed g -> detect_variable g = Some name ->
  latitude g <> [] -> longitude g <> [] ->
  (exists d, In d (time g) /\ datetime_eqb d (strptime target_date) = true) ->
  exists var k i j,
    variable g (Some name) = Ok var
    /\ get_data_for_day_and_coordinate w netcdf_file target_date target_lat
                                       target_lon
       = inr (cell3 var k i j)
    /\ first_index (fun d => datetime_eqb d (strptime target_date)) 0 (time g)
       = Ok k
    /\ (k < List.length (time g))%nat
    /\ argmin (map (fun x => Qabs (x - target_lat)) (latitude g)) = Ok i
    /\ argmin (map (fun x => Qabs (x - target_lon)) (longitude g)) = Ok j
    /\ (i < List.length (latitude g))%nat
    /\ (forall i', (i' < List.length (latitude g))%nat ->
                   distance (latitude g) target_lat i
                   <= distance (latitude g) target_lat i')
    /\ (forall i', (i' < i)%nat ->
                   distance (latitude g) target_lat i
                   < distance (latitude g) target_lat i')
    /\ (j < List.length (longitude g))%nat
    /\ (forall j', (j' < List.length (longitude g))%nat ->
                   distance (longitude g) target_lon j
                   <= distance (longitude g) target_lon j')
    /\ (forall j', (j' < j)%nat ->
                   distance (longitude g) target_lon j
                   < distance (longitude g) target_lon j').
Proof. apply point_lookup_value. Qed.

Lemma point_lookup_nearest_cell_witness :
  exists var k i j,
    variable example_grid (Some "tg"%string) = Ok var
    /\ get_data_for_day_and_coordinate example_world
         (path_join "netcdf4data" example_filename) (mk_iso_date 2013 1 2)
         60 5
       = inr (cell3 var k i j)
    /\ first_index
         (fun d => datetime_eqb d (strptime (mk_iso_date 2013 1 2))) 0
         (time example_grid)
       = Ok k
    /\ (k < List.length (time example_grid))%nat
    /\ argmin (map (fun x => Qabs (x - 60)) (latitude example_grid)) = Ok i
    /\ argmin (map (fun x => Qabs (x - 5)) (longitude example_grid)) = Ok j
    /\ (i < List.length (latitude example_grid))%nat
    /\ (forall i', (i' < List.length (latitude example_grid))%nat ->
                   distance (latitude example_grid) 60 i
                   <= distance (latitude example_grid) 60 i')
    /\ (forall i', (i' < i)%nat ->
                   distance (latitude example_grid) 60 i
                   < distance (latitude example_grid) 60 i')
    /\ (j < List.length (longitude example_grid))%nat
    /\ (forall j', (j' < List.length (longitude example_grid))%nat ->
                   distance (longitude example_grid) 5 j
                   <= distance (longitude example_grid) 5 j')
    /\ (forall j', (j' < j)%nat ->
                   distance (longitude example_grid) 5 j
                   < distance (longitude example_grid) 5 j').
Proof.
  apply (point_lookup_nearest_cell example_world
           (path_join "netcdf4data" example_filename) "tg" example_grid
           (mk_iso_date 2013 1 2) 60 5).
  - reflexivity.
  - exact example_grid_well_formed.
  - reflexivity.
  - discriminate.
  - discriminate.
  - exists (jan 2). split; [simpl; tauto|reflexivity].
Defined.

Lemma find_index_is_argmin (g : Grid) (t : Q) (ax : coordinate_type)
    (i : nat) :
  find_index g t ax = Ok i ->
  argmin (map (fun x => Qabs (x - t)) (axis_values g ax)) = Ok i
  /\ axis_values g ax <> [].
Proof.
  unfold find_index. destruct (axis_values g ax) as [|c cs]; [discriminate|].
  destruct (Qltb t (amin c cs) || Qltb (amax c cs) t); [discriminate|].
  intro H. split; [exact H|discriminate].
Qed.

Lemma point_region_window (g : Grid) (lat lon : Q) (la lo : slice) :
  get_lat_lon_indices g (point_region lat lon) = Ok (la, lo) ->
  exists a b,
    find_index g lat Latitude = Ok a /\ find_index g lon Longitude = Ok b
    /\ la = (a, a + 1)%nat /\ lo = (b, b + 1)%nat.
Proof.
  unfold get_lat_lon_indices, point_region; cbn [nw_lat nw_lon se_lat se_lon].
  destruct (find_index g lat Latitude) as [a|]; [|discriminate].
  destruct (find_index g lon Longitude) as [b|]; [|discriminate].
  cbn [bind]. rewrite !Nat.min_id, !Nat.max_id. intro H. inversion H.
  exists a, b. repeat split.
Qed.

(** The row of a time step in the file extracted for a region of one
    point. *)
Lemma point_extraction_row (g : Grid) (name : string) (lat lon : Q)
    (out : string) (w w' : world) :
  well_formed g -> detect_variable g = Some name ->
  extract g (point_region lat lon) out None None w = (Ok tt, w') ->
  exists table var a b,
    assoc out (csv_files w') = Some table
    /\ variable g (Some name) = Ok var
    /\ find_index g lat Latitude = Ok a
    /\ find_index g lon Longitude = Ok b
    /\ forall k d, (k < List.length (time g))%nat ->
                   nth_error (csv_rows table) k
                   = Some (strftime (nth k (time g) d), [cell3 var k a b]).
Proof.
  intros Hwf Hdet H. unfold extract in H.
  destruct (process_data_inv _ _ _ _ _ H)
    as (s & e & la & lo & data & d0 & rest & Es & Ee & _ & Eg & Ed & _ & _
        & H3 & ->).
  cbn [dataset region output_filename] in *.
  inversion Es; subst s. inversion Ee; subst e.
  destruct (point_region_window g lat lon la lo Eg) as (a & b & Ea & Eb & -> & ->).
  destruct (detect_variable_found g name Hdet) as (var & Ev).
  pose proof (variable_shaped g _ var Hwf Ev) as Hs.
  pose proof (find_index_lt _ _ _ _ Ea) as La.
  pose proof (find_index_lt _ _ _ _ Eb) as Lb.
  cbn [axis_values] in La, Lb.
  set (self := mk_RegionalDataExtractor g (detect_variable g) out
                 (point_region lat lon)) in *.
  assert (Hself : variable (dataset self) (variable_name self) = Ok var).
  { unfold self; cbn [dataset variable_name]. now rewrite Hdet. }
  destruct (extract_data_cells self var a (a + 1) b (b + 1) None None data
              Hs Hself ltac:(cbn [dataset self]; lia)
              ltac:(cbn [dataset self]; lia) Ed)
    as (_ & Ldata & [_ Hrows] & Hcells).
  cbn [time_window] in Ldata.
  exists (extraction_table g (a, a + 1)%nat (b, b + 1)%nat None None data),
    var, a, b.
  split; [apply assoc_head|]. split; [exact Ev|].
  split; [exact Ea|]. split; [exact Eb|].
  intros k d Lk. unfold extraction_table; cbn [csv_rows time_window].
  unfold extract_date in H3; cbn [dataset self time_window] in H3.
  assert (Lk' : (k < List.length data)%nat).
  { rewrite Ldata. destruct Hs as [Hs _]. lia. }
  rewrite (nth_error_nth' _ (strftime d, [])).
  2:{ rewrite length_combine, H3, Nat.min_id. exact Lk'. }
  rewrite (combine_nth _ _ _ _ _ H3). f_equal. f_equal.
  - apply (map_nth strftime).
  - assert (Lrow : List.length (nth k data []) = 1%nat).
    { rewrite Forall_forall in Hrows.
      rewrite (Hrows (nth k data [])) by now apply nth_In.
      replace (a + 1 - a)%nat with 1%nat by lia.
      replace (b + 1 - b)%nat with 1%nat by lia. reflexivity. }
    specialize (Hcells k 0%nat 0%nat Lk' ltac:(lia) ltac:(lia)).
    cbn [window_start] in Hcells.
    replace (0 * (b + 1 - b) + 0)%nat with 0%nat in Hcells by lia.
    rewrite !Nat.add_0_r, Nat.add_0_l in Hcells.
    destruct (nth k data []) as [|x [|y row]]; try discriminate.
    simpl in Hcells. now rewrite Hcells.
Qed.

(** X16. The point lookup agrees with the extractor: for a well-formed
    dataset and a target date on its time axis, the value it returns is the
    single cell, in the row of the first time step of that date, of the file
    that an extraction without dates writes for the region whose two corners
    are the target point. *)
Theorem point_lookup_agrees_with_extraction (g : Grid) (name : string)
    (netcdf_file out : string) (target_date : iso_date) (lat lon : Q)
    (w w' : world) :
  assoc netcdf_file (datasets w) = Some g ->
  well_formed g -> detect_variable g = Some name ->
  (exists d, In d (time g) /\ datetime_eqb d (strptime target_date) = true) ->
  extract g (point_region lat lon) out None None w = (Ok tt, w') ->
  exists table k v,
    assoc out (csv_files w') = Some table
    /\ first_index (fun d => datetime_eqb d (strptime target_date)) 0 (time g)
       = Ok k
    /\ get_data_for_day_and_coordinate w netcdf_file target_date lat lon
       = inr v
    /\ nth_error (csv_rows table) k
       = Some (strftime (nth k (time g) (strptime target_date)), [v]).
Proof.
  intros Hopen Hwf Hdet Hdate H.
  destruct (point_extraction_row g name lat lon out w w' Hwf Hdet H)
    as (table & var & a & b & Ht & Ev & Ea & Eb & Hrow).
  destruct (find_index_is_argmin _ _ _ _ Ea) as [Aa Na].
  destruct (find_index_is_argmin _ _ _ _ Eb) as [Ab Nb].
  cbn [axis_values] in Aa, Ab, Na, Nb.
  destruct (point_lookup_value w netcdf_file name g target_date lat lon
              Hopen Hwf Hdet Na Nb Hdate)
    as (var' & k & i & j & Ev' & Hget & Ek & Lk & Ei & Ej & _).
  assert (var' = var) by congruence.
  assert (i = a) by congruence. assert (j = b) by congruence. subst.
  exists table, k, (cell3 var k a b).
  split; [exact Ht|]. split; [exact Ek|]. split; [exact Hget|].
  now apply Hrow.
Qed.

Lemma point_lookup_agrees_with_extraction_witness :
  exists table k v,
    assoc "point.csv"
          (csv_files (snd (extract example_grid (point_region (514 # 10) 0)
                                   "point.csv" None None example_world)))
    = Some table
    /\ first_index
         (fun d => datetime_eqb d (strptime (mk_iso_date 2013 1 2))) 0
         (time example_grid)
       = Ok k
    /\ get_data_for_day_and_coordinate example_world
         (path_join "netcdf4data" example_filename) (mk_iso_date 2013 1 2)
         (514 # 10) 0
       = inr v
    /\ nth_error (csv_rows table) k
       = Some (strftime (nth k (time example_grid)
                             (strptime (mk_iso_date 2013 1 2))), [v]).
Proof.
  apply (point_lookup_agrees_with_extraction example_grid "tg"
           (path_join "netcdf4data" example_filename) "point.csv"
           (mk_iso_date 2013 1 2) (514 # 10) 0 example_world).
  - reflexivity.
  - exact example_grid_well_formed.
  - reflexivity.
  - exists (jan 2). split; [simpl; tauto|reflexivity].
  - reflexivity.
Defined.

(** ** File names *)

Local Open Scope string_scope.

Lemma str_split_nonempty (c : ascii) (s : string) : str_split c s <> [].
Proof.
  destruct s as [|x s]; simpl; [discriminate|].
  destruct (Ascii.eqb x c); [discriminate|].
  destruct (str_split c s); discriminate.
Qed.

Lemma str_split_no_separator (c : ascii) (s : string) :
  has_char c s = false -> str_split c s = [s].
Proof.
  induction s as [|x s IH]; simpl; [reflexivity|].
  intro H. apply orb_false_iff in H. destruct H as [H1 H2].
  rewrite H1, (IH H2). reflexivity.
Qed.

(** Splitting distributes over a separator: [(a + c + b).split(c)] is
    [a.split(c) + b.split(c)]. *)
Lemma str_split_app (c : ascii) (a b : string) :
  str_split c (a ++ String c b) = (str_split c a ++ str_split c b)%list.
Proof.
  induction a as [|x a IH]; simpl.
  - now rewrite Ascii.eqb_refl.
  - destruct (Ascii.eqb x c); [now rewrite IH|].
    rewrite IH. pose proof (str_split_nonempty c a) as N.
    destruct (str_split c a); [congruence|reflexivity].
Qed.

Lemma has_char_app (c : ascii) (a b : string) :
  has_char c (a ++ b) = has_char c a || has_char c b.
Proof.
  induction a as [|x a IH]; simpl; [reflexivity|].
  now rewrite IH, orb_assoc.
Qed.

(** X17. The variable name that the batches derive from a file name is the
    text before its first underscore, and the whole file name when it has
    no underscore. *)
Theorem variable_is_leading_token (v rest : string) :
  has_char "_" v = false ->
  variable_of_filename (v ++ String "_" rest) = v
  /\ variable_of_filename v = v.
Proof.
  intro H. unfold variable_of_filename.
  rewrite str_split_app, !(str_split_no_separator _ v H). split; reflexivity.
Qed.

Lemma variable_is_leading_token_witness :
  variable_of_filename ("tg" ++ String "_" "ens_mean_0.1deg_reg_v29.0e.nc")
  = "tg"
  /\ variable_of_filename "tg" = "tg".
Proof.
  apply (variable_is_leading_token "tg" "ens_mean_0.1deg_reg_v29.0e.nc").
  reflexivity.
Defined.

Lemma prefix_nc_occurs (c : ascii) (v : string) :
  prefix ".nc" (String c (v ++ ".nc")) = true -> occurs ".nc" (String c v).
Proof.
  cbn [prefix]. destruct (ascii_dec "." c) as [<-|]; [|discriminate].
  destruct v as [|x v]; cbn [append prefix].
  { destruct (ascii_dec "n" ".") as [e|]; [discriminate e|discriminate]. }
  destruct (ascii_dec "n" x) as [<-|]; [|discriminate].
  destruct v as [|y v]; cbn [append prefix].
  { destruct (ascii_dec "c" ".") as [e|]; [discriminate e|discriminate]. }
  destruct (ascii_dec "c" y) as [<-|]; [|discriminate].
  intros _. exists "", v. reflexivity.
Qed.

Lemma remove_extension (v : string) :
  ~ occurs ".nc" v -> remove_all ".nc" (v ++ ".nc") = v.
Proof.
  unfold remove_all. induction v as [|c v IH]; intro H; [reflexivity|].
  change ((String c v) ++ ".nc") with (String c (v ++ ".nc")).
  cbn [remove_from].
  destruct (prefix ".nc" (String c (v ++ ".nc"))) eqn:E.
  - exfalso. apply H. now apply prefix_nc_occurs.
  - f_equal. apply IH. intros (a & b & ->). apply H.
    exists (String c a), b. reflexivity.
Qed.

(** X18. The version that the batches derive from a file name ending in an
    underscore, a token and [.nc] is that token, when the token holds
    neither an underscore nor the text [.nc]. *)
Theorem version_is_trailing_token (pre ver : string) :
  has_char "_" ver = false -> ~ occurs ".nc" ver ->
  version_of_filename (pre ++ String "_" (ver ++ ".nc")) = ver.
Proof.
  intros H N. unfold version_of_filename. rewrite str_split_app.
  rewrite (str_split_no_separator "_" (ver ++ ".nc"))
    by (rewrite has_char_app, H; reflexivity).
  rewrite last_last. now apply remove_extension.
Qed.

Lemma no_nc_in_version : ~ occurs ".nc" "v29.0e".
Proof.
  intros (a & b & H).
  destruct a as [|a0 [|a1 [|a2 [|a3 [|a4 [|a5 [|a6 a]]]]]]];
    simpl in H; try discriminate;
    inversion H; subst;
    repeat match goal with
           | E : _ = (_ ++ _)%string |- _ => simpl in E; try discriminate E
           end.
Qed.

Lemma version_is_trailing_token_witness :
  version_of_filename
    ("tg_ens_mean_0.1deg_reg" ++ String "_" ("v29.0e" ++ ".nc"))
  = "v29.0e".
Proof.
  apply (version_is_trailing_token "tg_ens_mean_0.1deg_reg" "v29.0e").
  - reflexivity.
  - exact no_nc_in_version.
Defined.

Local Close Scope string_scope.

(** ** One altered cell *)

Lemma example_shape_2_2 : has_shape [[1; 2]; [3; 4]] 2 2.
Proof. split; [reflexivity|]. repeat constructor. Qed.

(** X20. When one cell of a copy of the grid matrix is replaced by a value
    out of tolerance and the dates agree, the comparison returns [False] and
    the only position among its mismatch lines is the altered one, with the
    altered and the original value. *)
Theorem altered_cell_is_the_only_report (dates : list string)
    (m : list (list Q)) (r c : nat) (idx : nat * nat) (v : Q) (w : world) :
  has_shape m r c -> (fst idx < r)%nat -> (snd idx < c)%nat ->
  ~ within_tolerance v (cell m idx) ->
  let out := compare_loaded dates (set_cell m idx v) dates m w in
  fst out = Ok false
  /\ snd out = add_lines w (Print_data_mismatch_found
                              :: mismatch_lines (set_cell m idx v) m r c)
  /\ (forall idx' x y,
        In (Print_mismatch_at idx' x y) (mismatch_lines (set_cell m idx v) m r c)
        <-> idx' = idx /\ x = v /\ y = cell m idx).
Proof.
  intros Hm Hi Hj Hv out.
  destruct (compare_loaded_same_shape dates (set_cell m idx v) m r c w
              (set_cell_shape m r c idx v Hm) Hm) as (H1 & _ & H3 & H4).
  fold out in H1, H3.
  assert (Hsame : cell (set_cell m idx v) idx = v).
  { rewrite (cell_set_cell m r c idx idx v Hm Hi Hj).
    now rewrite !Nat.eqb_refl. }
  assert (N : fst out <> Ok true).
  { intro E. apply Hv. rewrite <- Hsame.
    replace idx with (fst idx, snd idx) by now destruct idx.
    now apply (proj1 H1 E). }
  destruct (H3 N) as [E1 E2]. split; [exact E1|]. split; [exact E2|].
  intros idx' x y. rewrite H4. split.
  - intros (Hi' & Hj' & -> & -> & Hn).
    rewrite (cell_set_cell m r c idx idx' v Hm Hi Hj) in *.
    destruct (Nat.eqb_spec (fst idx') (fst idx)) as [Ea|Na]; cbn [andb] in *.
    + destruct (Nat.eqb_spec (snd idx') (snd idx)) as [Eb|Nb].
      * assert (idx' = idx) by (destruct idx, idx'; simpl in *; congruence).
        subst. auto.
      * exfalso. apply Hn. apply isclose_within_tolerance, isclose_refl.
    + exfalso. apply Hn. apply isclose_within_tolerance, isclose_refl.
  - intros (-> & -> & ->). rewrite Hsame. repeat split; auto.
Qed.

Lemma altered_cell_is_the_only_report_witness :
  let m := [[1; 2]; [3; 4]] in
  let out := compare_loaded ["2013-01-01"; "2013-01-02"]%string
                            (set_cell m (1, 0)%nat 10)
                            ["2013-01-01"; "2013-01-02"]%string m
                            example_world in
  fst out = Ok false
  /\ snd out = add_lines example_world
                 (Print_data_mismatch_found
                    :: mismatch_lines (set_cell m (1, 0)%nat 10) m 2 2)
  /\ (forall idx' x y,
        In (Print_mismatch_at idx' x y)
           (mismatch_lines (set_cell m (1, 0)%nat 10) m 2 2)
        <-> idx' = (1, 0)%nat /\ x = 10 /\ y = cell m (1, 0)%nat).
Proof.
  apply (altered_cell_is_the_only_report
           ["2013-01-01"; "2013-01-02"]%string
           [[1; 2]; [3; 4]] 2 2 (1, 0)%nat 10 example_world).
  - exact example_shape_2_2.
  - simpl. lia.
  - simpl. lia.
  - intro H. apply Qle_bool_iff in H. discriminate.
Defined.

(** ** The loader of the verifier *)

(** X22. The loader of the verifier and the two extraction functions of the
    extractor agree: for the same dataset, variable and window,
    [load_netcdf_data] returns the dates of [extract_date] and the matrix
    of [extract_data], or raises what [extract_data] raises. *)
Theorem loader_agrees_with_extractor (self : RegionalDataExtractor)
    (filepath name : string) (lat_range lon_range : slice)
    (s e : option nat) (w : world) :
  assoc filepath (datasets w) = Some (dataset self) ->
  variable_name self = Some name ->
  load_netcdf_data filepath name lat_range lon_range s e w
  = match extract_data self lat_range lon_range s e with
    | Ok data => (Ok (extract_date self s e, data), w)
    | Raise ex => (Raise ex, w)
    end.
Proof.
  intros Hopen Hname.
  unfold load_netcdf_data, extract_data, extract_date.
  unfold bindM at 1, open_dataset at 1. rewrite Hopen, Hname.
  unfold bindM at 1, lift at 1.
  destruct (variable (dataset self) (Some name)) as [var|ex]; [|reflexivity].
  cbn [bind]. unfold bindM, lift, ret.
  destruct (reshape_rows (subarray lat_range lon_range (time_window s e var)));
    reflexivity.
Qed.

Lemma loader_agrees_with_extractor_witness :
  let self := mk_RegionalDataExtractor example_grid
                (detect_variable example_grid) "out.csv" example_region in
  load_netcdf_data (path_join "netcdf4data" example_filename) "tg"
                   (0, 2)%nat (1, 3)%nat (Some 1%nat) None example_world
  = match extract_data self (0, 2)%nat (1, 3)%nat (Some 1%nat) None with
    | Ok data =>
        (Ok (extract_date self (Some 1%nat) None, data), example_world)
    | Raise ex => (Raise ex, example_world)
    end.
Proof.
  apply (loader_agrees_with_extractor
           (mk_RegionalDataExtractor example_grid
              (detect_variable example_grid) "out.csv" example_region)
           (path_join "netcdf4data" example_filename) "tg");
    reflexivity.
Defined.

(** ** Batches that stop *)

Lemma find_index_cases (g : Grid) (t : Q) (ax : coordinate_type) :
  axis_values g ax <> [] ->
  (in_bounds (axis_values g ax) t /\ exists i, find_index g t ax = Ok i)
  \/ (out_of_bounds (axis_values g ax) t
      /\ find_index g t ax = Raise (ValueError_out_of_bounds ax t)).
Proof.
  intro NE. destruct (axis_values g ax) as [|c cs] eqn:EA; [congruence|].
  destruct (Qltb t (amin c cs) || Qltb (amax c cs) t) eqn:B.
  - right. split; [now apply out_of_bounds_test|].
    unfold find_index. now rewrite EA, B.
  - left. pose proof (not_out_in_bounds c cs t B) as Hin.
    split; [exact Hin|]. rewrite <- EA in Hin.
    destruct (find_index_in_bounds g ax t Hin) as (i & E & _). now exists i.
Qed.

(** A region with a corner out of bounds: [get_lat_lon_indices] raises the
    [ValueError] of a corner that is out of bounds. *)
Lemma region_out_of_bounds_raises (g : Grid) (r : Region) :
  latitude g <> [] -> longitude g <> [] -> ~ region_in_bounds g r ->
  exists ax t,
    get_lat_lon_indices g r = Raise (ValueError_out_of_bounds ax t)
    /\ In (ax, t) (corners r) /\ out_of_bounds (axis_values g ax) t.
Proof.
  intros HLa HLo Hnot. unfold get_lat_lon_indices.
  destruct (find_index_cases g (nw_lat r) Latitude HLa)
    as [[I1 (i1 & E1)]|[O1 E1]].
  2:{ exists Latitude, (nw_lat r). rewrite E1.
      split; [reflexivity|]. split; [simpl; tauto|exact O1]. }
  destruct (find_index_cases g (nw_lon r) Longitude HLo)
    as [[I2 (i2 & E2)]|[O2 E2]].
  2:{ exists Longitude, (nw_lon r). rewrite E1; cbn [bind]. rewrite E2.
      split; [reflexivity|]. split; [simpl; tauto|exact O2]. }
  destruct (find_index_cases g (se_lat r) Latitude HLa)
    as [[I3 (i3 & E3)]|[O3 E3]].
  2:{ exists Latitude, (se_lat r). rewrite E1; cbn [bind].
      rewrite E2; cbn [bind]. rewrite E3.
      split; [reflexivity|]. split; [simpl; tauto|exact O3]. }
  destruct (find_index_cases g (se_lon r) Longitude HLo)
    as [[I4 (i4 & E4)]|[O4 E4]].
  2:{ exists Longitude, (se_lon r). rewrite E1; cbn [bind].
      rewrite E2; cbn [bind]. rewrite E3; cbn [bind]. rewrite E4.
      split; [reflexivity|]. split; [simpl; tauto|exact O4]. }
  exfalso. apply Hnot. exact (conj I1 (conj I2 (conj I3 I4))).
Qed.

Lemma start_block_out_of_bounds (dates : list datetime) (sd : iso_date)
    (d0 dn : datetime) :
  item_first dates = Ok d0 -> item_last dates = Ok dn ->
  earlier (strptime sd) d0 \/ earlier dn (strptime sd) ->
  start_block dates (Some sd) = Raise (ValueError_starting_date (strptime sd)).
Proof.
  intros H0 Hn H. unfold start_block. rewrite H0, Hn; cbn [bind].
  assert (E : dt_lt (strptime sd) d0 || dt_gt (strptime sd) dn = true).
  { apply orb_true_iff. destruct H as [H|H].
    - left. now apply dt_lt_earlier.
    - right. now apply dt_gt_earlier. }
  now rewrite E.
Qed.

Lemma end_block_out_of_bounds (dates : list datetime) (ed : iso_date)
    (d0 dn : datetime) :
  item_first dates = Ok d0 -> item_last dates = Ok dn ->
  earlier (strptime ed) d0 \/ earlier dn (strptime ed) ->
  end_block dates (Some ed) = Raise (ValueError_ending_date (strptime ed)).
Proof.
  intros H0 Hn H. unfold end_block. rewrite H0, Hn; cbn [bind].
  assert (E : dt_lt (strptime ed) d0 || dt_gt (strptime ed) dn = true).
  { apply orb_true_iff. destruct H as [H|H].
    - left. now apply dt_lt_earlier.
    - right. now apply dt_gt_earlier. }
  now rewrite E.
Qed.

(** The loops leave the datasets as they are when their bodies do. *)
Lemma for_each_keeps_datasets {A} (body : A -> M unit) (l : list A) :
  (forall x w, datasets (snd (body x w)) = datasets w) ->
  forall w, datasets (snd (for_each body l w)) = datasets w.
Proof.
  intro H. induction l as [|x l IH]; intro w; cbn [for_each].
  - reflexivity.
  - unfold bindM. specialize (H x w).
    destruct (body x w) as [[u|e] w1]; cbn [snd] in H.
    + now rewrite IH.
    + exact H.
Qed.

Lemma legacy_process_data_keeps_datasets (self : RegionalDataExtractor)
    (sd : option iso_date) (w : world) :
  datasets (snd (Legacy.process_data self sd w)) = datasets w.
Proof.
  rewrite legacy_process_data_steps.
  destruct (start_block (time (dataset self)) sd) as [s|]; [|reflexivity].
  destruct (time_window s None (time (dataset self))) as [|d rest];
    [reflexivity|].
  cbv zeta.
  destruct (get_lat_lon_indices (dataset self) (region self)) as [[la lo]|];
    [|reflexivity].
  destruct (extract_data self la lo s None) as [data|]; [|reflexivity].
  unfold Legacy.save_to_csv.
  destruct (size data =? 0)%nat; [reflexivity|].
  destruct (negb _); reflexivity.
Qed.

Lemma process_data_keeps_datasets (self : RegionalDataExtractor)
    (sd ed : option iso_date) (w : world) :
  datasets (snd (process_data self sd ed w)) = datasets w.
Proof.
  destruct (process_data_world self sd ed w)
    as (ls & [(e & H)|(table & H & _)]); now rewrite H.
Qed.

(** One unit of a batch opens the dataset again and runs [process_data]. *)
Lemma legacy_region_unit_run (self : Legacy.NetCDFProcessor) (f city : string)
    (sd : option iso_date) (r : Region) (g : Grid) (w : world) :
  assoc (path_join (Legacy.netcdf_dir self) f) (datasets w) = Some g ->
  legacy_region_unit self f sd (city, r) w
  = Legacy.process_data
      (mk_RegionalDataExtractor g (detect_variable g)
         (path_join (path_join "CSVClimateData" (variable_of_filename f))
            (csv_name (variable_of_filename f) city (version_of_filename f)))
         r)
      sd w.
Proof.
  intro H. unfold legacy_region_unit, new_RegionalDataExtractor.
  unfold bindM at 1. unfold bindM at 1, open_dataset at 1. now rewrite H.
Qed.

Lemma region_unit_run (self : NetCDFProcessor) (f city : string)
    (sd ed : option iso_date) (r : Region) (g : Grid) (w : world) :
  assoc (path_join (netcdf_dir self) f) (datasets w) = Some g ->
  region_unit self f sd ed (city, r) w
  = process_data
      (mk_RegionalDataExtractor g (detect_variable g)
         (path_join
            (path_join (path_join (path_join ".." "..") (config_csv_dir self))
               (variable_of_filename f))
            (csv_name (variable_of_filename f) city (version_of_filename f)))
         r)
      sd ed w.
Proof.
  intro H. unfold region_unit, new_RegionalDataExtractor.
  unfold bindM at 1. unfold bindM at 1, open_dataset at 1. now rewrite H.
Qed.

Lemma legacy_region_unit_keeps_datasets (self : Legacy.NetCDFProcessor)
    (f : string) (sd : option iso_date) (x : string * Region) (w : world) :
  datasets (snd (legacy_region_unit self f sd x w)) = datasets w.
Proof.
  destruct x as [city r].
  destruct (assoc (path_join (Legacy.netcdf_dir self) f) (datasets w))
    as [g|] eqn:E.
  - rewrite (legacy_region_unit_run self f city sd r g w E).
    apply legacy_process_data_keeps_datasets.
  - unfold legacy_region_unit, new_RegionalDataExtractor.
    unfold bindM at 1. unfold bindM at 1, open_dataset at 1. now rewrite E.
Qed.

Lemma region_unit_keeps_datasets (self : NetCDFProcessor)
    (f : string) (sd ed : option iso_date) (x : string * Region) (w : world) :
  datasets (snd (region_unit self f sd ed x w)) = datasets w.
Proof.
  destruct x as [city r].
  destruct (assoc (path_join (netcdf_dir self) f) (datasets w))
    as [g|] eqn:E.
  - rewrite (region_unit_run self f city sd ed r g w E).
    apply process_data_keeps_datasets.
  - unfold region_unit, new_RegionalDataExtractor.
    unfold bindM at 1. unfold bindM at 1, open_dataset at 1. now rewrite E.
Qed.

(** [process_file] on a file that opens is the loop over the regions. *)
Lemma legacy_process_file_opens (self : Legacy.NetCDFProcessor)
    (f : string) (sd : option iso_date) (g : Grid) (w : world) :
  assoc (path_join (Legacy.netcdf_dir self) f) (datasets w) = Some g ->
  Legacy.process_file self f sd w
  = for_each (legacy_region_unit self f sd) (Legacy.coords self) w.
Proof.
  intro H. unfold Legacy.process_file, open_dataset. now rewrite H.
Qed.

Lemma process_file_opens (self : NetCDFProcessor)
    (f : string) (sd ed : option iso_date) (g : Grid) (w : world) :
  assoc (path_join (netcdf_dir self) f) (datasets w) = Some g ->
  process_file self f sd ed w
  = for_each (region_unit self f sd ed) (coords self) w.
Proof.
  intro H. unfold process_file, open_dataset. now rewrite H.
Qed.

(** What a unit raises leaves the file and the batch: the exception of
    [process_data] for one region is the outcome of [process_all]. *)
Lemma legacy_unit_raises_batch (self : Legacy.NetCDFProcessor)
    (sd : option iso_date) (w w1 w2 w3 : world) (pre post : list string)
    (f city : string) (g : Grid) (before after : list (string * Region))
    (r : Region) (e : exn) :
  filter (fun f => endswith f ".nc") (dir_listing w) = pre ++ f :: post ->
  for_each (fun filename => Legacy.process_file self filename sd) pre w
  = (Ok tt, w1) ->
  assoc (path_join (Legacy.netcdf_dir self) f) (datasets w1) = Some g ->
  Legacy.coords self = before ++ (city, r) :: after ->
  for_each (legacy_region_unit self f sd) before w1 = (Ok tt, w2) ->
  Legacy.process_data
    (mk_RegionalDataExtractor g (detect_variable g)
       (path_join (path_join "CSVClimateData" (variable_of_filename f))
          (csv_name (variable_of_filename f) city (version_of_filename f)))
       r)
    sd w2
  = (Raise e, w3) ->
  Legacy.process_all self sd w = (Raise e, w3).
Proof.
  intros Hl Hpre Hopen Hc Hb Hrun. unfold Legacy.process_all. rewrite Hl.
  eapply for_each_raises; [exact Hpre|].
  rewrite (legacy_process_file_opens self f sd g w1 Hopen), Hc.
  eapply for_each_raises; [exact Hb|].
  assert (Hopen2 : assoc (path_join (Legacy.netcdf_dir self) f) (datasets w2)
                   = Some g).
  { pose proof (for_each_keeps_datasets (legacy_region_unit self f sd) before
                  (legacy_region_unit_keeps_datasets self f sd) w1) as K.
    rewrite Hb in K. cbn [snd] in K. now rewrite K. }
  rewrite (legacy_region_unit_run self f city sd r g w2 Hopen2). exact Hrun.
Qed.

Lemma unit_raises_batch (self : NetCDFProcessor)
    (sd ed : option iso_date) (w w1 w2 w3 : world) (pre post : list string)
    (f city : string) (g : Grid) (before after : list (string * Region))
    (r : Region) (e : exn) :
  filter (fun f => endswith f ".nc") (dir_listing w) = pre ++ f :: post ->
  for_each (fun filename => process_file self filename sd ed) pre
           (add_lines w [Print_cwd])
  = (Ok tt, w1) ->
  assoc (path_join (netcdf_dir self) f) (datasets w1) = Some g ->
  coords self = before ++ (city, r) :: after ->
  for_each (region_unit self f sd ed) before w1 = (Ok tt, w2) ->
  process_data
    (mk_RegionalDataExtractor g (detect_variable g)
       (path_join
          (path_join (path_join (path_join ".." "..") (config_csv_dir self))
             (variable_of_filename f))
          (csv_name (variable_of_filename f) city (version_of_filename f)))
       r)
    sd ed w2
  = (Raise e, w3) ->
  process_all self sd ed w = (Raise e, w3).
Proof.
  intros Hl Hpre Hopen Hc Hb Hrun. unfold process_all, bindM, print.
  change (dir_listing (add_lines w [Print_cwd])) with (dir_listing w).
  rewrite Hl.
  eapply for_each_raises; [exact Hpre|].
  rewrite (process_file_opens self f sd ed g w1 Hopen), Hc.
  eapply for_each_raises; [exact Hb|].
  assert (Hopen2 : assoc (path_join (netcdf_dir self) f) (datasets w2)
                   = Some g).
  { pose proof (for_each_keeps_datasets (region_unit self f sd ed) before
                  (region_unit_keeps_datasets self f sd ed) w1) as K.
    rewrite Hb in K. cbn [snd] in K. now rewrite K. }
  rewrite (region_unit_run self f city sd ed r g w2 Hopen2). exact Hrun.
Qed.

Lemma far_region_out_of_bounds : ~ region_in_bounds example_grid far_region.
Proof.
  intros [[_ (b & Hb & Lb)] _]. simpl in Hb.
  destruct Hb as [<-|[<-|[<-|[]]]]; unfold Qle in Lb; simpl in Lb; lia.
Qed.

(** C8, amended. In a batch over the listed dataset files, a file that
    cannot be opened is reported by one line and skipped, and the batch goes
    on with the files that follow. An exception raised while a file is
    processed is not caught: whatever [process_data] raises for a region
    leaves [process_all], and the regions and files that follow are not
    processed. This is what happens at the first region of a file that opens
    for which the starting date lies outside the time axis, or for which a
    corner lies outside the grid: [process_all] raises the [ValueError] of
    that date or of that corner, and the world it leaves is the one the
    regions before had left, with at most the lines of the time window
    added. *)
Theorem batch_skips_missing_files_only (self : Legacy.NetCDFProcessor)
    (sd : option iso_date) (w w1 : world) (pre post : list string)
    (f : string) :
  filter (fun f => endswith f ".nc") (dir_listing w) = pre ++ f :: post ->
  for_each (fun filename => Legacy.process_file self filename sd) pre w
  = (Ok tt, w1) ->
  (assoc (path_join (Legacy.netcdf_dir self) f) (datasets w1) = None ->
   Legacy.process_all self sd w
   = for_each (fun filename => Legacy.process_file self filename sd) post
       (add_lines w1
          [Print_skipping (path_join (Legacy.netcdf_dir self) f)]))
  /\ (forall e w2,
        Legacy.process_file self f sd w1 = (Raise e, w2) ->
        Legacy.process_all self sd w = (Raise e, w2))
  /\ (forall g before city r after w2,
        assoc (path_join (Legacy.netcdf_dir self) f) (datasets w1) = Some g ->
        Legacy.coords self = before ++ (city, r) :: after ->
        for_each (legacy_region_unit self f sd) before w1 = (Ok tt, w2) ->
        (forall e w3,
           Legacy.process_data
             (mk_RegionalDataExtractor g (detect_variable g)
                (path_join
                   (path_join "CSVClimateData" (variable_of_filename f))
                   (csv_name (variable_of_filename f) city
                             (version_of_filename f)))
                r)
             sd w2
           = (Raise e, w3) ->
           Legacy.process_all self sd w = (Raise e, w3))
        /\ (forall d d0 dn,
              sd = Some d ->
              item_first (time g) = Ok d0 -> item_last (time g) = Ok dn ->
              earlier (strptime d) d0 \/ earlier dn (strptime d) ->
              Legacy.process_all self sd w
              = (Raise (ValueError_starting_date (strptime d)), w2))
        /\ (forall s,
              start_block (time g) sd = Ok s ->
              time_window s None (time g) <> [] ->
              latitude g <> [] -> longitude g <> [] ->
              ~ region_in_bounds g r ->
              exists ax t ls,
                Legacy.process_all self sd w
                = (Raise (ValueError_out_of_bounds ax t), add_lines w2 ls)
                /\ In (ax, t) (corners r)
                /\ out_of_bounds (axis_values g ax) t)).
Proof.
  intros Hl Hpre. split; [|split].
  - intro Hm. unfold Legacy.process_all. rewrite Hl.
    eapply for_each_continues; [exact Hpre|].
    now apply legacy_process_file_missing.
  - intros e w2 Hf. unfold Legacy.process_all. rewrite Hl.
    eapply for_each_raises; [exact Hpre|exact Hf].
  - intros g before city r after w2 Hopen Hc Hb. split; [|split].
    + intros e w3 Hrun. eapply legacy_unit_raises_batch; eauto.
    + intros d d0 dn -> H0 Hn Hout.
      eapply legacy_unit_raises_batch; eauto.
      rewrite legacy_process_data_steps. cbn [dataset].
      now rewrite (start_block_out_of_bounds (time g) d d0 dn H0 Hn Hout).
    + intros s Es Hw HLa HLo Hnot.
      destruct (region_out_of_bounds_raises g r HLa HLo Hnot)
        as (ax & t & Eg & Hin & Hout).
      destruct (time_window s None (time g)) as [|d0 rest] eqn:Ew;
        [congruence|].
      exists ax, t, [Print_first_date (is_some s) d0;
                     Print_last_date (is_some s) (last rest d0)].
      split; [|split; assumption].
      eapply legacy_unit_raises_batch; eauto.
      rewrite legacy_process_data_steps. cbn [dataset region].
      rewrite Es, Ew. cbv zeta. now rewrite Eg.
Qed.

Lemma batch_skips_missing_files_only_witness :
  let self := Legacy.mk_NetCDFProcessor "netcdf4data"
                [("Paris"%string, example_region);
                 ("Far"%string, far_region)] in
  let w1 := add_lines batch_world
              [Print_skipping (path_join "netcdf4data" missing_filename)] in
  let w2 := snd (for_each (legacy_region_unit self example_filename None)
                          [("Paris"%string, example_region)] w1) in
  Legacy.process_all self None batch_world
  = for_each (fun filename => Legacy.process_file self filename None)
      [example_filename; second_filename] w1
  /\ exists ax t ls,
       Legacy.process_all self None batch_world
       = (Raise (ValueError_out_of_bounds ax t), add_lines w2 ls)
       /\ In (ax, t) (corners far_region)
       /\ out_of_bounds (axis_values example_grid ax) t.
Proof.
  cbv zeta. split.
  - exact (proj1 (batch_skips_missing_files_only
                    (Legacy.mk_NetCDFProcessor "netcdf4data"
                       [("Paris"%string, example_region);
                        ("Far"%string, far_region)])
                    None batch_world batch_world []
                    [example_filename; second_filename] missing_filename
                    eq_refl eq_refl)
                 eq_refl).
  - pose proof (batch_skips_missing_files_only
                  (Legacy.mk_NetCDFProcessor "netcdf4data"
                     [("Paris"%string, example_region);
                      ("Far"%string, far_region)])
                  None batch_world
                  (add_lines batch_world
                     [Print_skipping
                        (path_join "netcdf4data" missing_filename)])
                  [missing_filename] [second_filename] example_filename
                  eq_refl eq_refl) as H.
    apply proj2, proj2 in H.
    refine (proj2 (proj2
                     (H example_grid [("Paris"%string, example_region)]
                        "Far"%string far_region [] _ eq_refl eq_refl eq_refl))
                  None eq_refl _ _ _ far_region_out_of_bounds);
      discriminate.
Defined.

(** X19. The same in [process_all] of [src/extractors]: a listed file that
    cannot be opened is reported by one line and skipped, and the batch goes
    on with the files that follow; whatever [process_data] raises for a
    region leaves [process_all], and the regions and files that follow are
    not processed. At the first region of a file that opens for which
    the starting date or the ending date lies outside the time axis, or a
    corner outside the grid, [process_all] raises the [ValueError] of that
    date or of that corner. *)
Theorem newer_batch_skips_missing_files_only (self : NetCDFProcessor)
    (sd ed : option iso_date) (w w1 : world) (pre post : list string)
    (f : string) :
  filter (fun f => endswith f ".nc") (dir_listing w) = pre ++ f :: post ->
  for_each (fun filename => process_file self filename sd ed) pre
           (add_lines w [Print_cwd])
  = (Ok tt, w1) ->
  (assoc (path_join (netcdf_dir self) f) (datasets w1) = None ->
   process_all self sd ed w
   = for_each (fun filename => process_file self filename sd ed) post
       (add_lines w1 [Print_skipping (path_join (netcdf_dir self) f)]))
  /\ (forall e w2,
        process_file self f sd ed w1 = (Raise e, w2) ->
        process_all self sd ed w = (Raise e, w2))
  /\ (forall g before city r after w2,
        assoc (path_join (netcdf_dir self) f) (datasets w1) = Some g ->
        coords self = before ++ (city, r) :: after ->
        for_each (region_unit self f sd ed) before w1 = (Ok tt, w2) ->
        (forall e w3,
           process_data
             (mk_RegionalDataExtractor g (detect_variable g)
                (path_join
                   (path_join
                      (path_join (path_join ".." "..") (config_csv_dir self))
                      (variable_of_filename f))
                   (csv_name (variable_of_filename f) city
                             (version_of_filename f)))
                r)
             sd ed w2
           = (Raise e, w3) ->
           process_all self sd ed w = (Raise e, w3))
        /\ (forall d d0 dn,
              sd = Some d ->
              item_first (time g) = Ok d0 -> item_last (time g) = Ok dn ->
              earlier (strptime d) d0 \/ earlier dn (strptime d) ->
              process_all self sd ed w
              = (Raise (ValueError_starting_date (strptime d)), w2))
        /\ (forall s d d0 dn,
              start_block (time g) sd = Ok s ->
              ed = Some d ->
              item_first (time g) = Ok d0 -> item_last (time g) = Ok dn ->
              earlier (strptime d) d0 \/ earlier dn (strptime d) ->
              process_all self sd ed w
              = (Raise (ValueError_ending_date (strptime d)), w2))
        /\ (forall s e,
              start_block (time g) sd = Ok s ->
              end_block (time g) ed = Ok e ->
              time_window s e (time g) <> [] ->
              latitude g <> [] -> longitude g <> [] ->
              ~ region_in_bounds g r ->
              exists ax t ls,
                process_all self sd ed w
                = (Raise (ValueError_out_of_bounds ax t), add_lines w2 ls)
                /\ In (ax, t) (corners r)
                /\ out_of_bounds (axis_values g ax) t)).
Proof.
  intros Hl Hpre.
  destruct (process_all_skips_missing_files_only self sd ed w w1 pre post f
              Hl Hpre) as [Hmiss Hraise].
  split; [exact Hmiss|]. split; [exact Hraise|].
  intros g before city r after w2 Hopen Hc Hb. split; [|split; [|split]].
  - intros e w3 Hrun. eapply unit_raises_batch; eauto.
  - intros d d0 dn -> H0 Hn Hout.
    eapply unit_raises_batch; eauto.
    rewrite process_data_steps. cbn [dataset].
    now rewrite (start_block_out_of_bounds (time g) d d0 dn H0 Hn Hout).
  - intros s d d0 dn Es -> H0 Hn Hout.
    eapply unit_raises_batch; eauto.
    rewrite process_data_steps. cbn [dataset]. rewrite Es.
    now rewrite (end_block_out_of_bounds (time g) d d0 dn H0 Hn Hout).
  - intros s e Es Ee Hw HLa HLo Hnot.
    destruct (region_out_of_bounds_raises g r HLa HLo Hnot)
      as (ax & t & Eg & Hin & Hout).
    destruct (time_window s e (time g)) as [|d0 rest] eqn:Ew; [congruence|].
    exists ax, t, [Print_first_date (is_some s) d0;
                   Print_last_date (is_some s) (last rest d0)].
    split; [|split; assumption].
    eapply unit_raises_batch; eauto.
    rewrite process_data_steps. cbn [dataset region].
    rewrite Es, Ee, Ew. cbv zeta. now rewrite Eg.
Qed.

Lemma newer_batch_skips_missing_files_only_witness :
  let self := mk_NetCDFProcessor "netcdf4data"
                [("Paris"%string, example_region);
                 ("Far"%string, far_region)] "CSVClimateData" in
  let w1 := add_lines (add_lines batch_world [Print_cwd])
              [Print_skipping (path_join "netcdf4data" missing_filename)] in
  let w2 := snd (for_each (region_unit self example_filename None None)
                          [("Paris"%string, example_region)] w1) in
  process_all self None None batch_world
  = for_each (fun filename => process_file self filename None None)
      [example_filename; second_filename] w1
  /\ exists ax t ls,
       process_all self None None batch_world
       = (Raise (ValueError_out_of_bounds ax t), add_lines w2 ls)
       /\ In (ax, t) (corners far_region)
       /\ out_of_bounds (axis_values example_grid ax) t.
Proof.
  cbv zeta. split.
  - exact (proj1 (newer_batch_skips_missing_files_only
                    (mk_NetCDFProcessor "netcdf4data"
                       [("Paris"%string, example_region);
                        ("Far"%string, far_region)] "CSVClimateData")
                    None None batch_world (add_lines batch_world [Print_cwd])
                    [] [example_filename; second_filename] missing_filename
                    eq_refl eq_refl)
                 eq_refl).
  - pose proof (newer_batch_skips_missing_files_only
                  (mk_NetCDFProcessor "netcdf4data"
                     [("Paris"%string, example_region);
                      ("Far"%string, far_region)] "CSVClimateData")
                  None None batch_world
                  (add_lines (add_lines batch_world [Print_cwd])
                     [Print_skipping
                        (path_join "netcdf4data" missing_filename)])
                  [missing_filename] [second_filename] example_filename
                  eq_refl eq_refl) as H.
    apply proj2, proj2 in H.
    refine (proj2 (proj2 (proj2
                     (H example_grid [("Paris"%string, example_region)]
                        "Far"%string far_region [] _ eq_refl eq_refl eq_refl)))
                  None None eq_refl eq_refl _ _ _ far_region_out_of_bounds);
      discriminate.
Defined.
